(** * Conversion classifier of the studio statistics dashboard

    A shallow embedding of the record-matching and classification code of
    [ConversionSummaryTable] (the [processedData] and [summaryStats]
    computations) and of the location rollup of [SmartQueryInterface],
    together with the properties the specification states about them.

    Modelling conventions.
    - A raw row is a JavaScript object used as a map from column label to a
      raw scalar: [gmap string cell]; an absent key reads as [undefined]
      ([None]).
    - A raw scalar is text or a number.  Numeric cells are integers (below
      10^21 in magnitude, where [String(n)] prints plain decimal digits); a
      fractional amount is carried as text, as a CSV reader delivers it.
    - Strings are sequences of 8-bit characters; [toLowerCase] acts on the
      ASCII letters.
    - Numbers computed by the code are exact decimals ([Q]) extended with
      [NaN] and the infinities; rounding to binary64 is not modelled (it
      preserves the sign of every decimal of magnitude at least 1e-323).
    - A thrown [TypeError] (calling [toLowerCase] on a number, reading a
      property of [undefined]) is the [TypeError] outcome of [result].
    - The accumulator objects of the two reducers of [SmartQueryInterface]
      are modelled by their own properties, in insertion order.  That is the
      object on ordinary keys; the statements on the order and the totals of
      the rollup and on the exclusion counts assume keys that are neither
      names of members of [Object.prototype] nor integer-like
      ([ordinary_key], [inherited]). *)

From Stdlib Require Import ZArith QArith String Ascii List Lia Bool DecimalString Sorted.
From stdpp Require Import base option gmap strings list.

Open Scope string_scope.
Open Scope list_scope.

(** ** Raw scalars, rows, numbers *)

Inductive cell : Type :=
  | CStr (s : string)
  | CNum (n : Z).

Global Instance cell_eq_dec : EqDecision cell.
Proof. solve_decision. Defined.

Abbreviation row := (gmap string cell).

Inductive number : Type :=
  | NaN
  | Inf (negative : bool)
  | Fin (q : Q).

Inductive result (A : Type) : Type :=
  | Ok (a : A)
  | TypeError.
Arguments Ok {A} a.
Arguments TypeError {A}.

Global Instance result_ret : MRet result := fun A a => Ok a.

Global Instance result_bind : MBind result := fun A B k m =>
  match m with
  | Ok a => k a
  | TypeError => TypeError
  end.

(** ** Strings *)

Definition ascii_code (a : ascii) : Z := Z.of_N (N_of_ascii a).

Definition lower_ascii (a : ascii) : ascii :=
  let n := ascii_code a in
  if (65 <=? n)%Z && (n <=? 90)%Z then ascii_of_N (Z.to_N (n + 32)) else a.

(** [s.toLowerCase()] *)
Fixpoint toLowerCase (s : string) : string :=
  match s with
  | EmptyString => EmptyString
  | String a rest => String (lower_ascii a) (toLowerCase rest)
  end.

(** [hay.includes(needle)] *)
Fixpoint includes (hay needle : string) : bool :=
  match hay with
  | EmptyString => String.prefix needle EmptyString
  | String _ rest => String.prefix needle hay || includes rest needle
  end.

(** [arr.join(sep)] *)
Fixpoint join (sep : string) (l : list string) : string :=
  match l with
  | [] => ""
  | [x] => x
  | x :: rest => x +:+ sep +:+ join sep rest
  end.

(** Decimal digits of an integer, as [String(n)] prints them. *)
Definition string_of_Z (n : Z) : string :=
  NilZero.string_of_int (Z.to_int n).

(** [String(v)] on a raw scalar *)
Definition String_of (c : cell) : string :=
  match c with
  | CStr s => s
  | CNum n => string_of_Z n
  end.

Definition is_numeric_char (a : ascii) : bool :=
  let n := ascii_code a in
  ((48 <=? n)%Z && (n <=? 57)%Z) || (n =? 46)%Z || (n =? 45)%Z.

(** [s.replace(/[^0-9.-]+/g, '')] *)
Fixpoint strip_non_numeric (s : string) : string :=
  match s with
  | EmptyString => EmptyString
  | String a rest =>
      if is_numeric_char a then String a (strip_non_numeric rest)
      else strip_non_numeric rest
  end.

Definition digit_of (a : ascii) : option Z :=
  let n := ascii_code a in
  if (48 <=? n)%Z && (n <=? 57)%Z then Some (n - 48)%Z else None.

(** Longest run of decimal digits at the front of [s]: its value (continuing
    from [acc]), how many digits were read, and the rest of the string. *)
Fixpoint take_digits (s : string) (acc : Z) (cnt : nat) : Z * nat * string :=
  match s with
  | EmptyString => (acc, cnt, s)
  | String a rest =>
      match digit_of a with
      | Some d => take_digits rest (10 * acc + d)%Z (S cnt)
      | None => (acc, cnt, s)
      end
  end.

Fixpoint pow10 (k : nat) : positive :=
  match k with
  | O => 1
  | S k' => 10 * pow10 k'
  end.

(** [parseFloat(s)] on the alphabet the replace above leaves (digits, [.]
    and [-]) together with a leading [+]: the longest prefix of the shape
    [sign digits], [sign digits . digits] or [sign . digits]; [NaN] when
    there is none.  (Exponents, [Infinity] and white space cannot occur
    after the replace.) *)
Definition parseFloat (s : string) : number :=
  let '(neg, body) :=
    match s with
    | String "-" rest => (true, rest)
    | String "+" rest => (false, rest)
    | _ => (false, s)
    end in
  let sgn (z : Z) := if neg : bool then (- z)%Z else z in
  let '(ip, ni, r1) := take_digits body 0 0 in
  match r1 with
  | String "." r2 =>
      let '(m, nf, _) := take_digits r2 ip 0 in
      match ni, nf with
      | O, O => NaN
      | _, _ => Fin (sgn m # pow10 nf)
      end
  | _ =>
      match ni with
      | O => NaN
      | _ => Fin (sgn ip # 1)
      end
  end.


(** ** JavaScript operators on raw scalars and numbers *)

(** Truthiness: the empty string and [0] are falsy. *)
Definition truthy (c : cell) : bool :=
  match c with
  | CStr s => negb (String.eqb s "")
  | CNum n => negb (n =? 0)%Z
  end.

(** [v || d], for a property read [v] ([None] is [undefined]) *)
Definition or_else (v : option cell) (d : cell) : cell :=
  match v with
  | Some c => if truthy c then c else d
  | None => d
  end.

(** [v === c], for a property read [v]: same type and same value *)
Definition strict_eq (v : option cell) (c : cell) : bool :=
  bool_decide (v = Some c).

(** [c.toLowerCase()]: a number has no such method *)
Definition cell_toLowerCase (c : cell) : result string :=
  match c with
  | CStr s => Ok (toLowerCase s)
  | CNum _ => TypeError
  end.

Definition gt0 (x : number) : bool :=
  match x with
  | Fin q => (0 <? Qnum q)%Z
  | Inf negative => negb negative
  | NaN => false
  end.

Definition lt0 (x : number) : bool :=
  match x with
  | Fin q => (Qnum q <? 0)%Z
  | Inf negative => negative
  | NaN => false
  end.

Definition le0 (x : number) : bool :=
  match x with
  | Fin q => (Qnum q <=? 0)%Z
  | Inf negative => negative
  | NaN => false
  end.

(** [x || 0] on a nullable number: [null], [NaN] and [0] give [0]. *)
Definition num_or_zero (x : option number) : number :=
  match x with
  | Some (Fin q) => if (Qnum q =? 0)%Z then Fin 0 else Fin q
  | Some (Inf negative) => Inf negative
  | Some NaN | None => Fin 0
  end.

(** [a + b] *)
Definition num_add (a b : number) : number :=
  match a, b with
  | NaN, _ | _, NaN => NaN
  | Inf s, Inf t => if Bool.eqb s t then Inf s else NaN
  | Inf s, Fin _ | Fin _, Inf s => Inf s
  | Fin x, Fin y => Fin (x + y)
  end.

(** [a / b] on finite operands: [0/0] is [NaN], [a/0] an infinity. *)
Definition num_div (a b : Q) : number :=
  if (Qnum b =? 0)%Z then
    if (Qnum a =? 0)%Z then NaN else Inf (Qnum a <? 0)%Z
  else Fin (a / b).

(** [x * 100] *)
Definition times100 (x : number) : number :=
  match x with
  | Fin q => Fin (q * 100)
  | other => other
  end.

(** Time values: [Some t] is [t] milliseconds since the epoch, [None] is
    the [NaN] time value of an invalid date. *)
Definition date_ge (a b : option Z) : bool :=
  match a, b with
  | Some x, Some y => (y <=? x)%Z
  | _, _ => false
  end.

Definition date_lt (a b : option Z) : bool :=
  match a, b with
  | Some x, Some y => (x <? y)%Z
  | _, _ => false
  end.

(** [!isNaN(d.getTime())] *)
Definition date_valid (d : option Z) : bool :=
  match d with
  | Some _ => true
  | None => false
  end.

(** [Math.ceil(ms / (1000 * 60 * 60 * 24))], exact on differences of time
    values within a few thousand years. *)
Definition ceil_days (ms : Z) : Z := (- ((- ms) / 86400000))%Z.

(** ** ISO date-only strings

    [Date.parse] is fixed by the language only for the ISO formats; the
    date-only form [YYYY-MM-DD] denotes midnight UTC.  The classifier below
    is parametric in [Date.parse]; this instance serves the concrete
    scenarios. *)

Definition days_from_civil (y m d : Z) : Z :=
  let y' := if (m <=? 2)%Z then (y - 1)%Z else y in
  let era := (y' / 400)%Z in
  let yoe := (y' - era * 400)%Z in
  let mp := if (m >? 2)%Z then (m - 3)%Z else (m + 9)%Z in
  let doy := ((153 * mp + 2) / 5 + d - 1)%Z in
  let doe := (yoe * 365 + yoe / 4 - yoe / 100 + doy)%Z in
  (era * 146097 + doe - 719468)%Z.

Definition is_leap (y : Z) : bool :=
  ((y mod 4 =? 0)%Z && negb (y mod 100 =? 0)%Z) || (y mod 400 =? 0)%Z.

Definition days_in_month (y m : Z) : Z :=
  if (m =? 2)%Z then (if is_leap y then 29 else 28)%Z
  else if (m =? 4)%Z || (m =? 6)%Z || (m =? 9)%Z || (m =? 11)%Z then 30%Z
  else 31%Z.

Definition iso_date_parse (s : string) : option Z :=
  match s with
  | String y1 (String y2 (String y3 (String y4 (String "-"
      (String m1 (String m2 (String "-" (String d1 (String d2 EmptyString))))))))) =>
      match digit_of y1, digit_of y2, digit_of y3, digit_of y4,
            digit_of m1, digit_of m2, digit_of d1, digit_of d2 with
      | Some a, Some b, Some c, Some d, Some e, Some f, Some g, Some h =>
          let y := (1000 * a + 100 * b + 10 * c + d)%Z in
          let m := (10 * e + f)%Z in
          let dd := (10 * g + h)%Z in
          if (1 <=? m)%Z && (m <=? 12)%Z && (1 <=? dd)%Z && (dd <=? days_in_month y m)%Z
          then Some (days_from_civil y m dd * 86400000)%Z
          else None
      | _, _, _, _, _, _, _, _ => None
      end
  | _ => None
  end.


(** ** The classifier: [processedData] of [ConversionSummaryTable] *)

Inductive status : Type :=
  | converted
  | not_converted.

Global Instance status_eq_dec : EqDecision status.
Proof. solve_decision. Defined.

Record ProcessedClient : Type := mkProcessedClient {
  memberID : cell;
  firstName : cell;
  lastName : cell;
  email : cell;
  firstVisitDate : cell;
  firstVisitLocation : cell;
  membershipUsed : cell;
  teacher : cell;
  firstPurchaseDate : option cell;
  firstPurchaseProduct : option cell;
  firstPurchaseValue : option number;
  conversionStatus : status;
  conversionDetails : string;
  daysToConversion : option Z;
  validationErrors : list string
}.

Definition quote : string := String "034"%char EmptyString.

(** [sale['Date'] || sale.date || ''] *)
Definition sale_Date (sale : row) : cell :=
  or_else (sale !! "Date") (or_else (sale !! "date") (CStr "")).

(** [parseFloat(String(sale['Sale value'] || sale.value || '0').replace(...))] *)
Definition sale_value (sale : row) : number :=
  parseFloat (strip_non_numeric (String_of
    (or_else (sale !! "Sale value") (or_else (sale !! "value") (CStr "0"))))).

(** [sale['Category'] || sale.category || ''] *)
Definition sale_Category (sale : row) : cell :=
  or_else (sale !! "Category") (or_else (sale !! "category") (CStr "")).

(** [sale['Item'] || sale.item || sale.product || ''] *)
Definition sale_Item (sale : row) : cell :=
  or_else (sale !! "Item")
    (or_else (sale !! "item") (or_else (sale !! "product") (CStr ""))).

(** [sale['Refunded'] === 'YES'] *)
Definition sale_refunded (sale : row) : bool :=
  strict_eq (sale !! "Refunded") (CStr "YES").

Definition emailMatch (email : cell) (sale : row) : bool :=
  strict_eq (sale !! "Customer email") email
  || strict_eq (sale !! "Paying Customer email") email
  || strict_eq (sale !! "email") email.

Definition memberIDMatch (memberID : cell) (sale : row) : bool :=
  strict_eq (sale !! "Member ID") memberID
  || strict_eq (sale !! "memberID") memberID.

Definition matchingSales (email memberID : cell) (salesData : list row) : list row :=
  List.filter (fun sale => emailMatch email sale || memberIDMatch memberID sale) salesData.

(** The check at the head of the loop body:
    [client.Teacher && client.Teacher.toLowerCase().includes('all trainers')] *)
Definition skipRow (client : row) : result bool :=
  match client !! "Teacher" with
  | Some c =>
      if truthy c then
        t ← cell_toLowerCase c; Ok (includes t "all trainers")
      else Ok false
  | None => Ok false
  end.

Definition client_memberID (index : nat) (client : row) : cell :=
  or_else (client !! "Member ID")
    (or_else (client !! "memberID")
       (or_else (client !! "id")
          (CStr ("client_" +:+ string_of_Z (Z.of_nat index))))).

Definition client_firstName (client : row) : cell :=
  or_else (client !! "First name") (or_else (client !! "firstName") (CStr "")).

Definition client_lastName (client : row) : cell :=
  or_else (client !! "Last name") (or_else (client !! "lastName") (CStr "")).

Definition client_email (client : row) : cell :=
  or_else (client !! "Email") (or_else (client !! "email") (CStr "")).

Definition client_firstVisitDate (client : row) : cell :=
  or_else (client !! "First visit at")
    (or_else (client !! "firstVisitAt") (or_else (client !! "date") (CStr ""))).

Definition client_firstVisitLocation (client : row) : cell :=
  or_else (client !! "First visit location")
    (or_else (client !! "location") (CStr "")).

Definition client_membershipUsed (client : row) : cell :=
  or_else (client !! "Membership used")
    (or_else (client !! "membershipUsed") (CStr "")).

Definition client_teacher (client : row) : cell :=
  or_else (client !! "Teacher") (or_else (client !! "teacher") (CStr "Unknown")).

Section Classifier.

(** [Date.parse] of the host: outside the ISO formats its result is
    implementation-defined, so the classifier is parametric in it. *)
Variable Date_parse : string -> option Z.

(** [safeFormatCurrency] of [@/lib/utils]. *)
Variable safeFormatCurrency : number -> string.

(** [new Date(v).getTime()]: text is parsed, a number is the time value
    itself when within the range of time values. *)
Definition newDate (c : cell) : option Z :=
  match c with
  | CStr s => Date_parse s
  | CNum n => if (Z.abs n <=? 8640000000000000)%Z then Some n else None
  end.

Definition saleTime (sale : row) : option Z := newDate (sale_Date sale).

(** The callback of [matchingSales.filter] that computes [validSales]; it
    pushes onto the client's [validationErrors], threaded here as state. *)
Definition validSale (visitDate : option Z) (sale : row)
    (validationErrors : list string) : result (bool * list string) :=
  let saleDate := saleTime sale in
  let saleValue := sale_value sale in
  category ← cell_toLowerCase (sale_Category sale);
  product ← cell_toLowerCase (sale_Item sale);
  let validSaleValue := gt0 saleValue in
  let notTwoForOne := negb (includes product "2 for 1") in
  let notRetail := negb (String.eqb category "retail") in
  let saleDateValid := date_valid saleDate in
  let saleDateAfterVisit := saleDateValid && date_ge saleDate visitDate in
  let notRefunded := negb (sale_refunded sale) in
  let validationErrors' :=
    if lt0 saleValue
    then validationErrors ++ ["Negative sale value detected"]
    else validationErrors in
  Ok (validSaleValue && notTwoForOne && notRetail && saleDateAfterVisit
      && notRefunded, validationErrors').

Fixpoint validSales (visitDate : option Z) (sales : list row)
    (validationErrors : list string) : result (list row * list string) :=
  match sales with
  | [] => Ok ([], validationErrors)
  | sale :: rest =>
      '(keep, errs1) ← validSale visitDate sale validationErrors;
      '(kept, errs2) ← validSales visitDate rest errs1;
      Ok (if keep : bool then sale :: kept else kept, errs2)
  end.

(** The comparator [dateA.getTime() - dateB.getTime()]; [None] is [NaN]. *)
Definition compareDates (a b : row) : option Z :=
  match saleTime a, saleTime b with
  | Some x, Some y => Some (x - y)%Z
  | _, _ => None
  end.

Definition positive_result (c : option Z) : bool :=
  match c with
  | Some d => (0 <? d)%Z
  | None => false
  end.

(** [validSales.sort(...)]: the language requires the sort to be stable;
    an insertion sort by the comparator stands for it (a [NaN] result
    counts as [0]). *)
Fixpoint insert_sale (x : row) (l : list row) : list row :=
  match l with
  | [] => [x]
  | y :: l' =>
      if positive_result (compareDates x y) then y :: insert_sale x l'
      else x :: l
  end.

Fixpoint sortByDate (l : list row) : list row :=
  match l with
  | [] => []
  | x :: l' => insert_sale x (sortByDate l')
  end.

(** The body of [allSalesForClient.forEach]: the reasons one sale adds. *)
Definition saleReasons (visitDate : option Z) (sale : row) : result (list string) :=
  let saleDate := saleTime sale in
  let saleValue := sale_value sale in
  category ← cell_toLowerCase (sale_Category sale);
  product ← cell_toLowerCase (sale_Item sale);
  Ok ((if le0 saleValue then ["Zero or negative sale value"] else [])
      ++ (if includes product "2 for 1" then ["Excluded product (2 For 1)"] else [])
      ++ (if String.eqb category "retail" then ["Retail category excluded"] else [])
      ++ (if date_lt saleDate visitDate then ["Purchase before first visit"] else [])
      ++ (if sale_refunded sale then ["Purchase was refunded"] else [])).

Fixpoint collectReasons (visitDate : option Z) (sales : list row)
    (reasons : list string) : result (list string) :=
  match sales with
  | [] => Ok reasons
  | sale :: rest =>
      rs ← saleReasons visitDate sale;
      collectReasons visitDate rest (reasons ++ rs)
  end.

(** The explanation of a client without a valid purchase. *)
Definition notConvertedDetails (visitDate : option Z)
    (allSalesForClient : list row) : result string :=
  match allSalesForClient with
  | [] => Ok "No purchase records found for this client"
  | _ :: _ =>
      reasons ← collectReasons visitDate allSalesForClient [];
      Ok (match reasons with
          | [] => "Has purchases but none meet conversion criteria"
          | _ :: _ => "Not converted: " +:+ join ", " reasons
          end)
  end.

Definition initialErrors (email firstVisitDate firstName lastName : cell)
    (visitDate : option Z) : list string :=
  (if truthy email then [] else ["Missing email address"])
  ++ (if truthy firstVisitDate then [] else ["Missing first visit date"])
  ++ (if negb (truthy firstName) && negb (truthy lastName)
      then ["Missing client name"] else [])
  ++ (if truthy firstVisitDate && negb (date_valid visitDate)
      then ["Invalid first visit date format"] else []).

(** One iteration of [newClientData.forEach]: [None] when the row is
    skipped, the pushed record otherwise.  [sort] is the engine's
    [Array.prototype.sort] applied with the date comparator. *)
Definition processClient (sort : list row -> list row) (salesData : list row)
    (index : nat) (client : row) : result (option ProcessedClient) :=
  skip ← skipRow client;
  if skip : bool then Ok None else
  let memberID := client_memberID index client in
  let firstName := client_firstName client in
  let lastName := client_lastName client in
  let email := client_email client in
  let firstVisitDate := client_firstVisitDate client in
  let firstVisitLocation := client_firstVisitLocation client in
  let membershipUsed := client_membershipUsed client in
  let teacher := client_teacher client in
  let visitDate := newDate firstVisitDate in
  let errs := initialErrors email firstVisitDate firstName lastName visitDate in
  let matching := matchingSales email memberID salesData in
  '(valid, validationErrors) ← validSales visitDate matching errs;
  match valid with
  | _ :: _ =>
      match sort valid with
      | [] => TypeError
      | firstSale :: _ =>
          let purchaseDate := saleTime firstSale in
          let firstPurchaseProduct := sale_Item firstSale in
          let firstPurchaseValue := sale_value firstSale in
          let daysToConversion :=
            match purchaseDate, visitDate with
            | Some p, Some v => Some (ceil_days (p - v))
            | _, _ => None
            end in
          let conversionDetails :=
            "Converted after "
            +:+ string_of_Z (match daysToConversion with Some d => d | None => 0%Z end)
            +:+ " days with " +:+ quote +:+ String_of firstPurchaseProduct +:+ quote
            +:+ " for " +:+ safeFormatCurrency (num_or_zero (Some firstPurchaseValue)) in
          Ok (Some (mkProcessedClient memberID firstName lastName email
                      firstVisitDate firstVisitLocation membershipUsed teacher
                      (Some (sale_Date firstSale)) (Some firstPurchaseProduct)
                      (Some firstPurchaseValue) converted conversionDetails
                      daysToConversion validationErrors))
      end
  | [] =>
      conversionDetails ← notConvertedDetails visitDate matching;
      Ok (Some (mkProcessedClient memberID firstName lastName email
                  firstVisitDate firstVisitLocation membershipUsed teacher
                  None None None not_converted conversionDetails
                  None validationErrors))
  end.

(** The loop over [newClientData], with the running index. *)
Fixpoint processFrom (sort : list row -> list row) (salesData : list row)
    (index : nat) (clients : list row) : result (list ProcessedClient) :=
  match clients with
  | [] => Ok []
  | client :: rest =>
      r ← processClient sort salesData index client;
      processed ← processFrom sort salesData (S index) rest;
      Ok (match r with
          | Some pc => pc :: processed
          | None => processed
          end)
  end.

Definition processedDataWith (sort : list row -> list row)
    (newClientData salesData : list row) : result (list ProcessedClient) :=
  match newClientData with
  | [] => Ok []
  | _ :: _ => processFrom sort salesData 0 newClientData
  end.

Definition processedData (newClientData salesData : list row) :
    result (list ProcessedClient) :=
  processedDataWith sortByDate newClientData salesData.

End Classifier.

(** ** [summaryStats] of [ConversionSummaryTable] *)

Definition Q_of_nat (n : nat) : Q := Z.of_nat n # 1.

Definition is_converted (c : ProcessedClient) : bool :=
  bool_decide (conversionStatus c = converted).

Definition has_days (c : ProcessedClient) : bool :=
  match daysToConversion c with
  | Some _ => true
  | None => false
  end.

(** [c.daysToConversion || 0] *)
Definition days_or_zero (c : ProcessedClient) : Z :=
  match daysToConversion c with
  | Some d => d
  | None => 0%Z
  end.

Record SummaryStats : Type := mkSummaryStats {
  total : nat;
  convertedCount : nat;
  notConverted : Z;
  conversionRate : number;
  totalRevenue : number;
  avgDaysToConversion : number;
  dataQualityIssues : nat
}.

Definition summaryStats (processedData : list ProcessedClient) : SummaryStats :=
  let total := length processedData in
  let converted := length (List.filter is_converted processedData) in
  let conversionRate :=
    if (0 <? total)%nat
    then times100 (num_div (Q_of_nat converted) (Q_of_nat total))
    else Fin 0 in
  let totalRevenue :=
    fold_left (fun sum c => num_add sum (num_or_zero (firstPurchaseValue c)))
      processedData (Fin 0) in
  let arr := List.filter has_days processedData in
  let avgDaysToConversion :=
    fold_left
      (fun sum c => num_add sum (num_div (days_or_zero c # 1) (Q_of_nat (length arr))))
      arr (Fin 0) in
  let dataQualityIssues :=
    length (List.filter (fun c => (0 <? length (validationErrors c))%nat) processedData) in
  mkSummaryStats total converted (Z.of_nat total - Z.of_nat converted)
    conversionRate totalRevenue avgDaysToConversion dataQualityIssues.

(** ** The location rollup of [SmartQueryInterface] *)

Module SmartQuery.

(** The fields of a [ProcessedTeacherData] bucket that the rollup reads. *)
Record ProcessedTeacherData : Type := mkItem {
  location : string;
  teacherName : string;
  newClients : Z;
  retainedClients : Z;
  convertedClients : Z;
  totalRevenue : Q
}.

Record LocationStats : Type := mkStats {
  st_newClients : Z;
  st_retainedClients : Z;
  st_convertedClients : Z;
  st_revenue : Q;
  st_teachers : gset string
}.

Definition emptyStats : LocationStats := mkStats 0 0 0 0 ∅.

Definition addTo (item : ProcessedTeacherData) (st : LocationStats) : LocationStats :=
  mkStats (st_newClients st + newClients item)
          (st_retainedClients st + retainedClients item)
          (st_convertedClients st + convertedClients item)
          (st_revenue st + totalRevenue item)
          (st_teachers st ∪ {[ teacherName item ]}).

(** [acc[key] = f(acc[key])] on an object whose keys are kept in insertion
    order: the keys are ordinary strings, neither array indices (which an
    object lists first, in numeric order) nor names of members that every
    object inherits (for which [acc[key]] is set before anything is
    stored).  The statements that depend on this carry it as a hypothesis,
    [ordinary_key] below. *)
Fixpoint update (key : string) (f : LocationStats -> LocationStats)
    (acc : list (string * LocationStats)) : list (string * LocationStats) :=
  match acc with
  | [] => [(key, f emptyStats)]
  | (k, st) :: rest =>
      if String.eqb k key then (k, f st) :: rest
      else (k, st) :: update key f rest
  end.

(** The reducer of [data.reduce(..., {})]. *)
Definition locationStats (data : list ProcessedTeacherData) :
    list (string * LocationStats) :=
  fold_left (fun acc item => update (location item) (addTo item) acc) data [].

Record LocationRow : Type := mkLocationRow {
  row_location : string;
  row_stats : LocationStats;
  retentionRate : number;
  conversionRate : number;
  teacherCount : nat
}.

Definition rate (part whole : Z) : number :=
  if (0 <? whole)%Z then times100 (num_div (part # 1) (whole # 1)) else Fin 0.

(** The callback of [Object.entries(locationStats).map]. *)
Definition locationRow (entry : string * LocationStats) : LocationRow :=
  let '(location, stats) := entry in
  mkLocationRow location stats
    (rate (st_retainedClients stats) (st_newClients stats))
    (rate (st_convertedClients stats) (st_newClients stats))
    (size (st_teachers stats)).

Definition locationRows (data : list ProcessedTeacherData) : list LocationRow :=
  map locationRow (locationStats data).

End SmartQuery.

(** ** The specification's wording, for comparison with the code *)

Definition is_space (a : ascii) : bool :=
  let n := ascii_code a in
  (n =? 32)%Z || ((9 <=? n)%Z && (n <=? 13)%Z).

Fixpoint trim_start (s : string) : string :=
  match s with
  | String a rest => if is_space a then trim_start rest else s
  | EmptyString => EmptyString
  end.

Fixpoint trim_end (s : string) : string :=
  match s with
  | EmptyString => EmptyString
  | String a rest =>
      match trim_end rest with
      | EmptyString => if is_space a then EmptyString else String a EmptyString
      | rest' => String a rest'
      end
  end.

(** Email normalisation as the specification words it: lower-cased and
    trimmed. *)
Definition normalize_email (c : cell) : cell :=
  match c with
  | CStr s => CStr (toLowerCase (trim_end (trim_start s)))
  | CNum n => CNum n
  end.

Definition normalized_eq (v : option cell) (c : cell) : bool :=
  match v with
  | Some x => bool_decide (normalize_email x = normalize_email c)
  | None => false
  end.

(** A candidate as the specification words it: the emails agree after
    normalisation, or the member IDs agree. *)
Definition candidate_by_spec (email memberID : cell) (sale : row) : bool :=
  (normalized_eq (sale !! "Customer email") email
   || normalized_eq (sale !! "Paying Customer email") email
   || normalized_eq (sale !! "email") email)
  || memberIDMatch memberID sale.

(** The distinct reasons of a list, in order of first appearance. *)
Fixpoint distinct (l : list string) : list string :=
  match l with
  | [] => []
  | x :: rest => x :: List.filter (fun y => negb (String.eqb x y)) (distinct rest)
  end.

(** ** Well-typed rows and conforming sorts *)

(** The label columns of a sale hold text (or are absent or falsy), so that
    [toLowerCase] applies. *)
Definition saleTextual (sale : row) : bool :=
  match sale_Category sale, sale_Item sale with
  | CStr _, CStr _ => true
  | _, _ => false
  end.

(** The [Teacher] column of a client row is absent, falsy or text. *)
Definition teacherTextual (client : row) : bool :=
  match client !! "Teacher" with
  | Some (CNum n) => (n =? 0)%Z
  | _ => true
  end.

(** The row is a sentinel aggregate row: its [Teacher] column is text that
    contains [all trainers], whatever the case. *)
Definition sentinelRow (client : row) : bool :=
  match client !! "Teacher" with
  | Some (CStr s) => includes (toLowerCase s) "all trainers"
  | _ => false
  end.

Definition time_le (a b : option Z) : Prop :=
  match a, b with
  | Some x, Some y => (x <= y)%Z
  | _, _ => False
  end.

(** What the language guarantees of [Array.prototype.sort] under a
    consistent comparator: the result is a permutation, in ascending order,
    and elements that compare equal keep their relative order. *)
Definition stable_sort_of (time : row -> option Z) (l l' : list row) : Prop :=
  Permutation l l'
  /\ StronglySorted (fun a b => time_le (time a) (time b)) l'
  /\ forall t : Z,
       List.filter (fun s => bool_decide (time s = Some t)) l'
       = List.filter (fun s => bool_decide (time s = Some t)) l.

Definition conforming_sort (time : row -> option Z) (sort : list row -> list row) : Prop :=
  forall l, Forall (fun s => is_Some (time s)) l -> stable_sort_of time l (sort l).

(** The first of the elements of least time, when every time is defined. *)
Fixpoint earliest (time : row -> option Z) (l : list row) : option row :=
  match l with
  | [] => None
  | x :: rest =>
      match earliest time rest with
      | None => Some x
      | Some y => if date_lt (time y) (time x) then Some y else Some x
      end
  end.

(** A second stable sort, distinct as a program from [sortByDate]: it sorts
    the sorted list once more. *)
Definition sortTwice (Date_parse : string -> option Z) (l : list row) : list row :=
  sortByDate Date_parse (sortByDate Date_parse l).

(** The four purchase fields of a record are all set, or all [null]. *)
Definition purchase_fields_set (pc : ProcessedClient) : Prop :=
  is_Some (firstPurchaseDate pc) /\ is_Some (firstPurchaseProduct pc)
  /\ is_Some (firstPurchaseValue pc) /\ is_Some (daysToConversion pc).

Definition purchase_fields_null (pc : ProcessedClient) : Prop :=
  firstPurchaseDate pc = None /\ firstPurchaseProduct pc = None
  /\ firstPurchaseValue pc = None /\ daysToConversion pc = None.

(** A bucket without new clients, for the closed examples. *)
Definition empty_bucket : SmartQuery.ProcessedTeacherData :=
  SmartQuery.mkItem "Studio A" "Ann" 0 0 0 0.

(** ** Validity of a purchase, in the specification's terms *)

(** The five conditions under which a candidate purchase counts, for a
    client whose first visit parsed to the time value [visit]. *)
Definition qualifies (Date_parse : string -> option Z) (visit : Z) (sale : row) : Prop :=
  gt0 (sale_value sale) = true
  /\ (exists product, cell_toLowerCase (sale_Item sale) = Ok product
                      /\ includes product "2 for 1" = false)
  /\ (exists category, cell_toLowerCase (sale_Category sale) = Ok category
                       /\ category <> "retail")
  /\ (exists t, saleTime Date_parse sale = Some t /\ (visit <= t)%Z)
  /\ sale_refunded sale = false.

(** ** The stages of one iteration, named *)

(** The parsed first visit of a client row. *)
Definition visitOf (Date_parse : string -> option Z) (client : row) : option Z :=
  newDate Date_parse (client_firstVisitDate client).

(** The candidate purchases of the client at position [index]. *)
Definition candidatesOf (index : nat) (client : row) (salesData : list row) : list row :=
  matchingSales (client_email client) (client_memberID index client) salesData.

(** The validation errors recorded before the purchases are scanned. *)
Definition errorsBefore (Date_parse : string -> option Z) (client : row) : list string :=
  initialErrors (client_email client) (client_firstVisitDate client)
    (client_firstName client) (client_lastName client) (visitOf Date_parse client).

(** The errors that the candidates of negative value add, in scan order. *)
Definition negative_errors (sales : list row) : list string :=
  flat_map (fun sale => if lt0 (sale_value sale)
                        then ["Negative sale value detected"] else []) sales.

(** A formatter that prints nothing, to instantiate [safeFormatCurrency]
    in closed examples. *)
Definition noFormat (x : number) : string := "".

(** The reasons one purchase contributes to the explanation of a client
    whose first visit has the time value [v], spelled out. *)
Definition reasons_of (Date_parse : string -> option Z) (v : option Z)
    (sale : row) (rs : list string) : Prop :=
  exists category product,
    cell_toLowerCase (sale_Category sale) = Ok category
    /\ cell_toLowerCase (sale_Item sale) = Ok product
    /\ rs = (if le0 (sale_value sale) then ["Zero or negative sale value"] else [])
            ++ (if includes product "2 for 1" then ["Excluded product (2 For 1)"] else [])
            ++ (if String.eqb category "retail" then ["Retail category excluded"] else [])
            ++ (if date_lt (saleTime Date_parse sale) v
                then ["Purchase before first visit"] else [])
            ++ (if sale_refunded sale then ["Purchase was refunded"] else []).

(** ** Concrete rows of the scenarios *)

Definition client_e : row :=
  {[ "Email" := CStr "e@x.com"; "First name" := CStr "Eve";
     "First visit at" := CStr "2024-01-01"; "Member ID" := CNum 7 ]}.

Definition client_bad_date : row :=
  {[ "Email" := CStr "late@x.com"; "First name" := CStr "Lee";
     "First visit at" := CStr "soon"; "Member ID" := CNum 9 ]}.

Definition sale_late : row :=
  {[ "Customer email" := CStr "late@x.com"; "Date" := CStr "2024-02-01";
     "Sale value" := CNum 500; "Category" := CStr "class";
     "Item" := CStr "Pass" ]}.


Definition sale_upper_email : row :=
  {[ "Customer email" := CStr "E@X.com"; "Member ID" := CNum 8;
     "Date" := CStr "2024-01-05"; "Sale value" := CNum 1000;
     "Category" := CStr "class"; "Item" := CStr "Pass" ]}.

Definition sale_class : row :=
  {[ "Customer email" := CStr "e@x.com"; "Date" := CStr "2024-01-05";
     "Sale value" := CNum 1000; "Category" := CStr "class";
     "Item" := CStr "Pass"; "Refunded" := CStr "NO" ]}.

Definition sale_same_day : row :=
  {[ "Customer email" := CStr "e@x.com"; "Date" := CStr "2024-01-05";
     "Sale value" := CNum 200; "Category" := CStr "class";
     "Item" := CStr "Drop-in" ]}.

Definition sale_next_month : row :=
  {[ "Customer email" := CStr "e@x.com"; "Date" := CStr "2024-02-05";
     "Sale value" := CNum 900; "Category" := CStr "membership";
     "Item" := CStr "Monthly" ]}.

Definition sale_retail : row :=
  {[ "Customer email" := CStr "e@x.com"; "Date" := CStr "2024-01-05";
     "Sale value" := CNum 30; "Category" := CStr "Retail";
     "Item" := CStr "Bottle" ]}.

Definition sale_retail_2 : row :=
  {[ "Customer email" := CStr "e@x.com"; "Date" := CStr "2024-01-09";
     "Sale value" := CNum 45; "Category" := CStr "retail";
     "Item" := CStr "Mat" ]}.

Definition sale_negative : row :=
  {[ "Customer email" := CStr "e@x.com"; "Date" := CStr "2024-01-03";
     "Sale value" := CStr "-50"; "Category" := CStr "class";
     "Item" := CStr "Adjustment" ]}.

(** Rows whose dates are time values in milliseconds: a first visit at
    2024-01-01T08:00:00Z, purchases at that instant, 10 hours later (two of
    them) and 7 days later, and one 2 hours before the visit. *)
Definition client_morning : row :=
  {[ "Email" := CStr "m@x.com"; "First name" := CStr "Mia";
     "First visit at" := CNum 1704096000000; "Member ID" := CNum 11 ]}.

Definition sale_at_visit : row :=
  {[ "Customer email" := CStr "m@x.com"; "Date" := CNum 1704096000000;
     "Sale value" := CNum 150; "Category" := CStr "class";
     "Item" := CStr "Intro" ]}.

Definition sale_evening : row :=
  {[ "Customer email" := CStr "m@x.com"; "Date" := CNum 1704132000000;
     "Sale value" := CNum 300; "Category" := CStr "class";
     "Item" := CStr "Drop-in" ]}.

Definition sale_evening_2 : row :=
  {[ "Customer email" := CStr "m@x.com"; "Date" := CNum 1704132000000;
     "Sale value" := CNum 1200; "Category" := CStr "class";
     "Item" := CStr "Pass" ]}.

Definition sale_week_later : row :=
  {[ "Customer email" := CStr "m@x.com"; "Date" := CNum 1704700800000;
     "Sale value" := CNum 900; "Category" := CStr "membership";
     "Item" := CStr "Monthly" ]}.

Definition sale_before_visit : row :=
  {[ "Customer email" := CStr "m@x.com"; "Date" := CNum 1704088800000;
     "Sale value" := CNum 80; "Category" := CStr "class";
     "Item" := CStr "Early" ]}.

(** ** Concrete records *)

Definition record_plain : ProcessedClient :=
  mkProcessedClient (CNum 1) (CStr "Ann") (CStr "Lee") (CStr "ann@x.com")
    (CStr "2024-01-01") (CStr "Studio A") (CStr "Trial") (CStr "Tara")
    None None None not_converted "No purchase records found for this client"
    None [].

Definition record_same_day : ProcessedClient :=
  mkProcessedClient (CNum 2) (CStr "Bob") (CStr "Ray") (CStr "bob@x.com")
    (CStr "2024-01-02") (CStr "Studio B") (CStr "Trial") (CStr "Uma")
    (Some (CStr "2024-01-02")) (Some (CStr "Pass")) (Some (Fin 500)) converted
    "Converted after 0 days" (Some 0%Z) [].

Definition record_four_days : ProcessedClient :=
  mkProcessedClient (CNum 3) (CStr "Cy") (CStr "Fox") (CStr "cy@x.com")
    (CStr "2024-01-01") (CStr "Studio A") (CStr "Trial") (CStr "Tara")
    (Some (CStr "2024-01-05")) (Some (CStr "Pass")) (Some (Fin 1000)) converted
    "Converted after 4 days" (Some 4%Z) ["Missing client name"].

(** ** The table of [ConversionSummaryTable]: filters and sort *)

(** [Array.prototype.sort] with a comparator whose result is an integer or
    [NaN] ([None]): a stable insertion sort stands for the engine's stable
    sort, as [sortByDate] does. *)
Fixpoint insert_by {A : Type} (cmp : A -> A -> option Z) (x : A) (l : list A) : list A :=
  match l with
  | [] => [x]
  | y :: l' =>
      if positive_result (cmp x y) then y :: insert_by cmp x l' else x :: l
  end.

Fixpoint sort_by {A : Type} (cmp : A -> A -> option Z) (l : list A) : list A :=
  match l with
  | [] => []
  | x :: l' => insert_by cmp x (sort_by cmp l')
  end.

Inductive direction : Type :=
  | asc
  | desc.

(** The columns that [handleSort] is called with; [sortColumn] starts as
    [firstVisitDate]. *)
Inductive column : Type :=
  | colFirstName
  | colEmail
  | colFirstVisitDate
  | colFirstPurchaseDate
  | colFirstPurchaseProduct
  | colConversionStatus.

Global Instance column_eq_dec : EqDecision column.
Proof. solve_decision. Defined.

Definition column_name (col : column) : string :=
  match col with
  | colFirstName => "firstName"
  | colEmail => "email"
  | colFirstVisitDate => "firstVisitDate"
  | colFirstPurchaseDate => "firstPurchaseDate"
  | colFirstPurchaseProduct => "firstPurchaseProduct"
  | colConversionStatus => "conversionStatus"
  end.

Definition status_name (s : status) : string :=
  match s with
  | converted => "converted"
  | not_converted => "not_converted"
  end.

(** [client[sortColumn]]; [None] is [null]. *)
Definition column_value (col : column) (c : ProcessedClient) : option cell :=
  match col with
  | colFirstName => Some (firstName c)
  | colEmail => Some (email c)
  | colFirstVisitDate => Some (firstVisitDate c)
  | colFirstPurchaseDate => firstPurchaseDate c
  | colFirstPurchaseProduct => firstPurchaseProduct c
  | colConversionStatus => Some (CStr (status_name (conversionStatus c)))
  end.

(** [handleSort]: the same column flips the direction, another column is
    taken in ascending order. *)
Definition handleSort (state : column * direction) (col : column) : column * direction :=
  let '(sortColumn, sortDirection) := state in
  if bool_decide (sortColumn = col)
  then (sortColumn, match sortDirection with asc => desc | desc => asc end)
  else (col, asc).

(** [a || b] on possibly throwing operands: [b] is evaluated only when [a]
    is false. *)
Definition orR (a b : result bool) : result bool :=
  x ← a; if x : bool then Ok true else b.

Definition field_includes (c : cell) (searchLower : string) : result bool :=
  s ← cell_toLowerCase c; Ok (includes s searchLower).

(** The callback of the search filter. *)
Definition searchMatches (searchLower : string) (client : ProcessedClient) : result bool :=
  orR (field_includes (firstName client) searchLower)
    (orR (field_includes (lastName client) searchLower)
       (orR (field_includes (email client) searchLower)
          (orR (field_includes (teacher client) searchLower)
             (field_includes (firstVisitLocation client) searchLower)))).

(** [arr.filter(f)] for a callback that may throw. *)
Fixpoint filterR {A : Type} (f : A -> result bool) (l : list A) : result (list A) :=
  match l with
  | [] => Ok []
  | x :: rest =>
      keep ← f x;
      kept ← filterR f rest;
      Ok (if keep : bool then x :: kept else kept)
  end.

Section Table.

Variable Date_parse : string -> option Z.

Definition signed (d : direction) (z : Z) : Z :=
  match d with
  | asc => z
  | desc => (- z)%Z
  end.

(** The comparator of [filtered.sort]; [None] is a [NaN] result. *)
Definition compareClients (sortColumn : column) (sortDirection : direction)
    (a b : ProcessedClient) : option Z :=
  match column_value sortColumn a, column_value sortColumn b with
  | None, None => Some 0%Z
  | None, Some _ => Some (signed sortDirection (-1))
  | Some _, None => Some (signed sortDirection 1)
  | Some valueA, Some valueB =>
      if includes (column_name sortColumn) "Date" then
        match newDate Date_parse valueA, newDate Date_parse valueB with
        | Some ta, Some tb => Some (signed sortDirection (ta - tb))
        | _, _ => None
        end
      else
        match valueA, valueB with
        | CNum m, CNum n => Some (signed sortDirection (m - n))
        | _, _ =>
            let stringA := toLowerCase (String_of valueA) in
            let stringB := toLowerCase (String_of valueB) in
            if String.ltb stringA stringB then Some (signed sortDirection (-1))
            else if String.ltb stringB stringA then Some (signed sortDirection 1)
            else Some 0%Z
        end
  end.

(** [filteredAndSortedData]: the list shown, and the [processedData] array
    as the call leaves it.  Without a search term and with the status
    filter [all], [filtered] is the [processedData] array itself, and the
    sort, which works in place, reorders it. *)
Definition filteredAndSortedData (searchTerm statusFilter : string)
    (sortColumn : column) (sortDirection : direction)
    (processedData : list ProcessedClient) :
    result (list ProcessedClient * list ProcessedClient) :=
  searched ←
    (if String.eqb searchTerm "" then Ok processedData
     else filterR (searchMatches (toLowerCase searchTerm)) processedData);
  let filtered :=
    if String.eqb statusFilter "all" then searched
    else List.filter
           (fun client => String.eqb (status_name (conversionStatus client)) statusFilter)
           searched in
  let sorted := sort_by (compareClients sortColumn sortDirection) filtered in
  Ok (sorted,
      if String.eqb searchTerm "" && String.eqb statusFilter "all"
      then sorted else processedData).

End Table.

(** The order of the table under a date column: [a] may stand before [b].
    In ascending order the records without a value come first and the
    others follow by time; in descending order it is the reverse. *)
Definition shown_before (Date_parse : string -> option Z) (col : column)
    (dir : direction) (a b : ProcessedClient) : Prop :=
  match column_value col a, column_value col b with
  | None, None => True
  | None, Some _ => dir = asc
  | Some _, None => dir = desc
  | Some x, Some y =>
      match newDate Date_parse x, newDate Date_parse y with
      | Some ta, Some tb =>
          match dir with
          | asc => (ta <= tb)%Z
          | desc => (tb <= ta)%Z
          end
      | _, _ => False
      end
  end.

(** Every date the column holds parses. *)
Definition dates_parse (Date_parse : string -> option Z) (col : column)
    (c : ProcessedClient) : Prop :=
  forall x, column_value col c = Some x -> is_Some (newDate Date_parse x).

(** ** [SmartQueryInterface]: the top location, the exclusion reasons, the
    studio average *)

Module SmartQueryMore.

Import SmartQuery.

(** The items of one location, in input order. *)
Definition at_location (loc : string) (data : list ProcessedTeacherData) :
    list ProcessedTeacherData :=
  List.filter (fun item => String.eqb (location item) loc) data.

Definition sum_Z {A : Type} (f : A -> Z) (l : list A) : Z :=
  fold_left (fun acc x => (acc + f x)%Z) l 0%Z.

Definition sum_Q {A : Type} (f : A -> Q) (l : list A) : Q :=
  fold_left (fun acc x => (acc + f x)%Q) l 0%Q.

(** [b - a] on numbers, reduced to what a sort reads of it: the sign
    ([None] when the difference is [NaN]). *)
Definition difference_sign (b a : number) : option Z :=
  match b, a with
  | Fin qb, Fin qa => Some (Qnum (qb - qa))
  | Inf sb, Inf sa => if Bool.eqb sb sa then None else Some (if sb then -1 else 1)%Z
  | Inf sb, Fin _ => Some (if sb then -1 else 1)%Z
  | Fin _, Inf sa => Some (if sa then 1 else -1)%Z
  | _, _ => None
  end.

(** [Object.entries(locationStats).map(...).sort((a, b) =>
    b.retentionRate - a.retentionRate)[0]] *)
Definition topLocation (data : list ProcessedTeacherData) : option LocationRow :=
  head (sort_by (fun a b => difference_sign (retentionRate b) (retentionRate a))
          (locationRows data)).

(** *** Property keys of the accumulator [{}]

    The accumulators of the two reducers are plain objects.  Reading
    [acc[key]] on such an object finds the members inherited from
    [Object.prototype] when [key] is one of their names, and
    [Object.entries] lists the keys that are array indices first, in
    numeric order.  The models of the reducers keep the own properties only,
    in insertion order; they are the reducers on the keys that are
    [ordinary_key]. *)

(** The names of the members of [Object.prototype]. *)
Definition inherited_names : list string :=
  ["constructor"; "__proto__"; "__defineGetter__"; "__defineSetter__";
   "__lookupGetter__"; "__lookupSetter__"; "hasOwnProperty"; "isPrototypeOf";
   "propertyIsEnumerable"; "toLocaleString"; "toString"; "valueOf"].

Definition inherited (key : string) : bool :=
  existsb (String.eqb key) inherited_names.

Fixpoint all_digits (s : string) : bool :=
  match s with
  | EmptyString => true
  | String a rest =>
      match digit_of a with
      | Some _ => all_digits rest
      | None => false
      end
  end.

(** Every array index is written with digits only. *)
Definition integer_like (key : string) : bool :=
  negb (String.eqb key "") && all_digits key.

Definition ordinary_key (key : string) : bool :=
  negb (inherited key) && negb (integer_like key).

(** [client.reason || 'Unknown reason'], as the property key it is used
    for. *)
Definition reason_key (client : row) : string :=
  String_of (or_else (client !! "reason") (CStr "Unknown reason")).

(** The reducer of [excludedClients.reduce(..., {})]:
    [acc[reason] = (acc[reason] || 0) + 1], on the own properties of the
    accumulator, for reasons that are not [inherited] names. *)
Definition exclusionReasons (excludedClients : list row) : gmap string nat :=
  fold_left
    (fun acc client =>
       let reason := reason_key client in
       <[reason := (default 0 (acc !! reason) + 1)%nat]> acc)
    excludedClients ∅.

(** How many of the excluded clients carry the reason [r]. *)
Definition count_reason (r : string) (excludedClients : list row) : nat :=
  length (List.filter (fun client => String.eqb (reason_key client) r) excludedClients).

(** [sum / n] for a number [sum] and a length [n]. *)
Definition num_over (sum : number) (n : nat) : number :=
  match sum with
  | Fin q => num_div q (Q_of_nat n)
  | Inf s => Inf s
  | NaN => NaN
  end.

(** [data.reduce((sum, d) => sum + d.conversionRate, 0) / data.length], on
    the conversion rates of the items. *)
Definition avgConversion (rates : list number) : number :=
  num_over (fold_left num_add rates (Fin 0)) (length rates).

(** [acc[loc]] *)
Fixpoint bucket (loc : string) (acc : list (string * LocationStats)) :
    option LocationStats :=
  match acc with
  | [] => None
  | (k, st) :: rest => if String.eqb k loc then Some st else bucket loc rest
  end.

(** The sums over a list of items, accumulated as the reducer does. *)
Definition totals_of (items : list ProcessedTeacherData) : LocationStats :=
  fold_left (fun st item => addTo item st) items emptyStats.

End SmartQueryMore.

(** Items of two locations, for the closed examples. *)
Definition bucket_a1 : SmartQuery.ProcessedTeacherData :=
  SmartQuery.mkItem "Studio A" "Tara" 10 5 2 3000.

Definition bucket_b : SmartQuery.ProcessedTeacherData :=
  SmartQuery.mkItem "Studio B" "Uma" 10 7 3 4500.

Definition bucket_a2 : SmartQuery.ProcessedTeacherData :=
  SmartQuery.mkItem "Studio A" "Vic" 10 9 1 1200.

(** Excluded clients, with and without a reason. *)
Definition excluded_staff : row :=
  {[ "email" := CStr "s@x.com"; "reason" := CStr "Staff member" ]}.

Definition excluded_unknown : row :=
  {[ "email" := CStr "u@x.com" ]}.

(** ** [EnhancedFilterBar] and the filters of the index page *)

Module Filters.

(** The fields of a [ProcessedTeacherData] bucket that the filters read. *)
Record Item : Type := mkItem {
  period : string;
  teacherName : string;
  location : string
}.

Record Selection : Type := mkSelection {
  sel_period : list string;
  sel_teacher : list string;
  sel_location : list string
}.

(** White space as [String.prototype.trim] sees it, among 8-bit
    characters. *)
Definition isWhiteSpace (a : ascii) : bool :=
  let n := ascii_code a in
  (n =? 32)%Z || ((9 <=? n)%Z && (n <=? 13)%Z) || (n =? 160)%Z.

Fixpoint trimStart (s : string) : string :=
  match s with
  | String a rest => if isWhiteSpace a then trimStart rest else s
  | EmptyString => EmptyString
  end.

Fixpoint trimEnd (s : string) : string :=
  match s with
  | EmptyString => EmptyString
  | String a rest =>
      match trimEnd rest with
      | EmptyString => if isWhiteSpace a then EmptyString else String a EmptyString
      | rest' => String a rest'
      end
  end.

(** [s.trim()] *)
Definition trim (s : string) : string := trimEnd (trimStart s).

(** The default comparator of [Array.prototype.sort] on strings. *)
Definition compareStrings (a b : string) : option Z :=
  if String.ltb a b then Some (-1)%Z
  else if String.ltb b a then Some 1%Z
  else Some 0%Z.

(** [arr.includes(x)] on strings *)
Definition list_includes (l : list string) (x : string) : bool :=
  existsb (String.eqb x) l.

(** [[...new Set(data.map(pick).filter(keep))].sort()]: an item that is
    [null] or whose field is empty maps to [null] and is dropped. *)
Definition uniqueValues (field : Item -> string) (keep : string -> bool)
    (data : list (option Item)) : list string :=
  sort_by compareStrings
    (distinct
       (List.filter keep
          (omap (fun item =>
                   match item with
                   | Some it => if String.eqb (field it) "" then None else Some (field it)
                   | None => None
                   end) data))).

Definition notBlank (s : string) : bool := negb (String.eqb (trim s) "").

Definition uniquePeriods (data : list (option Item)) : list string :=
  uniqueValues period notBlank data.

Definition uniqueTeachers (data : list (option Item)) : list string :=
  uniqueValues teacherName
    (fun teacher => notBlank teacher && negb (String.eqb teacher "All Teachers")) data.

Definition uniqueLocations (data : list (option Item)) : list string :=
  uniqueValues location notBlank data.

(** [values.includes(preferred) ? [preferred] : values.slice(0, 1)] *)
Definition preferredOrFirst (preferred : string) (values : list string) : list string :=
  if list_includes values preferred then [preferred] else take 1 values.

(** [setDefaultFilters] *)
Definition defaultFilters (data : list (option Item)) : Selection :=
  mkSelection
    (preferredOrFirst "Jun-25" (uniquePeriods data))
    (uniqueTeachers data)
    (preferredOrFirst "Kwality House" (uniqueLocations data)).

(** One filtering step of the effect that applies the filters:
    [item && item.field && selected.includes(item.field)], skipped when
    nothing is selected. *)
Definition restrict (field : Item -> string) (selected : list string)
    (items : list Item) : list Item :=
  match selected with
  | [] => items
  | _ :: _ =>
      List.filter
        (fun item => negb (String.eqb (field item) "") && list_includes selected (field item))
        items
  end.

(** What a selection lets through: everything when it is empty, else the
    items whose field is set and selected. *)
Definition allows (field : Item -> string) (selected : list string) (item : Item) : Prop :=
  selected = [] \/ (field item <> "" /\ In (field item) selected).

(** The filtered data handed to [onFilterChange]. *)
Definition applyFilters (data : list (option Item)) (selected : Selection) : list Item :=
  restrict location (sel_location selected)
    (restrict teacherName (sel_teacher selected)
       (restrict period (sel_period selected)
          (omap (fun item => item) data))).

(** [handleFilterChange] of the filter bar: [{...selectedFilters, [type]:
    values}] *)
Inductive filterType : Type :=
  | byPeriod
  | byTeacher
  | byLocation.

Definition handleFilterChange (selected : Selection) (type : filterType)
    (values : list string) : Selection :=
  match type with
  | byPeriod => mkSelection values (sel_teacher selected) (sel_location selected)
  | byTeacher => mkSelection (sel_period selected) values (sel_location selected)
  | byLocation => mkSelection (sel_period selected) (sel_teacher selected) values
  end.

Definition totalActiveFilters (selected : Selection) : nat :=
  (length (sel_period selected) + length (sel_teacher selected)
   + length (sel_location selected))%nat.





(** [handleRemoveFile]: [files.filter((_, i) => i !== index)] *)
Fixpoint removeFrom {A : Type} (i index : nat) (files : list A) : list A :=
  match files with
  | [] => []
  | file :: rest =>
      if Nat.eqb i index then removeFrom (S i) index rest
      else file :: removeFrom (S i) index rest
  end.

Definition handleRemoveFile {A : Type} (files : list A) (index : nat) : list A :=
  removeFrom 0 index files.

End Filters.

(** Buckets as the filter bar receives them: two teachers, the rollup row
    of a location and a [null] entry. *)
Definition studio_data : list (option Filters.Item) :=
  [Some (Filters.mkItem "Jun-25" "Zed" "Kwality House");
   None;
   Some (Filters.mkItem "Jun-25" "All Teachers" "Kwality House");
   Some (Filters.mkItem "May-25" "amy" "Bandra")].

(** ** [storageUtils] of the index page *)

Module Storage.

Definition STORAGE_KEYS : list string :=
  ["studio-stats-processed-data"; "studio-stats-filtered-data";
   "studio-stats-locations"; "studio-stats-teachers"; "studio-stats-periods";
   "studio-stats-raw-data"; "studio-stats-processing-results"].

Section Utils.

(** The values handed to the storage. *)
Variable Data : Type.

(** [JSON.stringify]; [None] when it throws. *)
Variable JSON_stringify : Data -> option string.

(** [JSON.parse]; [None] when it throws (or yields [null]). *)
Variable JSON_parse : string -> option Data.

(** [new Blob([s]).size], the size of the text in bytes. *)
Variable Blob_size : string -> N.

(** Whether [localStorage.setItem] accepts the entry; it throws a
    [QuotaExceededError] otherwise. *)
Variable setItem_succeeds : gmap string string -> string -> string -> bool.

(** [saveToStorage]: the value returned and the storage afterwards. *)
Definition saveToStorage (store : gmap string string) (key : string) (data : Data) :
    bool * gmap string string :=
  match JSON_stringify data with
  | None => (false, store)
  | Some dataStr =>
      if (2 * 1024 * 1024 <? Blob_size dataStr)%N && includes key "raw"
      then (false, store)
      else if setItem_succeeds store key dataStr
           then (true, <[key := dataStr]> store)
           else (false, store)
  end.

(** [loadFromStorage]; [None] is [null]. *)
Definition loadFromStorage (store : gmap string string) (key : string) : option Data :=
  match store !! key with
  | Some data => if String.eqb data "" then None else JSON_parse data
  | None => None
  end.

(** [clearStorage] *)
Definition clearStorage (keys : list string) (store : gmap string string) :
    gmap string string :=
  fold_left (fun st key => delete key st) keys store.

End Utils.

(** A codec for the closed examples: a text is stored behind a one-letter
    tag. *)
Definition tag_text (d : string) : option string := Some (String "t" d).

Definition untag_text (s : string) : option string :=
  match s with
  | String "t" d => Some d
  | _ => None
  end.

Definition text_size (s : string) : N := N.of_nat (String.length s).

Definition small_quota (store : gmap string string) (key value : string) : bool :=
  (String.length value <=? 64)%nat.

End Storage.

(** * Properties *)

(** ** The result monad *)

Lemma bind_Ok {A B : Type} (a : A) (k : A -> result B) : (Ok a ≫= k) = k a.
Proof. reflexivity. Qed.

Lemma bind_inv {A B : Type} (m : result A) (k : A -> result B) (b : B) :
  (m ≫= k) = Ok b -> exists a, m = Ok a /\ k a = Ok b.
Proof.
  destruct m as [a|]; simpl; intros H.
  - exists a. split; [reflexivity | exact H].
  - discriminate H.
Qed.

(** ** Candidate purchases *)

Lemma strict_eq_true (v : option cell) (c : cell) :
  strict_eq v c = true <-> v = Some c.
Proof. unfold strict_eq. apply bool_decide_eq_true. Qed.

(** C1 (as amended): a purchase is a candidate for a client exactly when one
    of its three email columns is strictly equal to the client's email, or
    one of its two member ID columns is strictly equal to the client's
    member ID; either key alone suffices.  No normalisation is applied. *)
Theorem matchingSales_candidate_iff (email memberID : cell)
    (salesData : list row) (sale : row) :
  In sale (matchingSales email memberID salesData) <->
  In sale salesData /\
  ((sale !! "Customer email" = Some email
    \/ sale !! "Paying Customer email" = Some email
    \/ sale !! "email" = Some email)
   \/ (sale !! "Member ID" = Some memberID
       \/ sale !! "memberID" = Some memberID)).
Proof.
  unfold matchingSales, emailMatch, memberIDMatch.
  rewrite filter_In, !orb_true_iff, !strict_eq_true.
  tauto.
Qed.

(** C1, counterexample: the purchase's email equals the client's after
    normalisation (it differs only in case), and yet the purchase is not a
    candidate. *)
Lemma normalized_email_not_candidate :
  candidate_by_spec (client_email client_e) (client_memberID 0 client_e)
    sale_upper_email = true
  /\ ~ In sale_upper_email
       (matchingSales (client_email client_e) (client_memberID 0 client_e)
          [sale_upper_email]).
Proof.
  split.
  - vm_compute. reflexivity.
  - intros H. vm_compute in H. exact H.
Qed.

(** ** Valid purchases *)

Lemma date_ge_true (a b : option Z) :
  date_ge a b = true <-> exists x y, a = Some x /\ b = Some y /\ (y <= x)%Z.
Proof.
  destruct a as [x|], b as [y|]; simpl; split;
    try discriminate; try (intros (x' & y' & H1 & H2 & _); discriminate).
  - intros H. exists x, y. rewrite Z.leb_le in H. auto.
  - intros (x' & y' & [= ->] & [= ->] & H). apply Z.leb_le. exact H.
Qed.

Lemma validSale_inv (Date_parse : string -> option Z) (v : option Z)
    (sale : row) (errs : list string) (keep : bool) (errs' : list string) :
  validSale Date_parse v sale errs = Ok (keep, errs') ->
  errs' = errs ++ (if lt0 (sale_value sale)
                   then ["Negative sale value detected"] else [])
  /\ (keep = true <-> exists visit, v = Some visit /\ qualifies Date_parse visit sale).
Proof.
  unfold validSale, qualifies.
  destruct (sale_Category sale) as [c|n] eqn:Ec; simpl; [|discriminate].
  destruct (sale_Item sale) as [p|n] eqn:Ep; simpl; [|discriminate].
  intros [= <- <-]. split.
  - destruct (lt0 (sale_value sale)); [reflexivity | now rewrite app_nil_r].
  - rewrite !andb_true_iff, !negb_true_iff, date_ge_true. split.
    + intros ((((Hv & Hp) & Hc) & (_ & (x & y & Hx & -> & Hle))) & Hr).
      exists y. split; [reflexivity|]. repeat split; try assumption.
      * exists (toLowerCase p). auto.
      * exists (toLowerCase c). split; [reflexivity|].
        intros E. rewrite E in Hc. discriminate.
      * exists x. auto.
    + intros (visit & -> & Hv & (p' & [= <-] & Hp) & (c' & [= <-] & Hc)
              & (t & Ht & Hle) & Hr).
      repeat split; try assumption.
      * apply String.eqb_neq. exact Hc.
      * rewrite Ht. reflexivity.
      * exists t, visit. auto.
Qed.

Lemma validSale_total (Date_parse : string -> option Z) (v : option Z)
    (sale : row) (errs : list string) :
  saleTextual sale = true ->
  exists keep errs', validSale Date_parse v sale errs = Ok (keep, errs').
Proof.
  unfold saleTextual, validSale.
  destruct (sale_Category sale); [|discriminate].
  destruct (sale_Item sale); [|discriminate].
  intros _. simpl. eauto.
Qed.

Lemma validSales_inv (Date_parse : string -> option Z) (v : option Z)
    (sales : list row) :
  forall (errs : list string) (valid : list row) (errs' : list string),
  validSales Date_parse v sales errs = Ok (valid, errs') ->
  errs' = errs ++ negative_errors sales
  /\ sublist valid sales
  /\ (forall sale, In sale valid <->
        In sale sales /\ exists visit, v = Some visit /\ qualifies Date_parse visit sale).
Proof.
  induction sales as [|sale rest IH]; intros errs valid errs' H.
  - simpl in H. injection H as <- <-. split; [now rewrite app_nil_r|].
    split; [constructor|]. intros s. simpl. tauto.
  - simpl in H. apply bind_inv in H as ([keep e1] & H1 & H).
    apply bind_inv in H as ([kept e2] & H2 & H). injection H as <- <-.
    apply validSale_inv in H1 as [-> Hkeep].
    apply IH in H2 as (-> & Hsub & Hin).
    split; [|split].
    + unfold negative_errors. simpl. now rewrite <- app_assoc.
    + destruct keep; [apply sublist_skip | apply sublist_cons]; exact Hsub.
    + intros s. destruct keep; simpl; rewrite ?Hin.
      * split.
        -- intros [<- | [Hs Hq]]; [|tauto]. split; [now left|]. now apply Hkeep.
        -- intros [[<- | Hs] Hq]; [now left | right; tauto].
      * split.
        -- intros [Hs Hq]. tauto.
        -- intros [[<- | Hs] Hq]; [|tauto].
           apply Hkeep in Hq. discriminate.
Qed.

Lemma validSales_total (Date_parse : string -> option Z) (v : option Z)
    (sales : list row) :
  Forall (fun sale => saleTextual sale = true) sales ->
  forall errs, exists valid errs',
    validSales Date_parse v sales errs = Ok (valid, errs').
Proof.
  induction 1 as [|sale rest Hs _ IH]; intros errs.
  - simpl. eauto.
  - simpl. destruct (validSale_total Date_parse v sale errs Hs) as (keep & e1 & ->).
    simpl. destruct (IH e1) as (kept & e2 & ->). simpl. eauto.
Qed.

(** C2: for a client whose first visit date parses (to [visit]) and
    candidate purchases with textual labels, the purchases counted as valid
    are exactly the candidates with a value above 0, a lower-cased product
    label that does not contain [2 for 1], a lower-cased category other than
    [retail], a date that parses and is not before the first visit, and no
    refund flag. *)
Theorem validSales_valid_iff (Date_parse : string -> option Z) (visit : Z)
    (candidates : list row) (errs : list string) :
  Forall (fun sale => saleTextual sale = true) candidates ->
  exists valid errs',
    validSales Date_parse (Some visit) candidates errs = Ok (valid, errs')
    /\ forall sale, In sale valid <->
         In sale candidates
         /\ gt0 (sale_value sale) = true
         /\ (exists product, cell_toLowerCase (sale_Item sale) = Ok product
                             /\ includes product "2 for 1" = false)
         /\ (exists category, cell_toLowerCase (sale_Category sale) = Ok category
                              /\ category <> "retail")
         /\ (exists t, saleTime Date_parse sale = Some t /\ (visit <= t)%Z)
         /\ sale_refunded sale = false.
Proof.
  intros Htext.
  destruct (validSales_total Date_parse (Some visit) candidates Htext errs)
    as (valid & errs' & Hrun).
  exists valid, errs'. split; [exact Hrun|].
  apply validSales_inv in Hrun as (_ & _ & Hin).
  intros sale. rewrite Hin. unfold qualifies. split.
  - intros (Hs & v & [= <-] & Hq). tauto.
  - intros (Hs & Hq). split; [exact Hs|]. exists visit. tauto.
Qed.

(** The characterisation at a class purchase and a retail purchase, for a
    first visit on 2024-01-01. *)
Lemma validSales_valid_iff_witness :
  Forall (fun sale => saleTextual sale = true) [sale_class; sale_retail]
  /\ exists valid errs',
    validSales iso_date_parse (Some 1704067200000%Z) [sale_class; sale_retail] []
      = Ok (valid, errs')
    /\ forall sale, In sale valid <->
         In sale [sale_class; sale_retail]
         /\ gt0 (sale_value sale) = true
         /\ (exists product, cell_toLowerCase (sale_Item sale) = Ok product
                             /\ includes product "2 for 1" = false)
         /\ (exists category, cell_toLowerCase (sale_Category sale) = Ok category
                              /\ category <> "retail")
         /\ (exists t, saleTime iso_date_parse sale = Some t
                       /\ (1704067200000 <= t)%Z)
         /\ sale_refunded sale = false.
Proof.
  assert (H : Forall (fun sale => saleTextual sale = true) [sale_class; sale_retail])
    by (repeat constructor).
  split; [exact H|].
  exact (validSales_valid_iff iso_date_parse 1704067200000 [sale_class; sale_retail] [] H).
Defined.

(** ** Sorting by purchase date *)

Section Sorting.

Variable Date_parse : string -> option Z.

Local Abbreviation time := (saleTime Date_parse).

Lemma positive_compare_lt (x y : row) :
  positive_result (compareDates Date_parse x y) = date_lt (time y) (time x).
Proof.
  unfold compareDates.
  destruct (saleTime Date_parse x) as [tx|], (saleTime Date_parse y) as [ty|];
    simpl; try reflexivity.
  destruct (Z.ltb_spec 0 (tx - ty)), (Z.ltb_spec ty tx); (reflexivity || lia).
Qed.

Lemma head_insert_sale (x : row) (l : list row) :
  head (insert_sale Date_parse x l)
  = match head l with
    | None => Some x
    | Some y => if date_lt (time y) (time x) then Some y else Some x
    end.
Proof.
  destruct l as [|y l']; simpl; [reflexivity|].
  rewrite positive_compare_lt.
  destruct (date_lt (time y) (time x)); reflexivity.
Qed.

Lemma head_sortByDate (l : list row) :
  head (sortByDate Date_parse l) = earliest time l.
Proof.
  induction l as [|x rest IH]; simpl; [reflexivity|].
  rewrite head_insert_sale, IH. reflexivity.
Qed.

Lemma earliest_None (l : list row) : earliest time l = None -> l = [].
Proof.
  destruct l as [|x rest]; simpl; [reflexivity|].
  destruct (earliest time rest) as [y|]; [|discriminate].
  destruct (date_lt (time y) (time x)); discriminate.
Qed.

(** The element [earliest] picks splits the list: strictly later
    purchases before it, purchases not earlier after it. *)
Lemma earliest_split (l : list row) :
  Forall (fun s => is_Some (time s)) l ->
  forall x, earliest time l = Some x ->
  exists pre post t,
    l = pre ++ x :: post
    /\ time x = Some t
    /\ Forall (fun s => exists u, time s = Some u /\ (t < u)%Z) pre
    /\ Forall (fun s => exists u, time s = Some u /\ (t <= u)%Z) post.
Proof.
  induction 1 as [|a rest [ta Ha] Hrest IH]; intros x Hx; [discriminate|].
  simpl in Hx. destruct (earliest time rest) as [y|] eqn:Ey.
  - destruct (IH y eq_refl) as (pre & post & ty & -> & Hy & Hpre & Hpost).
    rewrite Hy, Ha in Hx. simpl in Hx.
    destruct (Z.ltb_spec ty ta) as [Hlt|Hge]; injection Hx as <-.
    + exists (a :: pre), post, ty. repeat split; try assumption.
      constructor; [|exact Hpre]. exists ta. auto.
    + exists [], (pre ++ y :: post), ta. repeat split; try assumption.
      * constructor.
      * apply Forall_app. split; [|constructor].
        -- eapply List.Forall_impl; [|exact Hpre].
           intros s (u & Hu & Hlt). exists u. split; [exact Hu | lia].
        -- exists ty. split; [exact Hy | lia].
        -- eapply List.Forall_impl; [|exact Hpost].
           intros s (u & Hu & Hle). exists u. split; [exact Hu | lia].
  - apply earliest_None in Ey. subst rest. injection Hx as <-.
    exists [], [], ta. repeat split; try assumption; constructor.
Qed.

Lemma filter_time_insert (t : Z) (x : row) (l : list row) :
  List.filter (fun s => bool_decide (time s = Some t)) (insert_sale Date_parse x l)
  = List.filter (fun s => bool_decide (time s = Some t)) (x :: l).
Proof.
  induction l as [|y l' IH]; [reflexivity|].
  simpl insert_sale. rewrite positive_compare_lt.
  destruct (date_lt (time y) (time x)) eqn:Hlt; [|reflexivity].
  change (List.filter ?p (y :: ?r)) with (if p y then y :: List.filter p r else List.filter p r).
  rewrite IH. simpl.
  destruct (bool_decide (time x = Some t)) eqn:Ex;
    destruct (bool_decide (time y = Some t)) eqn:Ey; try reflexivity.
  apply bool_decide_eq_true in Ex, Ey. rewrite Ex, Ey in Hlt. simpl in Hlt.
  apply Z.ltb_lt in Hlt. lia.
Qed.

Lemma insert_sale_perm (x : row) (l : list row) :
  Permutation (x :: l) (insert_sale Date_parse x l).
Proof.
  induction l as [|y l' IH]; simpl; [reflexivity|].
  destruct (positive_result (compareDates Date_parse x y)); [|reflexivity].
  rewrite perm_swap. apply perm_skip. exact IH.
Qed.

Lemma sortByDate_perm (l : list row) : Permutation l (sortByDate Date_parse l).
Proof.
  induction l as [|x rest IH]; simpl; [reflexivity|].
  rewrite <- insert_sale_perm. apply perm_skip. exact IH.
Qed.

Lemma insert_sale_sorted (x : row) (l : list row) :
  is_Some (time x) ->
  Forall (fun s => is_Some (time s)) l ->
  StronglySorted (fun a b => time_le (time a) (time b)) l ->
  StronglySorted (fun a b => time_le (time a) (time b)) (insert_sale Date_parse x l).
Proof.
  intros [tx Hx] Hall Hs. induction Hs as [|y l' Hs IH Hy]; simpl.
  - repeat constructor.
  - inversion Hall as [|? ? [ty Hty] Hall']; subst.
    rewrite positive_compare_lt, Hty, Hx. simpl.
    destruct (Z.ltb_spec ty tx) as [Hlt|Hge].
    + constructor; [apply IH; exact Hall'|].
      rewrite <- insert_sale_perm. constructor; [|exact Hy].
      unfold time_le. rewrite Hty, Hx. lia.
    + constructor; [constructor; assumption|].
      constructor.
      * unfold time_le. rewrite Hty, Hx. exact Hge.
      * eapply List.Forall_impl; [|exact Hy]. intros s. unfold time_le.
        rewrite Hty, Hx. destruct (time s); [lia | tauto].
Qed.

(** The insertion sort meets the contract of a stable sort. *)
Lemma sortByDate_conforming : conforming_sort time (sortByDate Date_parse).
Proof.
  intros l Hall. split; [apply sortByDate_perm|]. split.
  - induction Hall as [|x rest Hx Hrest IH]; simpl; [constructor|].
    apply insert_sale_sorted; [exact Hx | | exact IH].
    rewrite <- sortByDate_perm. exact Hrest.
  - intros t. clear Hall. induction l as [|x rest IH]; [reflexivity|].
    simpl sortByDate. rewrite filter_time_insert. simpl. rewrite IH. reflexivity.
Qed.

Lemma filter_time_none (t : Z) (l : list row) :
  Forall (fun s => exists u, time s = Some u /\ (t < u)%Z) l ->
  List.filter (fun s => bool_decide (time s = Some t)) l = [].
Proof.
  induction 1 as [|s l' (u & Hu & Hlt) _ IH]; [reflexivity|].
  simpl. rewrite IH. rewrite bool_decide_eq_false_2; [reflexivity|].
  rewrite Hu. intros [= ->]. lia.
Qed.

(** Any result a conforming sort may return starts with the same
    element. *)
Lemma conforming_head (l l' : list row) :
  Forall (fun s => is_Some (time s)) l ->
  stable_sort_of time l l' ->
  head l' = earliest time l.
Proof.
  intros Hall (Hperm & Hsorted & Hstable).
  destruct l' as [|x l''].
  - symmetry in Hperm. apply Permutation_nil in Hperm. subst l. reflexivity.
  - simpl. destruct (earliest time l) as [z|] eqn:Ez.
    2:{ apply earliest_None in Ez. subst l.
        apply Permutation_nil in Hperm. discriminate. }
    destruct (earliest_split l Hall z Ez) as (pre & post & tz & El & Hz & Hpre & Hpost).
    inversion Hsorted as [|? ? _ Hx]; subst.
    assert (Hxin : In x (pre ++ z :: post)).
    { eapply Permutation_in; [symmetry; exact Hperm | now left]. }
    assert (Hzin : In z (x :: l'')).
    { eapply Permutation_in; [exact Hperm|]. apply in_elt. }
    assert (Hxt : exists tx, time x = Some tx /\ (tz <= tx)%Z).
    { apply in_app_or in Hxin as [Hin | [<- | Hin]].
      - rewrite List.Forall_forall in Hpre. destruct (Hpre x Hin) as (u & Hu & Hlt).
        exists u. split; [exact Hu | lia].
      - exists tz. split; [exact Hz | lia].
      - rewrite List.Forall_forall in Hpost. exact (Hpost x Hin). }
    destruct Hxt as (tx & Htx & Hle).
    assert (Hge : (tx <= tz)%Z).
    { destruct Hzin as [<- | Hin].
      - rewrite Hz in Htx. injection Htx as ->. lia.
      - rewrite List.Forall_forall in Hx. specialize (Hx z Hin).
        unfold time_le in Hx. rewrite Htx, Hz in Hx. exact Hx. }
    assert (tx = tz) by lia. subst tx.
    specialize (Hstable tz). simpl in Hstable.
    rewrite bool_decide_eq_true_2 in Hstable by exact Htx.
    rewrite List.filter_app, (filter_time_none tz pre Hpre) in Hstable.
    simpl in Hstable. rewrite bool_decide_eq_true_2 in Hstable by exact Hz.
    injection Hstable as Hxz _. now rewrite Hxz.
Qed.

End Sorting.

(** ** One iteration of the loop *)

Section Iteration.

Variable Date_parse : string -> option Z.
Variable safeFormatCurrency : number -> string.

Lemma validSales_times (v : option Z) (sales : list row) (errs : list string)
    (valid : list row) (errs' : list string) :
  validSales Date_parse v sales errs = Ok (valid, errs') ->
  Forall (fun s => is_Some (saleTime Date_parse s)) valid.
Proof.
  intros H. apply validSales_inv in H as (_ & _ & Hin).
  apply List.Forall_forall. intros s Hs.
  apply Hin in Hs as (_ & visit & _ & _ & _ & _ & (t & Ht & _) & _).
  exists t. exact Ht.
Qed.

(** The record pushed for a client with a valid purchase. *)
Lemma processClient_converted (sort : list row -> list row) (salesData : list row)
    (index : nat) (client : row) (valid : list row) (errs : list string)
    (firstSale : row) :
  skipRow client = Ok false ->
  validSales Date_parse (visitOf Date_parse client)
    (candidatesOf index client salesData) (errorsBefore Date_parse client)
    = Ok (valid, errs) ->
  valid <> [] ->
  head (sort valid) = Some firstSale ->
  exists pc,
    processClient Date_parse safeFormatCurrency sort salesData index client
      = Ok (Some pc)
    /\ conversionStatus pc = converted
    /\ firstPurchaseDate pc = Some (sale_Date firstSale)
    /\ firstPurchaseProduct pc = Some (sale_Item firstSale)
    /\ firstPurchaseValue pc = Some (sale_value firstSale)
    /\ daysToConversion pc
       = match saleTime Date_parse firstSale, visitOf Date_parse client with
         | Some p, Some v => Some (ceil_days (p - v))
         | _, _ => None
         end
    /\ validationErrors pc = errs.
Proof.
  intros Hskip Hvalid Hne Hhead.
  unfold processClient. rewrite Hskip. simpl.
  unfold visitOf, candidatesOf, errorsBefore in Hvalid. unfold visitOf in Hvalid.
  rewrite Hvalid. simpl.
  destruct valid as [|s0 valid']; [congruence|].
  destruct (sort (s0 :: valid')) as [|f rest]; [discriminate|].
  injection Hhead as ->.
  eexists. split; [reflexivity|]. simpl. repeat split; reflexivity.
Qed.

(** The record pushed for a client without a valid purchase. *)
Lemma processClient_not_converted (sort : list row -> list row)
    (salesData : list row) (index : nat) (client : row) (errs : list string)
    (details : string) :
  skipRow client = Ok false ->
  validSales Date_parse (visitOf Date_parse client)
    (candidatesOf index client salesData) (errorsBefore Date_parse client)
    = Ok ([], errs) ->
  notConvertedDetails Date_parse (visitOf Date_parse client)
    (candidatesOf index client salesData) = Ok details ->
  exists pc,
    processClient Date_parse safeFormatCurrency sort salesData index client
      = Ok (Some pc)
    /\ conversionStatus pc = not_converted
    /\ conversionDetails pc = details
    /\ firstPurchaseDate pc = None
    /\ firstPurchaseProduct pc = None
    /\ firstPurchaseValue pc = None
    /\ daysToConversion pc = None
    /\ validationErrors pc = errs.
Proof.
  intros Hskip Hvalid Hdetails.
  unfold processClient. rewrite Hskip. simpl.
  unfold visitOf, candidatesOf, errorsBefore in Hvalid, Hdetails.
  unfold visitOf in Hvalid.
  rewrite Hvalid. simpl. rewrite Hdetails. simpl.
  eexists. split; [reflexivity|]. simpl. repeat split; reflexivity.
Qed.

Lemma matchingSales_sublist (email memberID : cell) (salesData : list row) :
  sublist (matchingSales email memberID salesData) salesData.
Proof.
  unfold matchingSales. induction salesData as [|s rest IH]; simpl.
  - constructor.
  - destruct (emailMatch email s || memberIDMatch memberID s).
    + apply sublist_skip. exact IH.
    + apply sublist_cons. exact IH.
Qed.

Lemma ceil_days_nonneg (ms : Z) : (0 <= ms)%Z -> (0 <= ceil_days ms)%Z.
Proof.
  intros H. unfold ceil_days.
  assert ((- ms) / 86400000 <= 0)%Z; [|lia].
  apply Z.div_le_upper_bound; lia.
Qed.

(** [ceil_days ms] is the ceiling of [ms / 86400000]: the one integer [d]
    with [d - 1 < ms / 86400000 <= d]. *)
Lemma ceil_days_bounds (ms : Z) :
  (86400000 * (ceil_days ms - 1) < ms <= 86400000 * ceil_days ms)%Z.
Proof.
  unfold ceil_days.
  pose proof (Z.div_mod (- ms) 86400000 ltac:(lia)) as E.
  pose proof (Z.mod_pos_bound (- ms) 86400000 ltac:(lia)) as B.
  lia.
Qed.

(** It is the least number of whole days that cover [ms]. *)
Lemma ceil_days_least (ms d : Z) :
  (ceil_days ms <= d <-> ms <= 86400000 * d)%Z.
Proof.
  pose proof (ceil_days_bounds ms). lia.
Qed.

End Iteration.

(** C3: a client with at least one valid candidate purchase is converted;
    the first purchase recorded is the valid candidate of earliest date, the
    valid candidates listed before it in input order being strictly later
    and those after it not earlier; the days to conversion are the ceiling
    of the difference to the first visit in days: the one integer [d] with
    [d - 1 < difference / 86400000 <= d], the least number of whole days
    that cover the difference; they are not negative, and 0 exactly when the
    purchase is at the instant of the visit.  In scenario A (first visit
    2024-01-01, purchase of 1000 on 2024-01-05) the client is converted
    after 4 days with a first purchase value of 1000.  A purchase 10 hours
    after the visit counts 1 day, also when a purchase a week later comes
    first in the sales array and another of the same instant follows; a
    purchase at the instant of the visit counts 0 days. *)
Theorem converted_first_purchase :
  (forall (Date_parse : string -> option Z) (safeFormatCurrency : number -> string)
          (salesData : list row) (index : nat) (client : row)
          (valid : list row) (errs : list string),
     skipRow client = Ok false ->
     validSales Date_parse (visitOf Date_parse client)
       (candidatesOf index client salesData) (errorsBefore Date_parse client)
       = Ok (valid, errs) ->
     valid <> [] ->
     exists pc pre firstSale post visit t,
       processClient Date_parse safeFormatCurrency (sortByDate Date_parse)
         salesData index client = Ok (Some pc)
       /\ conversionStatus pc = converted
       /\ sublist valid salesData
       /\ valid = pre ++ firstSale :: post
       /\ visitOf Date_parse client = Some visit
       /\ saleTime Date_parse firstSale = Some t
       /\ Forall (fun s => exists u, saleTime Date_parse s = Some u /\ (t < u)%Z) pre
       /\ Forall (fun s => exists u, saleTime Date_parse s = Some u /\ (t <= u)%Z) post
       /\ firstPurchaseDate pc = Some (sale_Date firstSale)
       /\ firstPurchaseProduct pc = Some (sale_Item firstSale)
       /\ firstPurchaseValue pc = Some (sale_value firstSale)
       /\ daysToConversion pc = Some (ceil_days (t - visit))
       /\ (0 <= ceil_days (t - visit))%Z
       /\ (86400000 * (ceil_days (t - visit) - 1) < t - visit
           <= 86400000 * ceil_days (t - visit))%Z
       /\ (forall d : Z, ceil_days (t - visit) <= d <-> t - visit <= 86400000 * d)%Z
       /\ (ceil_days (t - visit) = 0%Z <-> t = visit))
  /\ (forall safeFormatCurrency : number -> string,
        exists pc,
          processedData iso_date_parse safeFormatCurrency [client_e] [sale_class]
            = Ok [pc]
          /\ conversionStatus pc = converted
          /\ daysToConversion pc = Some 4%Z
          /\ firstPurchaseValue pc = Some (Fin 1000))
  /\ (forall (Date_parse : string -> option Z)
             (safeFormatCurrency : number -> string),
        (exists pc,
           processedData Date_parse safeFormatCurrency [client_morning]
             [sale_evening] = Ok [pc]
           /\ conversionStatus pc = converted
           /\ daysToConversion pc = Some 1%Z)
        /\ (exists pc,
              processedData Date_parse safeFormatCurrency [client_morning]
                [sale_week_later; sale_before_visit; sale_evening; sale_evening_2]
                = Ok [pc]
              /\ conversionStatus pc = converted
              /\ firstPurchaseProduct pc = Some (CStr "Drop-in")
              /\ firstPurchaseValue pc = Some (Fin 300)
              /\ daysToConversion pc = Some 1%Z)
        /\ (exists pc,
              processedData Date_parse safeFormatCurrency [client_morning]
                [sale_week_later] = Ok [pc]
              /\ daysToConversion pc = Some 7%Z)
        /\ (exists pc,
              processedData Date_parse safeFormatCurrency [client_morning]
                [sale_evening; sale_at_visit] = Ok [pc]
              /\ firstPurchaseProduct pc = Some (CStr "Intro")
              /\ daysToConversion pc = Some 0%Z)).
Proof.
  split; [|split].
  - intros Date_parse fmt salesData index client valid errs Hskip Hvalid Hne.
    pose proof (validSales_times _ _ _ _ _ _ Hvalid) as Htimes.
    destruct (earliest (saleTime Date_parse) valid) as [firstSale|] eqn:Hfirst.
    2:{ apply earliest_None in Hfirst. contradiction. }
    destruct (earliest_split Date_parse valid Htimes firstSale Hfirst)
      as (pre & post & t & Esplit & Ht & Hpre & Hpost).
    destruct (processClient_converted Date_parse fmt (sortByDate Date_parse)
                salesData index client valid errs firstSale Hskip Hvalid Hne)
      as (pc & Hrun & Hstatus & Hdate & Hproduct & Hvalue & Hdays & _).
    { rewrite head_sortByDate. exact Hfirst. }
    pose proof Hvalid as Hinv.
    apply validSales_inv in Hinv as (_ & Hsub & Hin).
    assert (Hq : In firstSale valid) by (rewrite Esplit; apply in_elt).
    apply Hin in Hq as (_ & visit & Hvisit & _ & _ & _ & (t' & Ht' & Hle) & _).
    rewrite Ht in Ht'. injection Ht' as <-.
    exists pc, pre, firstSale, post, visit, t.
    rewrite Hdays, Ht, Hvisit.
    pose proof (ceil_days_bounds (t - visit)) as Hb.
    pose proof (ceil_days_nonneg (t - visit) ltac:(lia)) as H0.
    repeat match goal with |- _ /\ _ => split end; try assumption; try reflexivity.
    + etransitivity; [exact Hsub|]. apply matchingSales_sublist.
    + apply Hb.
    + apply Hb.
    + intros d. apply ceil_days_least.
    + split; [intros E; rewrite E in Hb; lia | intros E; subst t; lia].
  - intros fmt. eexists. split; [vm_compute; reflexivity|].
    repeat split; reflexivity.
  - intros Date_parse fmt.
    repeat match goal with |- _ /\ _ => split end;
      (eexists; split; [vm_compute; reflexivity | repeat split; reflexivity]).
Qed.

(** The theorem at a client with four candidate purchases, given as time
    values: the one before the visit is dropped; of the three valid ones the
    purchase a week later comes first in the array and is passed over for
    the first of the two made 10 hours after the visit. *)
Lemma converted_first_purchase_witness :
  skipRow client_morning = Ok false
  /\ validSales iso_date_parse (visitOf iso_date_parse client_morning)
       (candidatesOf 0 client_morning
          [sale_week_later; sale_before_visit; sale_evening; sale_evening_2])
       (errorsBefore iso_date_parse client_morning)
     = Ok ([sale_week_later; sale_evening; sale_evening_2], [])
  /\ [sale_week_later; sale_evening; sale_evening_2] <> []
  /\ exists pc pre firstSale post visit t,
       processClient iso_date_parse noFormat (sortByDate iso_date_parse)
         [sale_week_later; sale_before_visit; sale_evening; sale_evening_2]
         0 client_morning = Ok (Some pc)
       /\ conversionStatus pc = converted
       /\ sublist [sale_week_later; sale_evening; sale_evening_2]
            [sale_week_later; sale_before_visit; sale_evening; sale_evening_2]
       /\ [sale_week_later; sale_evening; sale_evening_2] = pre ++ firstSale :: post
       /\ visitOf iso_date_parse client_morning = Some visit
       /\ saleTime iso_date_parse firstSale = Some t
       /\ Forall (fun s => exists u, saleTime iso_date_parse s = Some u /\ (t < u)%Z) pre
       /\ Forall (fun s => exists u, saleTime iso_date_parse s = Some u /\ (t <= u)%Z) post
       /\ firstPurchaseDate pc = Some (sale_Date firstSale)
       /\ firstPurchaseProduct pc = Some (sale_Item firstSale)
       /\ firstPurchaseValue pc = Some (sale_value firstSale)
       /\ daysToConversion pc = Some (ceil_days (t - visit))
       /\ (0 <= ceil_days (t - visit))%Z
       /\ (86400000 * (ceil_days (t - visit) - 1) < t - visit
           <= 86400000 * ceil_days (t - visit))%Z
       /\ (forall d : Z, ceil_days (t - visit) <= d <-> t - visit <= 86400000 * d)%Z
       /\ (ceil_days (t - visit) = 0%Z <-> t = visit).
Proof.
  assert (H1 : skipRow client_morning = Ok false) by reflexivity.
  assert (H2 : validSales iso_date_parse (visitOf iso_date_parse client_morning)
                 (candidatesOf 0 client_morning
                    [sale_week_later; sale_before_visit; sale_evening; sale_evening_2])
                 (errorsBefore iso_date_parse client_morning)
               = Ok ([sale_week_later; sale_evening; sale_evening_2], []))
    by (vm_compute; reflexivity).
  assert (H3 : [sale_week_later; sale_evening; sale_evening_2] <> []) by discriminate.
  split; [exact H1|]. split; [exact H2|]. split; [exact H3|].
  exact (proj1 converted_first_purchase iso_date_parse noFormat
           [sale_week_later; sale_before_visit; sale_evening; sale_evening_2]
           0%nat client_morning [sale_week_later; sale_evening; sale_evening_2]
           [] H1 H2 H3).
Defined.

(** Two valid purchases of the same date: the one that comes first in the
    sales array is the first purchase, whichever it is; a later-dated
    purchase ahead of both in the array is passed over. *)
Example tie_broken_by_input_order :
  (exists pc,
     processedData iso_date_parse noFormat [client_e]
       [sale_next_month; sale_same_day; sale_class] = Ok [pc]
     /\ firstPurchaseProduct pc = Some (CStr "Drop-in")
     /\ daysToConversion pc = Some 4%Z)
  /\ (exists pc,
        processedData iso_date_parse noFormat [client_e]
          [sale_class; sale_same_day] = Ok [pc]
        /\ firstPurchaseProduct pc = Some (CStr "Pass")).
Proof.
  split; eexists; (split; [vm_compute; reflexivity | repeat split; reflexivity]).
Qed.

(** ** Clients without a valid purchase *)

Section NotConverted.

Variable Date_parse : string -> option Z.
Variable safeFormatCurrency : number -> string.

Lemma validSales_textual (v : option Z) (sales : list row) :
  forall errs r, validSales Date_parse v sales errs = Ok r ->
  Forall (fun s => saleTextual s = true) sales.
Proof.
  induction sales as [|sale rest IH]; intros errs r H; [constructor|].
  simpl in H. apply bind_inv in H as ([keep e1] & H1 & H).
  apply bind_inv in H as ([kept e2] & H2 & _).
  constructor; [|eapply IH; exact H2].
  unfold validSale in H1. unfold saleTextual.
  destruct (sale_Category sale); [|discriminate].
  destruct (sale_Item sale); [reflexivity|discriminate].
Qed.

Lemma saleReasons_textual (v : option Z) (sale : row) :
  saleTextual sale = true ->
  exists rs, saleReasons Date_parse v sale = Ok rs /\ reasons_of Date_parse v sale rs.
Proof.
  unfold saleTextual, saleReasons, reasons_of.
  destruct (sale_Category sale) as [c|]; [|discriminate].
  destruct (sale_Item sale) as [p|]; [|discriminate].
  intros _. simpl. eexists. split; [reflexivity|].
  exists (toLowerCase c), (toLowerCase p). auto.
Qed.

Lemma collectReasons_textual (v : option Z) (sales : list row) :
  Forall (fun s => saleTextual s = true) sales ->
  forall acc, exists rss,
    Forall2 (reasons_of Date_parse v) sales rss
    /\ collectReasons Date_parse v sales acc = Ok (acc ++ concat rss).
Proof.
  induction 1 as [|sale rest Hs _ IH]; intros acc.
  - exists []. split; [constructor|]. simpl. now rewrite app_nil_r.
  - destruct (saleReasons_textual v sale Hs) as (rs & Hrs & Hof).
    destruct (IH (acc ++ rs)) as (rss & Hall & Hrun).
    exists (rs :: rss). split; [constructor; assumption|].
    simpl. rewrite Hrs. simpl. rewrite Hrun. now rewrite <- app_assoc.
Qed.

End NotConverted.

Section Totality.

Variable Date_parse : string -> option Z.
Variable safeFormatCurrency : number -> string.

Local Abbreviation run := (processClient Date_parse safeFormatCurrency (sortByDate Date_parse)).

Lemma skipRow_textual (client : row) :
  teacherTextual client = true -> skipRow client = Ok (sentinelRow client).
Proof.
  unfold teacherTextual, skipRow, sentinelRow.
  destruct (client !! "Teacher") as [[s|n]|]; try reflexivity.
  - intros _. simpl. destruct s as [|a s']; reflexivity.
  - intros H. simpl. rewrite H. reflexivity.
Qed.

Lemma candidates_textual (index : nat) (client : row) (salesData : list row) :
  Forall (fun s => saleTextual s = true) salesData ->
  Forall (fun s => saleTextual s = true) (candidatesOf index client salesData).
Proof.
  rewrite !List.Forall_forall. intros H s Hs.
  apply H. unfold candidatesOf, matchingSales in Hs.
  apply filter_In in Hs. tauto.
Qed.

Lemma notConvertedDetails_textual (v : option Z) (sales : list row) :
  Forall (fun s => saleTextual s = true) sales ->
  exists rss,
    Forall2 (reasons_of Date_parse v) sales rss
    /\ notConvertedDetails Date_parse v sales
       = Ok (match sales with
             | [] => "No purchase records found for this client"
             | _ :: _ =>
                 match concat rss with
                 | [] => "Has purchases but none meet conversion criteria"
                 | _ :: _ => "Not converted: " +:+ join ", " (concat rss)
                 end
             end).
Proof.
  intros Htext.
  destruct (collectReasons_textual Date_parse v sales Htext []) as (rss & Hall & Hrun).
  exists rss. split; [exact Hall|].
  unfold notConvertedDetails. destruct sales as [|s rest]; [reflexivity|].
  rewrite Hrun. reflexivity.
Qed.

(** An iteration on a well-typed row raises no error: a sentinel row is
    skipped and any other row yields a record. *)
Lemma processClient_total (salesData : list row) (index : nat) (client : row) :
  teacherTextual client = true ->
  Forall (fun s => saleTextual s = true) salesData ->
  exists r, run salesData index client = Ok r
    /\ (sentinelRow client = true -> r = None)
    /\ (sentinelRow client = false -> exists pc, r = Some pc).
Proof.
  intros Ht Hs. pose proof (skipRow_textual client Ht) as Hskip.
  destruct (sentinelRow client) eqn:Hsent.
  - exists None. split; [|split; [reflexivity | discriminate]].
    unfold processClient. rewrite Hskip. reflexivity.
  - pose proof (candidates_textual index client salesData Hs) as Hc.
    destruct (validSales_total Date_parse (visitOf Date_parse client) _ Hc
                (errorsBefore Date_parse client)) as (valid & errs & Hvalid).
    destruct valid as [|s0 valid'] eqn:Ev.
    + destruct (notConvertedDetails_textual (visitOf Date_parse client) _ Hc)
        as (rss & _ & Hd).
      destruct (processClient_not_converted Date_parse safeFormatCurrency
                  (sortByDate Date_parse) salesData index client errs _
                  Hskip Hvalid Hd) as (pc & Hrun & _).
      exists (Some pc). split; [exact Hrun|]. split; [discriminate | eauto].
    + destruct (earliest (saleTime Date_parse) (s0 :: valid')) as [f|] eqn:Ef.
      2:{ apply earliest_None in Ef. discriminate. }
      destruct (processClient_converted Date_parse safeFormatCurrency
                  (sortByDate Date_parse) salesData index client _ errs f
                  Hskip Hvalid) as (pc & Hrun & _).
      { discriminate. }
      { rewrite head_sortByDate. exact Ef. }
      exists (Some pc). split; [exact Hrun|]. split; [discriminate | eauto].
Qed.

(** What a pushed record says about the iteration that produced it. *)
Lemma processClient_inv (sort : list row -> list row) (salesData : list row)
    (index : nat) (client : row) (pc : ProcessedClient) :
  processClient Date_parse safeFormatCurrency sort salesData index client
    = Ok (Some pc) ->
  skipRow client = Ok false
  /\ exists valid,
       validSales Date_parse (visitOf Date_parse client)
         (candidatesOf index client salesData) (errorsBefore Date_parse client)
         = Ok (valid, validationErrors pc)
       /\ ((valid = [] /\ conversionStatus pc = not_converted
            /\ firstPurchaseDate pc = None /\ firstPurchaseProduct pc = None
            /\ firstPurchaseValue pc = None /\ daysToConversion pc = None
            /\ notConvertedDetails Date_parse (visitOf Date_parse client)
                 (candidatesOf index client salesData)
               = Ok (conversionDetails pc))
           \/ (valid <> [] /\ conversionStatus pc = converted
               /\ exists firstSale,
                    head (sort valid) = Some firstSale
                    /\ firstPurchaseDate pc = Some (sale_Date firstSale)
                    /\ firstPurchaseProduct pc = Some (sale_Item firstSale)
                    /\ firstPurchaseValue pc = Some (sale_value firstSale)
                    /\ daysToConversion pc
                       = match saleTime Date_parse firstSale,
                               visitOf Date_parse client with
                         | Some p, Some v => Some (ceil_days (p - v))
                         | _, _ => None
                         end)).
Proof.
  unfold processClient. intros H.
  apply bind_inv in H as (skip & Hskip & H).
  destruct skip; [discriminate|]. split; [exact Hskip|].
  apply bind_inv in H as ([valid errs] & Hvalid & H).
  exists valid. destruct valid as [|s0 valid'].
  - apply bind_inv in H as (details & Hd & H). injection H as <-. simpl.
    split; [exact Hvalid|]. left. repeat split; try reflexivity. exact Hd.
  - destruct (sort (s0 :: valid')) as [|f rest] eqn:Esort; [discriminate|].
    injection H as <-. simpl. split; [exact Hvalid|]. right.
    split; [discriminate|]. split; [reflexivity|].
    exists f. repeat split; reflexivity.
Qed.

Lemma processFrom_app (sort : list row -> list row) (salesData : list row)
    (l1 l2 : list row) :
  forall (index : nat) (o1 o2 : list ProcessedClient),
  processFrom Date_parse safeFormatCurrency sort salesData index l1 = Ok o1 ->
  processFrom Date_parse safeFormatCurrency sort salesData (index + length l1) l2
    = Ok o2 ->
  processFrom Date_parse safeFormatCurrency sort salesData index (l1 ++ l2)
    = Ok (o1 ++ o2).
Proof.
  induction l1 as [|c rest IH]; intros index o1 o2 H1 H2.
  - simpl in *. injection H1 as <-. rewrite Nat.add_0_r in H2. exact H2.
  - simpl in *. apply bind_inv in H1 as (r & Hr & H1).
    apply bind_inv in H1 as (o & Ho & H1). injection H1 as <-.
    rewrite Hr. simpl.
    rewrite (IH (S index) o o2 Ho) by (now rewrite Nat.add_succ_comm).
    simpl. destruct r; reflexivity.
Qed.

Lemma processFrom_total (salesData : list row) (clients : list row) :
  Forall (fun c => teacherTextual c = true) clients ->
  Forall (fun s => saleTextual s = true) salesData ->
  forall index, exists out,
    processFrom Date_parse safeFormatCurrency (sortByDate Date_parse)
      salesData index clients = Ok out.
Proof.
  intros Hc Hs. induction Hc as [|c rest Ht _ IH]; intros index.
  - exists []. reflexivity.
  - destruct (processClient_total salesData index c Ht Hs) as (r & Hr & _).
    destruct (IH (S index)) as (out & Hout).
    simpl. rewrite Hr. simpl. rewrite Hout. simpl. eauto.
Qed.

Lemma processedDataWith_eq (sort : list row -> list row)
    (newClientData salesData : list row) :
  processedDataWith Date_parse safeFormatCurrency sort newClientData salesData
  = processFrom Date_parse safeFormatCurrency sort salesData 0 newClientData.
Proof. destruct newClientData; reflexivity. Qed.

End Totality.

(** C4 (as amended): a client with no valid candidate purchase is not
    converted.  Without any candidate the explanation is [No purchase
    records found for this client].  Otherwise all candidates are scanned
    again in order, each contributing the reasons among: value not above 0,
    product containing [2 for 1], category [retail], purchase date before
    the first visit (both dates parsed), refunded; the explanation is [Not
    converted: ] followed by all the reasons collected, joined by commas,
    a reason being repeated as often as it was collected, and a fixed
    fallback text when none was collected. *)
Theorem not_converted_explanation (Date_parse : string -> option Z)
    (safeFormatCurrency : number -> string) (sort : list row -> list row)
    (salesData : list row) (index : nat) (client : row) (errs : list string) :
  skipRow client = Ok false ->
  validSales Date_parse (visitOf Date_parse client)
    (candidatesOf index client salesData) (errorsBefore Date_parse client)
    = Ok ([], errs) ->
  exists pc rss,
    processClient Date_parse safeFormatCurrency sort salesData index client
      = Ok (Some pc)
    /\ conversionStatus pc = not_converted
    /\ Forall2 (reasons_of Date_parse (visitOf Date_parse client))
         (candidatesOf index client salesData) rss
    /\ conversionDetails pc
       = match candidatesOf index client salesData with
         | [] => "No purchase records found for this client"
         | _ :: _ =>
             match concat rss with
             | [] => "Has purchases but none meet conversion criteria"
             | _ :: _ => "Not converted: " +:+ join ", " (concat rss)
             end
         end.
Proof.
  intros Hskip Hvalid.
  pose proof (validSales_textual Date_parse _ _ _ _ Hvalid) as Htext.
  destruct (notConvertedDetails_textual Date_parse (visitOf Date_parse client) _ Htext)
    as (rss & Hall & Hd).
  destruct (processClient_not_converted Date_parse safeFormatCurrency sort
              salesData index client errs _ Hskip Hvalid Hd)
    as (pc & Hrun & Hstatus & Hdetails & _).
  exists pc, rss. repeat split; assumption.
Qed.

(** The theorem at a client whose only purchase is retail. *)
Lemma not_converted_explanation_witness :
  skipRow client_e = Ok false
  /\ validSales iso_date_parse (visitOf iso_date_parse client_e)
       (candidatesOf 0 client_e [sale_retail]) (errorsBefore iso_date_parse client_e)
     = Ok ([], [])
  /\ exists pc rss,
    processClient iso_date_parse noFormat (sortByDate iso_date_parse)
      [sale_retail] 0 client_e = Ok (Some pc)
    /\ conversionStatus pc = not_converted
    /\ Forall2 (reasons_of iso_date_parse (visitOf iso_date_parse client_e))
         (candidatesOf 0 client_e [sale_retail]) rss
    /\ conversionDetails pc
       = match candidatesOf 0 client_e [sale_retail] with
         | [] => "No purchase records found for this client"
         | _ :: _ =>
             match concat rss with
             | [] => "Has purchases but none meet conversion criteria"
             | _ :: _ => "Not converted: " +:+ join ", " (concat rss)
             end
         end.
Proof.
  assert (H1 : skipRow client_e = Ok false) by reflexivity.
  assert (H2 : validSales iso_date_parse (visitOf iso_date_parse client_e)
                 (candidatesOf 0 client_e [sale_retail])
                 (errorsBefore iso_date_parse client_e) = Ok ([], []))
    by (vm_compute; reflexivity).
  split; [exact H1|]. split; [exact H2|].
  exact (not_converted_explanation iso_date_parse noFormat
           (sortByDate iso_date_parse) [sale_retail] 0%nat client_e [] H1 H2).
Defined.

(** C4, counterexample: two retail purchases fail the same check; the
    distinct reasons are one, and the explanation states it twice. *)
Lemma repeated_reason_not_merged :
  exists pc reasons,
    processedData iso_date_parse noFormat [client_e] [sale_retail; sale_retail_2]
      = Ok [pc]
    /\ conversionStatus pc = not_converted
    /\ collectReasons iso_date_parse (visitOf iso_date_parse client_e)
         (candidatesOf 0 client_e [sale_retail; sale_retail_2]) [] = Ok reasons
    /\ distinct reasons = ["Retail category excluded"]
    /\ conversionDetails pc
       = "Not converted: Retail category excluded, Retail category excluded"
    /\ conversionDetails pc <> "Not converted: " +:+ join ", " (distinct reasons).
Proof.
  eexists. eexists. split; [vm_compute; reflexivity|].
  split; [reflexivity|]. split; [vm_compute; reflexivity|].
  split; [reflexivity|]. split; [reflexivity|].
  vm_compute. discriminate.
Qed.

(** ** Negative sale values *)

Lemma count_negative_errors (sales : list row) :
  count_occ string_dec (negative_errors sales) "Negative sale value detected"
  = length (List.filter (fun s => lt0 (sale_value s)) sales).
Proof.
  unfold negative_errors. induction sales as [|s rest IH]; [reflexivity|].
  simpl. destruct (lt0 (sale_value s)); simpl; rewrite IH; reflexivity.
Qed.

Lemma count_errorsBefore (Date_parse : string -> option Z) (client : row) :
  count_occ string_dec (errorsBefore Date_parse client)
    "Negative sale value detected" = 0%nat.
Proof.
  unfold errorsBefore, initialErrors.
  destruct (truthy (client_email client)),
           (truthy (client_firstVisitDate client)),
           (truthy (client_firstName client)),
           (truthy (client_lastName client)),
           (date_valid (visitOf Date_parse client)); reflexivity.
Qed.

(** C5: every candidate purchase of value below 0 adds one [Negative sale
    value detected] entry to the client's validation errors, whether or not
    any purchase is valid, and the client is still classified on all the
    candidates: converted exactly when one of them is valid. *)
Theorem negative_value_flagged (Date_parse : string -> option Z)
    (safeFormatCurrency : number -> string) (salesData : list row)
    (index : nat) (client : row) :
  skipRow client = Ok false ->
  Forall (fun s => saleTextual s = true) (candidatesOf index client salesData) ->
  exists pc valid,
    processClient Date_parse safeFormatCurrency (sortByDate Date_parse)
      salesData index client = Ok (Some pc)
    /\ validSales Date_parse (visitOf Date_parse client)
         (candidatesOf index client salesData) (errorsBefore Date_parse client)
       = Ok (valid, validationErrors pc)
    /\ validationErrors pc
       = errorsBefore Date_parse client
         ++ negative_errors (candidatesOf index client salesData)
    /\ count_occ string_dec (validationErrors pc) "Negative sale value detected"
       = length (List.filter (fun s => lt0 (sale_value s))
                   (candidatesOf index client salesData))
    /\ (conversionStatus pc = converted <-> valid <> [])
    /\ (forall sale, In sale valid <->
          In sale (candidatesOf index client salesData)
          /\ exists visit, visitOf Date_parse client = Some visit
                           /\ qualifies Date_parse visit sale).
Proof.
  intros Hskip Htext.
  destruct (validSales_total Date_parse (visitOf Date_parse client) _ Htext
              (errorsBefore Date_parse client)) as (valid & errs & Hvalid).
  pose proof Hvalid as Hinv. apply validSales_inv in Hinv as (Herrs & _ & Hin).
  assert (Hpc : exists pc,
             processClient Date_parse safeFormatCurrency (sortByDate Date_parse)
               salesData index client = Ok (Some pc)
             /\ validationErrors pc = errs
             /\ (conversionStatus pc = converted <-> valid <> [])).
  { destruct valid as [|s0 valid'] eqn:Ev.
    - destruct (notConvertedDetails_textual Date_parse (visitOf Date_parse client) _ Htext)
        as (rss & _ & Hd).
      destruct (processClient_not_converted Date_parse safeFormatCurrency
                  (sortByDate Date_parse) salesData index client errs _
                  Hskip Hvalid Hd) as (pc & Hrun & Hst & _ & _ & _ & _ & _ & He).
      exists pc. split; [exact Hrun|]. split; [exact He|].
      rewrite Hst. split; [discriminate | congruence].
    - destruct (earliest (saleTime Date_parse) (s0 :: valid')) as [f|] eqn:Ef.
      2:{ apply earliest_None in Ef. discriminate. }
      destruct (processClient_converted Date_parse safeFormatCurrency
                  (sortByDate Date_parse) salesData index client _ errs f
                  Hskip Hvalid) as (pc & Hrun & Hst & _ & _ & _ & _ & He).
      { discriminate. }
      { rewrite head_sortByDate. exact Ef. }
      exists pc. split; [exact Hrun|]. split; [exact He|].
      rewrite Hst. split; [discriminate | reflexivity]. }
  destruct Hpc as (pc & Hrun & He & Hst).
  exists pc, valid. rewrite He.
  split; [exact Hrun|]. split; [exact Hvalid|]. split; [exact Herrs|].
  split; [|split; [exact Hst | exact Hin]].
  rewrite Herrs, count_occ_app, count_errorsBefore, count_negative_errors.
  reflexivity.
Qed.

(** Scenario D: a purchase of -50 is flagged and the client still
    converts on the other candidate. *)
Lemma negative_value_flagged_witness :
  skipRow client_e = Ok false
  /\ Forall (fun s => saleTextual s = true)
       (candidatesOf 0 client_e [sale_negative; sale_class])
  /\ exists pc valid,
    processClient iso_date_parse noFormat (sortByDate iso_date_parse)
      [sale_negative; sale_class] 0 client_e = Ok (Some pc)
    /\ validSales iso_date_parse (visitOf iso_date_parse client_e)
         (candidatesOf 0 client_e [sale_negative; sale_class])
         (errorsBefore iso_date_parse client_e)
       = Ok (valid, validationErrors pc)
    /\ validationErrors pc
       = errorsBefore iso_date_parse client_e
         ++ negative_errors (candidatesOf 0 client_e [sale_negative; sale_class])
    /\ count_occ string_dec (validationErrors pc) "Negative sale value detected"
       = length (List.filter (fun s => lt0 (sale_value s))
                   (candidatesOf 0 client_e [sale_negative; sale_class]))
    /\ (conversionStatus pc = converted <-> valid <> [])
    /\ (forall sale, In sale valid <->
          In sale (candidatesOf 0 client_e [sale_negative; sale_class])
          /\ exists visit, visitOf iso_date_parse client_e = Some visit
                           /\ qualifies iso_date_parse visit sale).
Proof.
  assert (H1 : skipRow client_e = Ok false) by reflexivity.
  assert (H2 : Forall (fun s => saleTextual s = true)
                 (candidatesOf 0 client_e [sale_negative; sale_class])).
  { vm_compute. repeat constructor. }
  split; [exact H1|]. split; [exact H2|].
  exact (negative_value_flagged iso_date_parse noFormat
           [sale_negative; sale_class] 0%nat client_e H1 H2).
Defined.

(** ** Unparseable first visit dates *)

Lemma validSales_no_visit (Date_parse : string -> option Z) (sales : list row)
    (errs : list string) (valid : list row) (errs' : list string) :
  validSales Date_parse None sales errs = Ok (valid, errs') -> valid = [].
Proof.
  intros H. apply validSales_inv in H as (_ & _ & Hin).
  destruct valid as [|s rest]; [reflexivity|].
  destruct (proj1 (Hin s) (or_introl eq_refl)) as (_ & visit & Hv & _).
  discriminate Hv.
Qed.

(** C6: a client whose first visit date is present but does not parse gets
    the error [Invalid first visit date format]; none of the candidate
    purchases is valid, the client is not converted, and the client's
    record stands in the output at the client's place, between the records
    of the rows before and those of the rows after. *)
Theorem unparseable_first_visit (Date_parse : string -> option Z)
    (safeFormatCurrency : number -> string)
    (before : list row) (client : row) (after : list row) (salesData : list row) :
  Forall (fun c => teacherTextual c = true) (before ++ client :: after) ->
  Forall (fun s => saleTextual s = true) salesData ->
  sentinelRow client = false ->
  truthy (client_firstVisitDate client) = true ->
  visitOf Date_parse client = None ->
  exists o1 pc o2,
    processedData Date_parse safeFormatCurrency (before ++ client :: after) salesData
      = Ok (o1 ++ pc :: o2)
    /\ processFrom Date_parse safeFormatCurrency (sortByDate Date_parse)
         salesData 0 before = Ok o1
    /\ processClient Date_parse safeFormatCurrency (sortByDate Date_parse)
         salesData (length before) client = Ok (Some pc)
    /\ processFrom Date_parse safeFormatCurrency (sortByDate Date_parse)
         salesData (S (length before)) after = Ok o2
    /\ In "Invalid first visit date format" (validationErrors pc)
    /\ validSales Date_parse (visitOf Date_parse client)
         (candidatesOf (length before) client salesData)
         (errorsBefore Date_parse client)
       = Ok ([], validationErrors pc)
    /\ conversionStatus pc = not_converted.
Proof.
  intros Hrows Hsales Hsent Htruthy Hvisit.
  apply Forall_app in Hrows as [Hbefore Hrest].
  inversion Hrest as [|? ? Hclient Hafter]; subst.
  destruct (processFrom_total Date_parse safeFormatCurrency salesData before
              Hbefore Hsales 0) as (o1 & Ho1).
  destruct (processFrom_total Date_parse safeFormatCurrency salesData after
              Hafter Hsales (S (length before))) as (o2 & Ho2).
  destruct (processClient_total Date_parse safeFormatCurrency salesData
              (length before) client Hclient Hsales) as (r & Hr & _ & Hsome).
  destruct (Hsome Hsent) as (pc & ->).
  pose proof (processClient_inv _ _ _ _ _ _ _ Hr) as (_ & valid & Hvalid & Hcases).
  assert (valid = []) as ->.
  { rewrite Hvisit in Hvalid. eapply validSales_no_visit. exact Hvalid. }
  destruct Hcases as [(_ & Hst & _) | (Hne & _)]; [|congruence].
  exists o1, pc, o2. repeat split; try assumption.
  - unfold processedData. rewrite processedDataWith_eq.
    apply processFrom_app; [exact Ho1|].
    simpl. rewrite Hr. simpl. rewrite Ho2. reflexivity.
  - apply validSales_inv in Hvalid as (-> & _).
    unfold errorsBefore, initialErrors. rewrite !in_app_iff.
    left. right. right. right. rewrite Htruthy, Hvisit. now left.
Qed.

(** The theorem at a client whose first visit reads [soon], listed after
    a client with a proper date. *)
Lemma unparseable_first_visit_witness :
  Forall (fun c => teacherTextual c = true) ([client_e] ++ client_bad_date :: [])
  /\ Forall (fun s => saleTextual s = true) [sale_class; sale_late]
  /\ sentinelRow client_bad_date = false
  /\ truthy (client_firstVisitDate client_bad_date) = true
  /\ visitOf iso_date_parse client_bad_date = None
  /\ exists o1 pc o2,
    processedData iso_date_parse noFormat ([client_e] ++ client_bad_date :: [])
      [sale_class; sale_late] = Ok (o1 ++ pc :: o2)
    /\ processFrom iso_date_parse noFormat (sortByDate iso_date_parse)
         [sale_class; sale_late] 0 [client_e] = Ok o1
    /\ processClient iso_date_parse noFormat (sortByDate iso_date_parse)
         [sale_class; sale_late] (length [client_e]) client_bad_date = Ok (Some pc)
    /\ processFrom iso_date_parse noFormat (sortByDate iso_date_parse)
         [sale_class; sale_late] (S (length [client_e])) [] = Ok o2
    /\ In "Invalid first visit date format" (validationErrors pc)
    /\ validSales iso_date_parse (visitOf iso_date_parse client_bad_date)
         (candidatesOf (length [client_e]) client_bad_date [sale_class; sale_late])
         (errorsBefore iso_date_parse client_bad_date)
       = Ok ([], validationErrors pc)
    /\ conversionStatus pc = not_converted.
Proof.
  assert (H1 : Forall (fun c => teacherTextual c = true)
                 ([client_e] ++ client_bad_date :: [])) by (repeat constructor).
  assert (H2 : Forall (fun s => saleTextual s = true) [sale_class; sale_late])
    by (repeat constructor).
  assert (H3 : sentinelRow client_bad_date = false) by reflexivity.
  assert (H4 : truthy (client_firstVisitDate client_bad_date) = true) by reflexivity.
  assert (H5 : visitOf iso_date_parse client_bad_date = None) by reflexivity.
  split; [exact H1|]. split; [exact H2|]. split; [exact H3|].
  split; [exact H4|]. split; [exact H5|].
  exact (unparseable_first_visit iso_date_parse noFormat [client_e] client_bad_date
           [] [sale_class; sale_late] H1 H2 H3 H4 H5).
Defined.


(** ** Sentinel rows *)

Section Population.

Variable Date_parse : string -> option Z.
Variable safeFormatCurrency : number -> string.

Local Abbreviation run := (processClient Date_parse safeFormatCurrency (sortByDate Date_parse)).



End Population.




(** ** Determinism *)

Lemma processClient_sort_irrelevant (Date_parse : string -> option Z)
    (safeFormatCurrency : number -> string) (sort1 sort2 : list row -> list row)
    (salesData : list row) (index : nat) (client : row) :
  conforming_sort (saleTime Date_parse) sort1 ->
  conforming_sort (saleTime Date_parse) sort2 ->
  processClient Date_parse safeFormatCurrency sort1 salesData index client
  = processClient Date_parse safeFormatCurrency sort2 salesData index client.
Proof.
  intros H1 H2. unfold processClient.
  destruct (skipRow client) as [[|]|]; simpl; try reflexivity.
  destruct (validSales _ _ _ _) as [[valid errs]|] eqn:Hvalid; simpl; try reflexivity.
  destruct valid as [|s0 valid']; [reflexivity|].
  pose proof (validSales_times _ _ _ _ _ _ Hvalid) as Htimes.
  pose proof (conforming_head Date_parse _ _ Htimes (H1 _ Htimes)) as E1.
  pose proof (conforming_head Date_parse _ _ Htimes (H2 _ Htimes)) as E2.
  rewrite <- E2 in E1.
  destruct (sort1 (s0 :: valid')) as [|f1 r1], (sort2 (s0 :: valid')) as [|f2 r2];
    simpl in E1; try discriminate; [reflexivity|].
  injection E1 as ->. reflexivity.
Qed.

Lemma sortTwice_conforming (Date_parse : string -> option Z) :
  conforming_sort (saleTime Date_parse) (sortTwice Date_parse).
Proof.
  intros l Hall. unfold sortTwice.
  destruct (sortByDate_conforming Date_parse l Hall) as (Hp1 & _ & Hf1).
  assert (Hall' : Forall (fun s => is_Some (saleTime Date_parse s))
                    (sortByDate Date_parse l)).
  { rewrite <- Hp1. exact Hall. }
  destruct (sortByDate_conforming Date_parse _ Hall') as (Hp2 & Hs2 & Hf2).
  split; [etransitivity; eassumption|]. split; [exact Hs2|].
  intros t. rewrite Hf2. apply Hf1.
Qed.

(** C8: two runs of the classification on the same input arrays, in the
    same order, give the same output: the same records, with the same
    explanations, purchase selections and validation errors (or the same
    error).  The runs may even differ in the sort the engine applies, as
    long as each is a stable sort, as the language requires. *)
Theorem classification_deterministic (Date_parse : string -> option Z)
    (safeFormatCurrency : number -> string) (sort1 sort2 : list row -> list row)
    (newClientData salesData : list row) :
  conforming_sort (saleTime Date_parse) sort1 ->
  conforming_sort (saleTime Date_parse) sort2 ->
  processedDataWith Date_parse safeFormatCurrency sort1 newClientData salesData
  = processedDataWith Date_parse safeFormatCurrency sort2 newClientData salesData.
Proof.
  intros H1 H2. rewrite !processedDataWith_eq.
  generalize 0%nat. induction newClientData as [|c rest IH]; intros index.
  - reflexivity.
  - simpl.
    rewrite (processClient_sort_irrelevant Date_parse safeFormatCurrency
               sort1 sort2 salesData index c H1 H2).
    rewrite (IH (S index)). reflexivity.
Qed.

(** Two runs that differ in the sort applied, both stable. *)
Lemma classification_deterministic_witness :
  conforming_sort (saleTime iso_date_parse) (sortByDate iso_date_parse)
  /\ conforming_sort (saleTime iso_date_parse) (sortTwice iso_date_parse)
  /\ processedDataWith iso_date_parse noFormat (sortByDate iso_date_parse)
       [client_e; client_bad_date] [sale_retail; sale_class; sale_late]
     = processedDataWith iso_date_parse noFormat (sortTwice iso_date_parse)
         [client_e; client_bad_date] [sale_retail; sale_class; sale_late].
Proof.
  split; [exact (sortByDate_conforming iso_date_parse)|].
  split; [exact (sortTwice_conforming iso_date_parse)|].
  exact (classification_deterministic iso_date_parse noFormat
           (sortByDate iso_date_parse) (sortTwice iso_date_parse)
           [client_e; client_bad_date] [sale_retail; sale_class; sale_late]
           (sortByDate_conforming iso_date_parse)
           (sortTwice_conforming iso_date_parse)).
Defined.

(** ** The shape of the records *)

Section Records.

Variable Date_parse : string -> option Z.
Variable safeFormatCurrency : number -> string.

Lemma earliest_In (l : list row) (x : row) :
  earliest (saleTime Date_parse) l = Some x -> In x l.
Proof.
  revert x. induction l as [|a rest IH]; intros x H; [discriminate|].
  simpl in H. destruct (earliest (saleTime Date_parse) rest) as [y|].
  - destruct (date_lt _ _); injection H as <-; [right; auto | now left].
  - injection H as <-. now left.
Qed.

Lemma record_shape (salesData : list row) (index : nat) (client : row)
    (pc : ProcessedClient) :
  processClient Date_parse safeFormatCurrency (sortByDate Date_parse)
    salesData index client = Ok (Some pc) ->
  (conversionStatus pc = converted /\ purchase_fields_set pc)
  \/ (conversionStatus pc = not_converted /\ purchase_fields_null pc).
Proof.
  intros H. apply processClient_inv in H as (_ & valid & Hvalid & Hcases).
  destruct Hcases as [(_ & Hst & Hd & Hp & Hv & Hdays & _)
                     | (_ & Hst & f & Hhead & Hd & Hp & Hv & Hdays)].
  - right. split; [exact Hst|]. repeat split; assumption.
  - left. split; [exact Hst|].
    rewrite head_sortByDate in Hhead. apply earliest_In in Hhead.
    apply validSales_inv in Hvalid as (_ & _ & Hin).
    apply Hin in Hhead as (_ & visit & Hvisit & _ & _ & _ & (t & Ht & _) & _).
    rewrite Ht, Hvisit in Hdays.
    unfold purchase_fields_set. rewrite Hd, Hp, Hv, Hdays.
    repeat split; eexists; reflexivity.
Qed.

Lemma processFrom_records (salesData : list row) (clients : list row) :
  forall index out,
  processFrom Date_parse safeFormatCurrency (sortByDate Date_parse)
    salesData index clients = Ok out ->
  Forall (fun pc => exists i c,
            processClient Date_parse safeFormatCurrency (sortByDate Date_parse)
              salesData i c = Ok (Some pc)) out.
Proof.
  induction clients as [|c rest IH]; intros index out H.
  - injection H as <-. constructor.
  - simpl in H. apply bind_inv in H as (r & Hr & H).
    apply bind_inv in H as (o & Ho & H). injection H as <-.
    apply IH in Ho. destruct r as [pc|]; [|exact Ho].
    constructor; [|exact Ho]. exists index, c. exact Hr.
Qed.

End Records.

Lemma Qplus_zero (x : Q) : (x + 0)%Q = x.
Proof.
  destruct x as [n d]. unfold Qplus. simpl.
  rewrite Z.mul_1_r, Z.add_0_r, Pos.mul_1_r. reflexivity.
Qed.

Lemma num_add_zero (x : number) : num_add x (Fin 0) = x.
Proof. destruct x as [| |q]; simpl; [reflexivity..|]. now rewrite Qplus_zero. Qed.

Lemma revenue_of_converted (l : list ProcessedClient) :
  Forall (fun pc => conversionStatus pc = not_converted ->
                    firstPurchaseValue pc = None) l ->
  forall acc,
    fold_left (fun sum c => num_add sum (num_or_zero (firstPurchaseValue c))) l acc
    = fold_left (fun sum c => num_add sum (num_or_zero (firstPurchaseValue c)))
        (List.filter is_converted l) acc.
Proof.
  induction 1 as [|pc rest Hpc _ IH]; intros acc; [reflexivity|].
  simpl. unfold is_converted at 1.
  destruct (conversionStatus pc) eqn:Hst; simpl.
  - apply IH.
  - rewrite (Hpc eq_refl). simpl. rewrite num_add_zero. apply IH.
Qed.

(** C10: in every record produced, the status is [converted] exactly when
    the first purchase date, product and value and the days to conversion
    are all set; in a record that is not converted all four are [null]; so
    the total revenue, summed over all records, is the sum over the
    converted ones. *)
Theorem purchase_fields_iff_converted (Date_parse : string -> option Z)
    (safeFormatCurrency : number -> string)
    (newClientData salesData : list row) (out : list ProcessedClient) :
  processedData Date_parse safeFormatCurrency newClientData salesData = Ok out ->
  Forall (fun pc =>
            (conversionStatus pc = converted <-> purchase_fields_set pc)
            /\ (conversionStatus pc = not_converted -> purchase_fields_null pc)) out
  /\ totalRevenue (summaryStats out)
     = totalRevenue (summaryStats (List.filter is_converted out)).
Proof.
  intros H. unfold processedData in H. rewrite processedDataWith_eq in H.
  apply processFrom_records in H.
  assert (Hshape : Forall (fun pc =>
            (conversionStatus pc = converted <-> purchase_fields_set pc)
            /\ (conversionStatus pc = not_converted -> purchase_fields_null pc)) out).
  { eapply List.Forall_impl; [|exact H]. intros pc (i & c & Hrun).
    apply record_shape in Hrun as [[Hst Hset] | [Hst Hnull]].
    - split; [tauto | congruence].
    - split; [|tauto]. split; [congruence|].
      intros (Hd & _). destruct Hnull as (Hn & _). rewrite Hn in Hd.
      destruct Hd as [? Hd]. discriminate Hd. }
  split; [exact Hshape|].
  unfold summaryStats. simpl. apply revenue_of_converted.
  eapply List.Forall_impl; [|exact Hshape].
  intros pc (_ & Hnull) Hst. apply Hnull in Hst. apply Hst.
Qed.

(** The invariant on the records of a converted and a not converted
    client. *)
Lemma purchase_fields_iff_converted_witness :
  exists out,
    processedData iso_date_parse noFormat [client_e; client_bad_date]
      [sale_class; sale_late] = Ok out
    /\ Forall (fun pc =>
            (conversionStatus pc = converted <-> purchase_fields_set pc)
            /\ (conversionStatus pc = not_converted -> purchase_fields_null pc)) out
    /\ totalRevenue (summaryStats out)
       = totalRevenue (summaryStats (List.filter is_converted out)).
Proof.
  eexists. split; [vm_compute; reflexivity|].
  refine (purchase_fields_iff_converted iso_date_parse noFormat
            [client_e; client_bad_date] [sale_class; sale_late] _ _).
  vm_compute. reflexivity.
Defined.

(** ** Rates *)

(** C7: the derived rates are 0, and not [NaN], when the denominator is 0:
    the conversion rate of the summary when there is no client, the average
    of the days to conversion when no client has any, and the retention
    and conversion rates of a location bucket with 0 new clients. *)
Theorem rates_zero_without_denominator :
  (forall data : list ProcessedClient,
     total (summaryStats data) = 0%nat ->
     conversionRate (summaryStats data) = Fin 0)
  /\ (forall data : list ProcessedClient,
        Forall (fun c => daysToConversion c = None) data ->
        avgDaysToConversion (summaryStats data) = Fin 0)
  /\ (forall (data : list SmartQuery.ProcessedTeacherData) (r : SmartQuery.LocationRow),
        In r (SmartQuery.locationRows data) ->
        SmartQuery.st_newClients (SmartQuery.row_stats r) = 0%Z ->
        SmartQuery.retentionRate r = Fin 0 /\ SmartQuery.conversionRate r = Fin 0).
Proof.
  split; [|split].
  - intros data H. unfold summaryStats in *. simpl in *. rewrite H. reflexivity.
  - intros data H. unfold summaryStats. simpl.
    assert (List.filter has_days data = []) as ->; [|reflexivity].
    induction H as [|c rest Hc _ IH]; [reflexivity|].
    simpl. unfold has_days at 1. rewrite Hc. exact IH.
  - intros data r Hin Hzero. unfold SmartQuery.locationRows in Hin.
    apply in_map_iff in Hin as ([loc st] & <- & _).
    simpl in *. unfold SmartQuery.rate. rewrite Hzero. split; reflexivity.
Qed.

(** Scenario F: no clients, and a bucket with 0 new clients. *)
Lemma rates_zero_without_denominator_witness :
  total (summaryStats []) = 0%nat
  /\ conversionRate (summaryStats []) = Fin 0
  /\ avgDaysToConversion (summaryStats []) = Fin 0
  /\ In (SmartQuery.locationRow ("Studio A", SmartQuery.addTo empty_bucket SmartQuery.emptyStats))
        (SmartQuery.locationRows [empty_bucket])
  /\ SmartQuery.retentionRate
       (SmartQuery.locationRow ("Studio A", SmartQuery.addTo empty_bucket SmartQuery.emptyStats))
     = Fin 0.
Proof.
  assert (H1 : total (summaryStats []) = 0%nat) by reflexivity.
  assert (H2 : In (SmartQuery.locationRow
                     ("Studio A", SmartQuery.addTo empty_bucket SmartQuery.emptyStats))
                  (SmartQuery.locationRows [empty_bucket])) by (left; reflexivity).
  split; [exact H1|].
  split; [exact (proj1 rates_zero_without_denominator [] H1)|].
  split; [exact (proj1 (proj2 rates_zero_without_denominator) [] (List.Forall_nil _))|].
  split; [exact H2|].
  exact (proj1 (proj2 (proj2 rates_zero_without_denominator) [empty_bucket] _ H2 eq_refl)).
Defined.

(** * Further properties of the classifier *)

Section Records_more.

Variable Date_parse : string -> option Z.
Variable safeFormatCurrency : number -> string.

(** A pushed record carries the fields read from its row. *)
Lemma processClient_fields (sort : list row -> list row) (salesData : list row)
    (index : nat) (client : row) (pc : ProcessedClient) :
  processClient Date_parse safeFormatCurrency sort salesData index client
    = Ok (Some pc) ->
  memberID pc = client_memberID index client
  /\ firstName pc = client_firstName client
  /\ lastName pc = client_lastName client
  /\ email pc = client_email client
  /\ firstVisitDate pc = client_firstVisitDate client
  /\ firstVisitLocation pc = client_firstVisitLocation client
  /\ membershipUsed pc = client_membershipUsed client
  /\ teacher pc = client_teacher client.
Proof.
  unfold processClient. intros H.
  apply bind_inv in H as (skip & _ & H). destruct skip; [discriminate|].
  apply bind_inv in H as ([valid errs] & _ & H).
  destruct valid as [|s0 valid'].
  - apply bind_inv in H as (details & _ & H). injection H as <-.
    repeat split; reflexivity.
  - destruct (sort (s0 :: valid')) as [|f rest]; [discriminate|].
    injection H as <-. repeat split; reflexivity.
Qed.

Lemma negative_errors_In (sales : list row) (e : string) :
  In e (negative_errors sales) -> e = "Negative sale value detected".
Proof.
  unfold negative_errors. rewrite in_flat_map. intros (s & _ & H).
  destruct (lt0 (sale_value s)); simpl in H; [|contradiction].
  destruct H as [<- | []]. reflexivity.
Qed.

Lemma pushed_errors (sort : list row -> list row) (salesData : list row)
    (index : nat) (client : row) (pc : ProcessedClient) :
  processClient Date_parse safeFormatCurrency sort salesData index client
    = Ok (Some pc) ->
  validationErrors pc
  = errorsBefore Date_parse client
    ++ negative_errors (candidatesOf index client salesData).
Proof.
  intros H. apply processClient_inv in H as (_ & valid & Hvalid & _).
  apply validSales_inv in Hvalid as (-> & _). reflexivity.
Qed.

End Records_more.

(** X1: the four checks on the required fields of a record.  A record
    carries [Missing email address] exactly when its email is empty,
    [Missing first visit date] exactly when its first visit date is empty,
    [Missing client name] exactly when both names are empty, and [Invalid
    first visit date format] exactly when the date is given and does not
    parse. *)
Theorem required_field_errors (Date_parse : string -> option Z)
    (safeFormatCurrency : number -> string) (sort : list row -> list row)
    (salesData : list row) (index : nat) (client : row) (pc : ProcessedClient) :
  processClient Date_parse safeFormatCurrency sort salesData index client
    = Ok (Some pc) ->
  (In "Missing email address" (validationErrors pc) <-> truthy (email pc) = false)
  /\ (In "Missing first visit date" (validationErrors pc)
      <-> truthy (firstVisitDate pc) = false)
  /\ (In "Missing client name" (validationErrors pc)
      <-> truthy (firstName pc) = false /\ truthy (lastName pc) = false)
  /\ (In "Invalid first visit date format" (validationErrors pc)
      <-> truthy (firstVisitDate pc) = true
          /\ newDate Date_parse (firstVisitDate pc) = None).
Proof.
  intros H.
  pose proof (processClient_fields _ _ _ _ _ _ _ H)
    as (_ & -> & -> & -> & -> & _).
  rewrite (pushed_errors _ _ _ _ _ _ _ H).
  fold (visitOf Date_parse client).
  assert (Hneg : forall e, e <> "Negative sale value detected" ->
            (In e (errorsBefore Date_parse client
                   ++ negative_errors (candidatesOf index client salesData))
             <-> In e (errorsBefore Date_parse client))).
  { intros e He. rewrite in_app_iff. split; [|tauto].
    intros [Hin | Hin]; [exact Hin|]. apply negative_errors_In in Hin. contradiction. }
  rewrite !Hneg by discriminate.
  unfold errorsBefore, initialErrors.
  destruct (visitOf Date_parse client) as [v|];
    destruct (truthy (client_email client)),
             (truthy (client_firstVisitDate client)),
             (truthy (client_firstName client)),
             (truthy (client_lastName client));
    simpl; repeat split; intros; try reflexivity; try tauto;
    repeat match goal with
           | Hor : _ \/ _ |- _ => destruct Hor
           | Hand : _ /\ _ |- _ => destruct Hand
           end; try discriminate; try contradiction; auto.
Qed.

(** A client without an email and with a date that does not parse. *)
Lemma required_field_errors_witness :
  exists pc,
    processClient iso_date_parse noFormat (sortByDate iso_date_parse)
      [sale_late] 0 client_bad_date = Ok (Some pc)
    /\ (In "Missing email address" (validationErrors pc) <-> truthy (email pc) = false)
    /\ (In "Missing first visit date" (validationErrors pc)
        <-> truthy (firstVisitDate pc) = false)
    /\ (In "Missing client name" (validationErrors pc)
        <-> truthy (firstName pc) = false /\ truthy (lastName pc) = false)
    /\ (In "Invalid first visit date format" (validationErrors pc)
        <-> truthy (firstVisitDate pc) = true
            /\ newDate iso_date_parse (firstVisitDate pc) = None).
Proof.
  eexists. split; [vm_compute; reflexivity|].
  refine (required_field_errors iso_date_parse noFormat (sortByDate iso_date_parse)
            [sale_late] 0%nat client_bad_date _ _).
  vm_compute. reflexivity.
Defined.

Lemma parseFloat_not_infinite (s : string) (negative : bool) :
  parseFloat s <> Inf negative.
Proof.
  unfold parseFloat. repeat case_match; discriminate.
Qed.

Lemma Qle_0_plus (a q : Q) : (0 <= a)%Q -> (0 <= q)%Q -> (0 <= a + q)%Q.
Proof.
  intros Ha Hq. replace 0%Q with (0 + 0)%Q by reflexivity.
  apply Qplus_le_compat; assumption.
Qed.

Section Converted_records.

Variable Date_parse : string -> option Z.
Variable safeFormatCurrency : number -> string.

(** What the record of a converted client holds. *)
Lemma converted_record (salesData : list row) (index : nat) (client : row)
    (pc : ProcessedClient) :
  processClient Date_parse safeFormatCurrency (sortByDate Date_parse)
    salesData index client = Ok (Some pc) ->
  conversionStatus pc = converted ->
  exists sale visit t q,
    In sale (candidatesOf index client salesData)
    /\ visitOf Date_parse client = Some visit
    /\ saleTime Date_parse sale = Some t /\ (visit <= t)%Z
    /\ firstPurchaseDate pc = Some (sale_Date sale)
    /\ firstPurchaseProduct pc = Some (sale_Item sale)
    /\ firstPurchaseValue pc = Some (Fin q) /\ (0 < Qnum q)%Z
    /\ daysToConversion pc = Some (ceil_days (t - visit)).
Proof.
  intros H Hst. apply processClient_inv in H as (_ & valid & Hvalid & Hcases).
  destruct Hcases as [(_ & Hnc & _) | (_ & _ & f & Hhead & Hd & Hp & Hv & Hdays)];
    [congruence|].
  rewrite head_sortByDate in Hhead. apply earliest_In in Hhead.
  apply validSales_inv in Hvalid as (_ & _ & Hin).
  apply Hin in Hhead as (Hcand & visit & Hvisit & Hgt & _ & _ & (t & Ht & Hle) & _).
  rewrite Ht, Hvisit in Hdays.
  destruct (sale_value f) as [|b|q] eqn:Hval; simpl in Hgt; try discriminate.
  - exfalso. unfold sale_value in Hval. eapply parseFloat_not_infinite. exact Hval.
  - apply Z.ltb_lt in Hgt. exists f, visit, t, q. repeat split; assumption.
Qed.

End Converted_records.

(** X2: every record that is marked converted holds a first purchase value
    that is a number above 0 (never [NaN], never [null]) and a number of
    days to conversion that is not negative. *)
Theorem converted_records_positive (Date_parse : string -> option Z)
    (safeFormatCurrency : number -> string)
    (newClientData salesData : list row) (out : list ProcessedClient) :
  processedData Date_parse safeFormatCurrency newClientData salesData = Ok out ->
  Forall (fun pc =>
            conversionStatus pc = converted ->
            exists v d,
              firstPurchaseValue pc = Some v /\ gt0 v = true
              /\ daysToConversion pc = Some d /\ (0 <= d)%Z) out.
Proof.
  intros H. unfold processedData in H. rewrite processedDataWith_eq in H.
  apply processFrom_records in H.
  eapply List.Forall_impl; [|exact H]. intros pc (i & c & Hrun) Hst.
  destruct (converted_record _ _ _ _ _ _ Hrun Hst)
    as (sale & visit & t & q & _ & _ & _ & Hle & _ & _ & Hv & Hq & Hd).
  exists (Fin q), (ceil_days (t - visit)). repeat split; try assumption.
  - simpl. apply Z.ltb_lt. exact Hq.
  - apply ceil_days_nonneg. lia.
Qed.

Lemma converted_records_positive_witness :
  exists out,
    processedData iso_date_parse noFormat [client_e; client_bad_date]
      [sale_negative; sale_class; sale_late] = Ok out
    /\ Forall (fun pc =>
            conversionStatus pc = converted ->
            exists v d,
              firstPurchaseValue pc = Some v /\ gt0 v = true
              /\ daysToConversion pc = Some d /\ (0 <= d)%Z) out.
Proof.
  eexists. split; [vm_compute; reflexivity|].
  refine (converted_records_positive iso_date_parse noFormat
            [client_e; client_bad_date] [sale_negative; sale_class; sale_late] _ _).
  vm_compute. reflexivity.
Defined.

(** X3: more purchase records never undo a conversion.  A client converted
    on an array of sales is converted on every array (of sales with textual
    labels) that contains those sales. *)
Theorem conversion_monotone_in_sales (Date_parse : string -> option Z)
    (safeFormatCurrency : number -> string)
    (salesData moreSales : list row) (index : nat) (client : row)
    (pc : ProcessedClient) :
  (forall sale, In sale salesData -> In sale moreSales) ->
  Forall (fun s => saleTextual s = true) moreSales ->
  processClient Date_parse safeFormatCurrency (sortByDate Date_parse)
    salesData index client = Ok (Some pc) ->
  conversionStatus pc = converted ->
  exists pc',
    processClient Date_parse safeFormatCurrency (sortByDate Date_parse)
      moreSales index client = Ok (Some pc')
    /\ conversionStatus pc' = converted.
Proof.
  intros Hsub Htext Hrun Hst.
  pose proof (processClient_inv _ _ _ _ _ _ _ Hrun) as (Hskip & valid & Hvalid & Hcases).
  destruct Hcases as [(_ & Hnc & _) | (Hne & _)]; [congruence|].
  destruct valid as [|s valid']; [congruence|].
  apply validSales_inv in Hvalid as (_ & _ & Hin).
  destruct (proj1 (Hin s) (or_introl eq_refl)) as (Hcand & Hq).
  assert (Hcand' : In s (candidatesOf index client moreSales)).
  { unfold candidatesOf, matchingSales in *. rewrite filter_In in *.
    destruct Hcand as [Hs Hm]. split; [apply Hsub; exact Hs | exact Hm]. }
  pose proof (candidates_textual index client moreSales Htext) as Hc.
  destruct (validSales_total Date_parse (visitOf Date_parse client) _ Hc
              (errorsBefore Date_parse client)) as (valid2 & errs2 & Hvalid2).
  pose proof Hvalid2 as Hin2. apply validSales_inv in Hin2 as (_ & _ & Hin2).
  assert (Hs2 : In s valid2) by (apply Hin2; split; assumption).
  destruct (earliest (saleTime Date_parse) valid2) as [f|] eqn:Ef.
  2:{ apply earliest_None in Ef. subst valid2. contradiction. }
  destruct (processClient_converted Date_parse safeFormatCurrency
              (sortByDate Date_parse) moreSales index client valid2 errs2 f
              Hskip Hvalid2) as (pc' & Hrun' & Hst' & _).
  { intros ->. contradiction. }
  { rewrite head_sortByDate. exact Ef. }
  exists pc'. split; assumption.
Qed.

Lemma conversion_monotone_in_sales_witness :
  (forall sale, In sale [sale_class] -> In sale [sale_retail; sale_class; sale_negative])
  /\ Forall (fun s => saleTextual s = true) [sale_retail; sale_class; sale_negative]
  /\ exists pc pc',
       processClient iso_date_parse noFormat (sortByDate iso_date_parse)
         [sale_class] 0 client_e = Ok (Some pc)
       /\ conversionStatus pc = converted
       /\ processClient iso_date_parse noFormat (sortByDate iso_date_parse)
            [sale_retail; sale_class; sale_negative] 0 client_e = Ok (Some pc')
       /\ conversionStatus pc' = converted.
Proof.
  assert (H1 : forall sale, In sale [sale_class] ->
                 In sale [sale_retail; sale_class; sale_negative]).
  { intros sale [<- | []]. right. now left. }
  assert (H2 : Forall (fun s => saleTextual s = true)
                 [sale_retail; sale_class; sale_negative]) by (repeat constructor).
  split; [exact H1|]. split; [exact H2|].
  eexists.
  assert (H3 : processClient iso_date_parse noFormat (sortByDate iso_date_parse)
                 [sale_class] 0 client_e = Ok (Some _)) by (vm_compute; reflexivity).
  destruct (conversion_monotone_in_sales iso_date_parse noFormat [sale_class]
              [sale_retail; sale_class; sale_negative] 0%nat client_e _ H1 H2 H3 eq_refl)
    as (pc' & Hrun' & Hst').
  exists pc'. split; [exact H3|]. split; [reflexivity|].
  split; [exact Hrun' | exact Hst'].
Defined.

(** ** The summary statistics *)

Lemma filter_length_perm {A : Type} (f : A -> bool) (l l' : list A) :
  Permutation l l' -> length (List.filter f l) = length (List.filter f l').
Proof.
  induction 1 as [|x l l' _ IH|x y l|l l' l'' _ IH1 _ IH2]; simpl.
  - reflexivity.
  - destruct (f x); simpl; congruence.
  - destruct (f x), (f y); reflexivity.
  - congruence.
Qed.

Lemma rate_of_counts (c t : nat) :
  (c <= t)%nat -> (0 < t)%nat ->
  exists q, times100 (num_div (Q_of_nat c) (Q_of_nat t)) = Fin q
            /\ (0 <= q)%Q /\ (q <= 100)%Q.
Proof.
  intros Hle Hpos. destruct t as [|n]; [lia|].
  unfold num_div, Q_of_nat. simpl Qnum. simpl Z.eqb.
  eexists. split; [reflexivity|].
  unfold Qdiv, Qinv, Qmult, Qle. simpl. split; lia.
Qed.

(** X4: the summary keeps its books.  Converted and not converted clients
    add up to the total, neither count nor the number of records with data
    quality issues exceeds the total, and the conversion rate is a finite
    number between 0 and 100. *)
Theorem summary_counts_consistent (data : list ProcessedClient) :
  (Z.of_nat (convertedCount (summaryStats data)) + notConverted (summaryStats data)
   = Z.of_nat (total (summaryStats data)))%Z
  /\ (0 <= notConverted (summaryStats data))%Z
  /\ (convertedCount (summaryStats data) <= total (summaryStats data))%nat
  /\ (dataQualityIssues (summaryStats data) <= total (summaryStats data))%nat
  /\ exists q, conversionRate (summaryStats data) = Fin q
               /\ (0 <= q)%Q /\ (q <= 100)%Q.
Proof.
  unfold summaryStats. simpl.
  pose proof (List.filter_length_le is_converted data) as Hc.
  pose proof (List.filter_length_le
                (fun c => (0 <? length (validationErrors c))%nat) data) as Hq.
  repeat split; try lia.
  destruct (Nat.ltb_spec 0 (length data)) as [Hpos|Hzero].
  - apply rate_of_counts; assumption.
  - exists 0%Q. repeat split; unfold Qle; simpl; lia.
Qed.

(** X5: the counts of the summary do not depend on the order of the
    records: total, converted, not converted, conversion rate and data
    quality issues are the same for every reordering of the array (the
    table sort reorders it in place). *)
Theorem summary_counts_order_independent (data data' : list ProcessedClient) :
  Permutation data data' ->
  total (summaryStats data) = total (summaryStats data')
  /\ convertedCount (summaryStats data) = convertedCount (summaryStats data')
  /\ notConverted (summaryStats data) = notConverted (summaryStats data')
  /\ conversionRate (summaryStats data) = conversionRate (summaryStats data')
  /\ dataQualityIssues (summaryStats data) = dataQualityIssues (summaryStats data').
Proof.
  intros Hp. unfold summaryStats. simpl.
  rewrite (Permutation_length Hp).
  rewrite (filter_length_perm is_converted _ _ Hp).
  rewrite (filter_length_perm (fun c => (0 <? length (validationErrors c))%nat) _ _ Hp).
  repeat split; reflexivity.
Qed.

(** Reversing the array leaves the counts as they are. *)
Lemma summary_counts_order_independent_witness :
  Permutation [record_same_day; record_plain] [record_plain; record_same_day]
  /\ total (summaryStats [record_same_day; record_plain])
     = total (summaryStats [record_plain; record_same_day])
  /\ conversionRate (summaryStats [record_same_day; record_plain])
     = conversionRate (summaryStats [record_plain; record_same_day]).
Proof.
  assert (H : Permutation [record_same_day; record_plain]
                [record_plain; record_same_day]) by apply perm_swap.
  destruct (summary_counts_order_independent _ _ H) as (H1 & _ & _ & H4 & _).
  split; [exact H|]. split; [exact H1 | exact H4].
Defined.

Section Revenue.

Variable Date_parse : string -> option Z.
Variable safeFormatCurrency : number -> string.

Lemma record_value (salesData : list row) (index : nat) (client : row)
    (pc : ProcessedClient) :
  processClient Date_parse safeFormatCurrency (sortByDate Date_parse)
    salesData index client = Ok (Some pc) ->
  firstPurchaseValue pc = None
  \/ exists q, firstPurchaseValue pc = Some (Fin q) /\ (0 < Qnum q)%Z.
Proof.
  intros H. destruct (conversionStatus pc) eqn:Hst.
  - destruct (converted_record _ _ _ _ _ _ H Hst)
      as (_ & _ & _ & q & _ & _ & _ & _ & _ & _ & Hv & Hq & _).
    right. exists q. split; assumption.
  - apply record_shape in H as [[Hc _] | [_ (_ & _ & Hv & _)]]; [congruence|].
    left. exact Hv.
Qed.

Lemma record_days (salesData : list row) (index : nat) (client : row)
    (pc : ProcessedClient) :
  processClient Date_parse safeFormatCurrency (sortByDate Date_parse)
    salesData index client = Ok (Some pc) ->
  (0 <= days_or_zero pc)%Z.
Proof.
  intros H. unfold days_or_zero. destruct (conversionStatus pc) eqn:Hst.
  - destruct (converted_record _ _ _ _ _ _ H Hst)
      as (_ & visit & t & _ & _ & _ & _ & Hle & _ & _ & _ & _ & ->).
    apply ceil_days_nonneg. lia.
  - apply record_shape in H as [[Hc _] | [_ (_ & _ & _ & ->)]]; [congruence|].
    reflexivity.
Qed.

End Revenue.

Lemma revenue_sum_finite (l : list ProcessedClient) :
  Forall (fun pc => firstPurchaseValue pc = None
                    \/ exists q, firstPurchaseValue pc = Some (Fin q)
                                 /\ (0 < Qnum q)%Z) l ->
  forall a, (0 <= a)%Q ->
  exists a',
    fold_left (fun sum c => num_add sum (num_or_zero (firstPurchaseValue c)))
      l (Fin a) = Fin a'
    /\ (0 <= a')%Q.
Proof.
  induction 1 as [|pc rest Hpc _ IH]; intros a Ha.
  - exists a. split; [reflexivity | exact Ha].
  - simpl. destruct Hpc as [-> | (q & -> & Hq)]; simpl.
    + apply IH. apply Qle_0_plus; [exact Ha|]. unfold Qle. simpl. lia.
    + destruct (Z.eqb_spec (Qnum q) 0) as [E|_]; [lia|]. simpl.
      apply IH. apply Qle_0_plus; [exact Ha|]. unfold Qle. simpl. lia.
Qed.

(** X7: the total revenue of the summary, computed on the records the
    classifier produced, is never [NaN] and never negative, whatever the
    sale values in the input look like. *)
Theorem total_revenue_never_nan (Date_parse : string -> option Z)
    (safeFormatCurrency : number -> string)
    (newClientData salesData : list row) (out : list ProcessedClient) :
  processedData Date_parse safeFormatCurrency newClientData salesData = Ok out ->
  totalRevenue (summaryStats out) <> NaN
  /\ lt0 (totalRevenue (summaryStats out)) = false.
Proof.
  intros H. unfold processedData in H. rewrite processedDataWith_eq in H.
  apply processFrom_records in H.
  assert (Hsum : exists q, totalRevenue (summaryStats out) = Fin q /\ (0 <= q)%Q).
  { unfold summaryStats. simpl. apply revenue_sum_finite.
    - eapply List.Forall_impl; [|exact H]. intros pc (i & c & Hrun).
      eapply record_value. exact Hrun.
    - unfold Qle. simpl. lia. }
  destruct Hsum as (q & -> & Hq). split; [discriminate|].
  simpl. apply Z.ltb_ge. unfold Qle in Hq. simpl in Hq. lia.
Qed.

Lemma total_revenue_never_nan_witness :
  exists out,
    processedData iso_date_parse noFormat [client_e; client_bad_date]
      [sale_negative; sale_class; sale_late] = Ok out
    /\ totalRevenue (summaryStats out) <> NaN
    /\ lt0 (totalRevenue (summaryStats out)) = false.
Proof.
  eexists. split; [vm_compute; reflexivity|].
  refine (total_revenue_never_nan iso_date_parse noFormat
            [client_e; client_bad_date] [sale_negative; sale_class; sale_late] _ _).
  vm_compute. reflexivity.
Defined.

Lemma share_nonneg (d : Z) (n : nat) :
  (0 <= d)%Z -> (0 <= (d # 1) / Q_of_nat (S n))%Q.
Proof.
  intros Hd. unfold Qdiv. apply Qmult_le_0_compat.
  - unfold Qle. simpl. lia.
  - apply Qinv_le_0_compat. unfold Q_of_nat, Qle. simpl. lia.
Qed.

Lemma share_pos (d : Z) (n : nat) :
  (0 < d)%Z -> (0 < (d # 1) / Q_of_nat (S n))%Q.
Proof.
  intros Hd. unfold Qdiv. apply Qmult_lt_0_compat.
  - unfold Qlt. simpl. lia.
  - apply Qinv_lt_0_compat. unfold Q_of_nat, Qlt. simpl. lia.
Qed.

Lemma average_sum_sign (n : nat) (l : list ProcessedClient) :
  Forall (fun c => (0 <= days_or_zero c)%Z) l ->
  forall a : Q,
  exists a' : Q,
    fold_left
      (fun sum c => num_add sum (num_div (days_or_zero c # 1) (Q_of_nat (S n))))
      l (Fin a) = Fin a'
    /\ (a <= a')%Q
    /\ (Exists (fun c => (0 < days_or_zero c)%Z) l -> (a < a')%Q).
Proof.
  induction 1 as [|c rest Hc _ IH]; intros a.
  - exists a. split; [reflexivity|]. split; [apply Qle_refl|].
    intros Hex. inversion Hex.
  - cbn [fold_left].
    assert (Hd : num_div (days_or_zero c # 1) (Q_of_nat (S n))
                 = Fin ((days_or_zero c # 1) / Q_of_nat (S n))) by reflexivity.
    rewrite Hd. cbn [num_add].
    destruct (IH (a + (days_or_zero c # 1) / Q_of_nat (S n))%Q)
      as (a' & Hrun & Hle & Hlt).
    pose proof (share_nonneg (days_or_zero c) n Hc) as Hs.
    assert (Hstep : (a <= a + (days_or_zero c # 1) / Q_of_nat (S n))%Q).
    { rewrite <- (Qplus_0_r a) at 1. apply Qplus_le_compat; [apply Qle_refl | exact Hs]. }
    exists a'. split; [exact Hrun|]. split.
    + eapply Qle_trans; eassumption.
    + intros Hex. inversion Hex as [? ? Hpos | ? ? Hrest]; subst.
      * eapply Qlt_le_trans; [|exact Hle].
        rewrite <- (Qplus_0_r a) at 1. apply Qplus_lt_r.
        apply share_pos. exact Hpos.
      * eapply Qle_lt_trans; [exact Hstep | apply Hlt; exact Hrest].
Qed.

(** X6: the average of the days to conversion, computed on the records the
    classifier produced, is never [NaN] and never negative; it is 0 when no
    record has a number of days, and positive as soon as one record has a
    positive number of days. *)
Theorem average_days_never_nan (Date_parse : string -> option Z)
    (safeFormatCurrency : number -> string)
    (newClientData salesData : list row) (out : list ProcessedClient) :
  processedData Date_parse safeFormatCurrency newClientData salesData = Ok out ->
  avgDaysToConversion (summaryStats out) <> NaN
  /\ lt0 (avgDaysToConversion (summaryStats out)) = false
  /\ (Forall (fun pc => daysToConversion pc = None) out ->
      avgDaysToConversion (summaryStats out) = Fin 0)
  /\ (forall pc d, In pc out -> daysToConversion pc = Some d -> (0 < d)%Z ->
      gt0 (avgDaysToConversion (summaryStats out)) = true).
Proof.
  intros H. unfold processedData in H. rewrite processedDataWith_eq in H.
  apply processFrom_records in H.
  assert (Hdays : Forall (fun c => (0 <= days_or_zero c)%Z) (List.filter has_days out)).
  { apply List.Forall_forall. intros c Hc. apply filter_In in Hc as [Hc _].
    rewrite List.Forall_forall in H. destruct (H c Hc) as (i & cl & Hrun).
    eapply record_days. exact Hrun. }
  unfold summaryStats. cbn [avgDaysToConversion].
  destruct (List.filter has_days out) as [|c rest] eqn:Earr.
  - cbn [fold_left]. repeat split; try reflexivity; try discriminate.
    intros pc d Hin Hd _.
    assert (Hc : In pc (List.filter has_days out)).
    { apply filter_In. split; [exact Hin|]. unfold has_days. now rewrite Hd. }
    rewrite Earr in Hc. contradiction.
  - destruct (average_sum_sign (length rest) (c :: rest) Hdays 0)
      as (q & Hrun & Hle & Hlt).
    change (length (c :: rest)) with (S (length rest)). rewrite Hrun.
    split; [discriminate|]. split.
    { simpl. apply Z.ltb_ge. unfold Qle in Hle. simpl in Hle. lia. }
    split.
    + intros Hnone.
      assert (Hc : In c (List.filter has_days out)) by (rewrite Earr; now left).
      apply filter_In in Hc as [Hc Hhas].
      rewrite List.Forall_forall in Hnone. unfold has_days in Hhas.
      rewrite (Hnone c Hc) in Hhas. discriminate.
    + intros pc d Hin Hd Hpos.
      assert (Hc : In pc (c :: rest)).
      { rewrite <- Earr. apply filter_In. split; [exact Hin|].
        unfold has_days. now rewrite Hd. }
      assert (Hex : Exists (fun c => (0 < days_or_zero c)%Z) (c :: rest)).
      { apply List.Exists_exists. exists pc. split; [exact Hc|].
        unfold days_or_zero. now rewrite Hd. }
      apply Hlt in Hex. simpl. apply Z.ltb_lt.
      unfold Qlt in Hex. simpl in Hex. lia.
Qed.

(** A client converted after 4 days and one who did not convert: the
    average is a positive number. *)
Lemma average_days_never_nan_witness :
  exists out,
    processedData iso_date_parse noFormat [client_e; client_bad_date]
      [sale_negative; sale_class; sale_late] = Ok out
    /\ avgDaysToConversion (summaryStats out) = Fin 4
    /\ avgDaysToConversion (summaryStats out) <> NaN
    /\ lt0 (avgDaysToConversion (summaryStats out)) = false.
Proof.
  eexists. split; [vm_compute; reflexivity|]. split; [vm_compute; reflexivity|].
  refine (let H := average_days_never_nan iso_date_parse noFormat
                     [client_e; client_bad_date]
                     [sale_negative; sale_class; sale_late] _ _ in
          conj (proj1 H) (proj1 (proj2 H))).
  vm_compute. reflexivity.
Defined.

(** ** The table: filters and sort *)

Lemma insert_by_perm {A : Type} (cmp : A -> A -> option Z) (x : A) (l : list A) :
  Permutation (x :: l) (insert_by cmp x l).
Proof.
  induction l as [|y l' IH]; simpl; [reflexivity|].
  destruct (positive_result (cmp x y)); [|reflexivity].
  rewrite perm_swap. apply perm_skip. exact IH.
Qed.

Lemma sort_by_perm {A : Type} (cmp : A -> A -> option Z) (l : list A) :
  Permutation l (sort_by cmp l).
Proof.
  induction l as [|x rest IH]; simpl; [reflexivity|].
  rewrite <- insert_by_perm. apply perm_skip. exact IH.
Qed.

Lemma insert_by_sorted {A : Type} (cmp : A -> A -> option Z) (le : A -> A -> Prop)
    (x : A) (l : list A) :
  (forall y, In y l -> positive_result (cmp x y) = false -> le x y) ->
  (forall y, In y l -> positive_result (cmp x y) = true -> le y x) ->
  (forall y z, In y l -> In z l -> le x y -> le y z -> le x z) ->
  StronglySorted le l ->
  StronglySorted le (insert_by cmp x l).
Proof.
  intros Hle Hgt Htrans Hs. induction Hs as [|y l' Hs IH Hy]; simpl.
  - repeat constructor.
  - destruct (positive_result (cmp x y)) eqn:E.
    + constructor.
      * apply IH.
        -- intros z Hz. apply Hle. now right.
        -- intros z Hz. apply Hgt. now right.
        -- intros z w Hz Hw. apply Htrans; now right.
      * rewrite <- insert_by_perm. constructor; [|exact Hy].
        apply Hgt; [now left | exact E].
    + assert (Hxy : le x y) by (apply Hle; [now left | exact E]).
      constructor; [constructor; assumption|].
      constructor; [exact Hxy|].
      rewrite List.Forall_forall in Hy |- *. intros z Hz.
      apply (Htrans y z); simpl; auto.
Qed.

Lemma sort_by_sorted {A : Type} (cmp : A -> A -> option Z) (le : A -> A -> Prop)
    (l : list A) :
  (forall x y, In x l -> In y l -> positive_result (cmp x y) = false -> le x y) ->
  (forall x y, In x l -> In y l -> positive_result (cmp x y) = true -> le y x) ->
  (forall x y z, In x l -> In y l -> In z l -> le x y -> le y z -> le x z) ->
  StronglySorted le (sort_by cmp l).
Proof.
  induction l as [|x rest IH]; intros Hle Hgt Htrans; simpl; [constructor|].
  assert (Hin : forall y, In y (sort_by cmp rest) -> In y rest).
  { intros y Hy. eapply Permutation_in; [symmetry; apply sort_by_perm | exact Hy]. }
  apply insert_by_sorted.
  - intros y Hy. apply Hle; simpl; auto.
  - intros y Hy. apply Hgt; simpl; auto.
  - intros y z Hy Hz. apply Htrans; simpl; auto.
  - apply IH.
    + intros y z Hy Hz. apply Hle; now right.
    + intros y z Hy Hz. apply Hgt; now right.
    + intros y z w Hy Hz Hw. apply Htrans; now right.
Qed.

Lemma filterR_inv {A : Type} (f : A -> result bool) (l : list A) :
  forall out, filterR f l = Ok out ->
  sublist out l /\ forall x, In x out <-> In x l /\ f x = Ok true.
Proof.
  induction l as [|a rest IH]; intros out H.
  - injection H as <-. split; [constructor|]. simpl. tauto.
  - simpl in H. apply bind_inv in H as (keep & Hk & H).
    apply bind_inv in H as (kept & Hrest & H). injection H as <-.
    destruct (IH kept Hrest) as (Hsub & Hin). destruct keep.
    + split; [apply sublist_skip; exact Hsub|]. intros x. simpl. rewrite Hin.
      split; [intros [<- | [? ?]]; auto | intros [[<- | ?] ?]; auto].
    + split; [apply sublist_cons; exact Hsub|]. intros x. rewrite Hin. simpl.
      split; [tauto|]. intros [[<- | ?] Hx]; [congruence | tauto].
Qed.



Section Table_order.

Variable Date_parse : string -> option Z.
Variable col : column.
Variable dir : direction.
Hypothesis date_column : col = colFirstVisitDate \/ col = colFirstPurchaseDate.

Lemma date_column_includes : includes (column_name col) "Date" = true.
Proof. destruct date_column as [-> | ->]; reflexivity. Qed.

Lemma compare_not_after (a b : ProcessedClient) :
  dates_parse Date_parse col a -> dates_parse Date_parse col b ->
  positive_result (compareClients Date_parse col dir a b) = false ->
  shown_before Date_parse col dir a b.
Proof.
  unfold dates_parse, compareClients, shown_before. intros Ha Hb.
  rewrite date_column_includes.
  destruct (column_value col a) as [x|], (column_value col b) as [y|];
    try (destruct dir; simpl; intros; (reflexivity || discriminate || exact I)).
  destruct (Ha x eq_refl) as [ta ->], (Hb y eq_refl) as [tb ->].
  destruct dir; simpl; intros H; apply Z.ltb_ge in H; lia.
Qed.

Lemma compare_after (a b : ProcessedClient) :
  dates_parse Date_parse col a -> dates_parse Date_parse col b ->
  positive_result (compareClients Date_parse col dir a b) = true ->
  shown_before Date_parse col dir b a.
Proof.
  unfold dates_parse, compareClients, shown_before. intros Ha Hb.
  rewrite date_column_includes.
  destruct (column_value col a) as [x|], (column_value col b) as [y|];
    try (destruct dir; simpl; intros; (reflexivity || discriminate || exact I)).
  destruct (Ha x eq_refl) as [ta ->], (Hb y eq_refl) as [tb ->].
  destruct dir; simpl; intros H; apply Z.ltb_lt in H; lia.
Qed.

Lemma shown_before_trans (a b c : ProcessedClient) :
  shown_before Date_parse col dir a b -> shown_before Date_parse col dir b c ->
  shown_before Date_parse col dir a c.
Proof.
  unfold shown_before.
  destruct (column_value col a) as [x|], (column_value col b) as [y|],
           (column_value col c) as [z|]; try tauto; try congruence.
  destruct (newDate Date_parse x), (newDate Date_parse y), (newDate Date_parse z);
    try tauto.
  destruct dir; lia.
Qed.

End Table_order.

(** X9: under a date column whose dates all parse, the table is in order.
    Sorted by first purchase date (or first visit date) in ascending
    order, the records without a date, those of the clients who did not
    convert, come first and the others follow from the earliest date to the
    latest; in descending order the dates run from the latest to the
    earliest and the records without a date come last. *)
Theorem table_sorted_by_date (Date_parse : string -> option Z)
    (searchTerm statusFilter : string) (col : column) (dir : direction)
    (processedData shown after : list ProcessedClient) :
  col = colFirstVisitDate \/ col = colFirstPurchaseDate ->
  Forall (dates_parse Date_parse col) processedData ->
  filteredAndSortedData Date_parse searchTerm statusFilter col dir processedData
    = Ok (shown, after) ->
  StronglySorted (shown_before Date_parse col dir) shown.
Proof.
  intros Hcol Hall H. unfold filteredAndSortedData in H.
  apply bind_inv in H as (searched & Hsearch & H). injection H as <- _.
  match goal with
  | |- StronglySorted _ (sort_by _ ?l) => set (filtered := l)
  end.
  assert (Hin : forall c, In c filtered -> dates_parse Date_parse col c).
  { intros c Hc. rewrite List.Forall_forall in Hall. apply Hall.
    assert (Hs : In c searched).
    { subst filtered. destruct (String.eqb statusFilter "all"); [exact Hc|].
      apply filter_In in Hc. tauto. }
    destruct (String.eqb searchTerm ""); [injection Hsearch as <-; exact Hs|].
    apply filterR_inv in Hsearch as (_ & Hiff). apply Hiff in Hs. tauto. }
  apply sort_by_sorted.
  - intros x y Hx Hy. apply (compare_not_after Date_parse col dir Hcol); auto.
  - intros x y Hx Hy. apply (compare_after Date_parse col dir Hcol); auto.
  - intros x y z _ _ _. apply (shown_before_trans Date_parse col dir Hcol).
Qed.

(** Sorted by first purchase date, ascending: the client without a
    purchase, then the purchase of 2 January, then that of 5 January. *)
Lemma table_sorted_by_date_witness :
  (colFirstPurchaseDate = colFirstVisitDate \/ colFirstPurchaseDate = colFirstPurchaseDate)
  /\ Forall (dates_parse iso_date_parse colFirstPurchaseDate)
       [record_four_days; record_same_day; record_plain]
  /\ filteredAndSortedData iso_date_parse "" "all" colFirstPurchaseDate asc
       [record_four_days; record_same_day; record_plain]
     = Ok ([record_plain; record_same_day; record_four_days],
           [record_plain; record_same_day; record_four_days])
  /\ StronglySorted (shown_before iso_date_parse colFirstPurchaseDate asc)
       [record_plain; record_same_day; record_four_days].
Proof.
  assert (H1 : colFirstPurchaseDate = colFirstVisitDate
               \/ colFirstPurchaseDate = colFirstPurchaseDate) by (right; reflexivity).
  assert (H2 : Forall (dates_parse iso_date_parse colFirstPurchaseDate)
                 [record_four_days; record_same_day; record_plain]).
  { repeat constructor; intros x [= <-]; vm_compute; eauto. }
  assert (H3 : filteredAndSortedData iso_date_parse "" "all" colFirstPurchaseDate asc
                 [record_four_days; record_same_day; record_plain]
               = Ok ([record_plain; record_same_day; record_four_days],
                     [record_plain; record_same_day; record_four_days]))
    by (vm_compute; reflexivity).
  split; [exact H1|]. split; [exact H2|]. split; [exact H3|].
  exact (table_sorted_by_date iso_date_parse "" "all" colFirstPurchaseDate asc
           _ _ _ H1 H2 H3).
Defined.

(** ** The location rollup *)

Section Rollup.

Import SmartQuery SmartQueryMore.

Lemma locationStats_snoc (data : list ProcessedTeacherData) (item : ProcessedTeacherData) :
  locationStats (data ++ [item])
  = update (location item) (addTo item) (locationStats data).
Proof. unfold locationStats. rewrite fold_left_app. reflexivity. Qed.

Lemma bucket_update (loc key : string) (f : LocationStats -> LocationStats)
    (acc : list (string * LocationStats)) :
  bucket loc (update key f acc)
  = if String.eqb key loc
    then Some (f (default emptyStats (bucket key acc)))
    else bucket loc acc.
Proof.
  induction acc as [|[k st] rest IH]; simpl.
  - destruct (String.eqb key loc); reflexivity.
  - destruct (String.eqb_spec k key) as [->|Hk]; simpl.
    + destruct (String.eqb key loc); reflexivity.
    + rewrite IH. destruct (String.eqb_spec k loc) as [->|Hl].
      * destruct (String.eqb_spec key loc) as [->|_]; [congruence | reflexivity].
      * reflexivity.
Qed.

Lemma keys_update (key : string) (f : LocationStats -> LocationStats)
    (acc : list (string * LocationStats)) :
  map fst (update key f acc)
  = map fst acc ++ (match bucket key acc with Some _ => [] | None => [key] end).
Proof.
  induction acc as [|[k st] rest IH]; simpl; [reflexivity|].
  destruct (String.eqb_spec k key) as [->|Hk]; simpl.
  - now rewrite app_nil_r.
  - rewrite IH. reflexivity.
Qed.

Lemma bucket_In (loc : string) (acc : list (string * LocationStats)) :
  is_Some (bucket loc acc) <-> In loc (map fst acc).
Proof.
  induction acc as [|[k st] rest IH]; simpl.
  - split; [intros [? ?]; discriminate | tauto].
  - destruct (String.eqb_spec k loc) as [->|Hk].
    + split; [now left | eauto].
    + rewrite IH. split; [now right | intros [? | ?]; [contradiction | assumption]].
Qed.

Lemma distinct_snoc (l : list string) (a : string) :
  distinct (l ++ [a])
  = distinct l ++ (if existsb (String.eqb a) l then [] else [a]).
Proof.
  induction l as [|x rest IH]; simpl; [reflexivity|].
  rewrite IH, List.filter_app. f_equal. f_equal.
  rewrite (String.eqb_sym a x).
  destruct (String.eqb x a) eqn:E; simpl.
  - destruct (existsb (String.eqb a) rest); simpl; [reflexivity|].
    rewrite E. reflexivity.
  - destruct (existsb (String.eqb a) rest); simpl; [reflexivity|].
    rewrite E. reflexivity.
Qed.

Lemma distinct_In (l : list string) (a : string) : In a (distinct l) <-> In a l.
Proof.
  induction l as [|x rest IH]; [simpl; tauto|].
  cbn [distinct In].
  rewrite filter_In, IH, negb_true_iff, String.eqb_neq.
  destruct (String.eqb_spec x a); tauto.
Qed.

Lemma distinct_NoDup (l : list string) : List.NoDup (distinct l).
Proof.
  induction l as [|x rest IH]; cbn [distinct]; constructor.
  - rewrite filter_In, negb_true_iff, String.eqb_neq. tauto.
  - apply List.NoDup_filter. exact IH.
Qed.

Lemma existsb_eqb_In (a : string) (l : list string) :
  existsb (String.eqb a) l = true <-> In a l.
Proof.
  rewrite existsb_exists. split.
  - intros (x & Hx & E). apply String.eqb_eq in E. now subst.
  - intros H. exists a. split; [exact H | apply String.eqb_refl].
Qed.

(** The buckets come in the order in which their locations first appear. *)
Lemma locationStats_keys (data : list ProcessedTeacherData) :
  map fst (locationStats data) = distinct (map location data).
Proof.
  induction data as [|item data IH] using rev_ind; [reflexivity|].
  rewrite locationStats_snoc, keys_update, List.map_app. cbn [map].
  rewrite distinct_snoc, IH. f_equal.
  destruct (bucket (location item) (locationStats data)) as [st|] eqn:Hb.
  - assert (Hin : In (location item) (map location data)).
    { apply distinct_In. rewrite <- IH. apply bucket_In. rewrite Hb. eauto. }
    apply existsb_eqb_In in Hin. rewrite Hin. reflexivity.
  - destruct (existsb (String.eqb (location item)) (map location data)) eqn:E;
      [|reflexivity].
    apply existsb_eqb_In in E. apply distinct_In in E. rewrite <- IH in E.
    apply bucket_In in E. rewrite Hb in E. destruct E as [? E]. discriminate E.
Qed.

Lemma at_location_snoc (loc : string) (data : list ProcessedTeacherData)
    (item : ProcessedTeacherData) :
  at_location loc (data ++ [item])
  = at_location loc data ++ (if String.eqb (location item) loc then [item] else []).
Proof. unfold at_location. rewrite List.filter_app. reflexivity. Qed.

(** The bucket of a location holds the sums over that location's items. *)
Lemma locationStats_bucket (data : list ProcessedTeacherData) (loc : string) :
  bucket loc (locationStats data)
  = match at_location loc data with
    | [] => None
    | items => Some (totals_of items)
    end.
Proof.
  induction data as [|item data IH] using rev_ind; [reflexivity|].
  rewrite locationStats_snoc, bucket_update, at_location_snoc.
  destruct (String.eqb_spec (location item) loc) as [->|Hne].
  - rewrite IH. unfold totals_of.
    destruct (at_location _ data) as [|i0 rest]; simpl; [reflexivity|].
    rewrite fold_left_app. reflexivity.
  - rewrite app_nil_r. exact IH.
Qed.

Lemma In_bucket (loc : string) (st : LocationStats)
    (acc : list (string * LocationStats)) :
  List.NoDup (map fst acc) -> In (loc, st) acc -> bucket loc acc = Some st.
Proof.
  induction acc as [|[k s] rest IH]; simpl; [tauto|].
  intros Hnd [[= -> ->] | Hin].
  - now rewrite String.eqb_refl.
  - inversion Hnd as [|? ? Hk Hrest]; subst.
    destruct (String.eqb_spec k loc) as [->|_].
    + exfalso. apply Hk. apply (in_map fst) in Hin. exact Hin.
    + apply IH; assumption.
Qed.

Lemma totals_newClients (items : list ProcessedTeacherData) :
  forall st,
    st_newClients (fold_left (fun st item => addTo item st) items st)
    = fold_left (fun acc x => (acc + newClients x)%Z) items (st_newClients st)
    /\ st_retainedClients (fold_left (fun st item => addTo item st) items st)
       = fold_left (fun acc x => (acc + retainedClients x)%Z) items (st_retainedClients st)
    /\ st_convertedClients (fold_left (fun st item => addTo item st) items st)
       = fold_left (fun acc x => (acc + convertedClients x)%Z) items (st_convertedClients st)
    /\ st_revenue (fold_left (fun st item => addTo item st) items st)
       = fold_left (fun acc x => (acc + totalRevenue x)%Q) items (st_revenue st)
    /\ st_teachers (fold_left (fun st item => addTo item st) items st)
       = st_teachers st ∪ list_to_set (map teacherName items).
Proof.
  induction items as [|item rest IH]; intros st; simpl.
  - repeat split; try reflexivity.
    symmetry. apply (right_id_L ∅ (∪)).
  - destruct (IH (addTo item st)) as (H1 & H2 & H3 & H4 & H5).
    rewrite H1, H2, H3, H4, H5. simpl. repeat split; try reflexivity.
    now rewrite (assoc_L (∪)).
Qed.

End Rollup.

Section Rollup_theorems.

Import SmartQuery SmartQueryMore.

Lemma locationRows_In (data : list ProcessedTeacherData) (r : LocationRow) :
  In r (locationRows data) ->
  r = locationRow (row_location r, row_stats r)
  /\ bucket (row_location r) (locationStats data) = Some (row_stats r).
Proof.
  unfold locationRows. rewrite in_map_iff. intros ([loc st] & <- & Hin).
  split; [reflexivity|]. simpl. apply In_bucket; [|exact Hin].
  rewrite locationStats_keys. apply distinct_NoDup.
Qed.

Lemma sum_Z_shift {A : Type} (f : A -> Z) (l : list A) (a : Z) :
  fold_left (fun acc x => (acc + f x)%Z) l a = (a + sum_Z f l)%Z.
Proof.
  unfold sum_Z. revert a. induction l as [|x rest IH]; intros a; simpl; [lia|].
  rewrite IH, (IH (0 + f x)%Z). lia.
Qed.

Lemma sum_Z_update (g : LocationStats -> Z) (h : ProcessedTeacherData -> Z)
    (item : ProcessedTeacherData) (acc : list (string * LocationStats)) :
  g emptyStats = 0%Z ->
  (forall st, g (addTo item st) = (g st + h item)%Z) ->
  sum_Z (fun e => g (snd e)) (update (location item) (addTo item) acc)
  = (sum_Z (fun e => g (snd e)) acc + h item)%Z.
Proof.
  intros H0 Hadd. unfold sum_Z.
  induction acc as [|[k st] rest IH]; simpl.
  - rewrite Hadd, H0. reflexivity.
  - destruct (String.eqb k (location item)); simpl.
    + rewrite !sum_Z_shift, Hadd. lia.
    + rewrite !sum_Z_shift. fold (sum_Z (fun e => g (snd e)) rest) in IH.
      unfold sum_Z at 1. unfold sum_Z in IH. rewrite IH. unfold sum_Z. lia.
Qed.

Lemma sum_Z_rows (g : LocationStats -> Z) (h : ProcessedTeacherData -> Z)
    (data : list ProcessedTeacherData) :
  g emptyStats = 0%Z ->
  (forall item st, g (addTo item st) = (g st + h item)%Z) ->
  sum_Z (fun r => g (row_stats r)) (locationRows data) = sum_Z h data.
Proof.
  intros H0 Hadd.
  assert (Hrows : sum_Z (fun r => g (row_stats r)) (locationRows data)
                  = sum_Z (fun e => g (snd e)) (locationStats data)).
  { unfold locationRows, sum_Z. generalize 0%Z.
    induction (locationStats data) as [|[k st] rest IH]; intros a; simpl;
      [reflexivity | apply IH]. }
  rewrite Hrows. clear Hrows.
  induction data as [|item data IH] using rev_ind; [reflexivity|].
  rewrite locationStats_snoc, (sum_Z_update g h item _ H0 (Hadd item)), IH.
  unfold sum_Z. rewrite fold_left_app. reflexivity.
Qed.

End Rollup_theorems.

(** X10: the bucket of a location holds the sums over the items of that
    location, and nothing else: its counts of new, retained and converted
    clients and its revenue are those of the location's items added up in
    input order, and its teacher count is the number of distinct teacher
    names among them. *)
Theorem location_bucket_holds_sums (data : list SmartQuery.ProcessedTeacherData)
    (r : SmartQuery.LocationRow) :
  In r (SmartQuery.locationRows data) ->
  SmartQueryMore.at_location (SmartQuery.row_location r) data <> []
  /\ SmartQuery.st_newClients (SmartQuery.row_stats r)
     = SmartQueryMore.sum_Z SmartQuery.newClients
         (SmartQueryMore.at_location (SmartQuery.row_location r) data)
  /\ SmartQuery.st_retainedClients (SmartQuery.row_stats r)
     = SmartQueryMore.sum_Z SmartQuery.retainedClients
         (SmartQueryMore.at_location (SmartQuery.row_location r) data)
  /\ SmartQuery.st_convertedClients (SmartQuery.row_stats r)
     = SmartQueryMore.sum_Z SmartQuery.convertedClients
         (SmartQueryMore.at_location (SmartQuery.row_location r) data)
  /\ SmartQuery.st_revenue (SmartQuery.row_stats r)
     = SmartQueryMore.sum_Q SmartQuery.totalRevenue
         (SmartQueryMore.at_location (SmartQuery.row_location r) data)
  /\ SmartQuery.teacherCount r
     = size (list_to_set
               (map SmartQuery.teacherName
                  (SmartQueryMore.at_location (SmartQuery.row_location r) data))
             : gset string).
Proof.
  intros Hin. apply locationRows_In in Hin as (Hr & Hb).
  rewrite locationStats_bucket in Hb.
  destruct (SmartQueryMore.at_location (SmartQuery.row_location r) data)
    as [|i0 rest] eqn:Eitems; [discriminate|].
  injection Hb as Hst. split; [discriminate|].
  destruct (totals_newClients (i0 :: rest) SmartQuery.emptyStats)
    as (H1 & H2 & H3 & H4 & H5).
  unfold SmartQueryMore.totals_of in Hst. rewrite Hst in H1, H2, H3, H4, H5.
  repeat split; try assumption.
  rewrite Hr. simpl. rewrite H5. simpl SmartQuery.st_teachers.
  now rewrite (left_id_L ∅ (∪)).
Qed.

Lemma location_bucket_holds_sums_witness :
  In (SmartQuery.locationRow
        ("Studio A", SmartQueryMore.totals_of [bucket_a1; bucket_a2]))
     (SmartQuery.locationRows [bucket_a1; bucket_b; bucket_a2])
  /\ SmartQuery.st_newClients (SmartQueryMore.totals_of [bucket_a1; bucket_a2])
     = SmartQueryMore.sum_Z SmartQuery.newClients
         (SmartQueryMore.at_location "Studio A" [bucket_a1; bucket_b; bucket_a2]).
Proof.
  assert (H : In (SmartQuery.locationRow
                    ("Studio A", SmartQueryMore.totals_of [bucket_a1; bucket_a2]))
                 (SmartQuery.locationRows [bucket_a1; bucket_b; bucket_a2]))
    by (left; reflexivity).
  split; [exact H|].
  exact (proj1 (proj2 (location_bucket_holds_sums _ _ H))).
Defined.

(** X11: there is one bucket per location, and the buckets come in the
    order in which the locations first appear in the data, when the
    location names are ordinary property keys: neither names of the members
    that every object inherits, nor integer-like. *)
Theorem location_buckets_in_first_appearance_order
    (data : list SmartQuery.ProcessedTeacherData) :
  Forall (fun item => SmartQueryMore.ordinary_key (SmartQuery.location item) = true)
    data ->
  map SmartQuery.row_location (SmartQuery.locationRows data)
  = distinct (map SmartQuery.location data)
  /\ List.NoDup (map SmartQuery.row_location (SmartQuery.locationRows data)).
Proof.
  intros _.
  assert (E : map SmartQuery.row_location (SmartQuery.locationRows data)
              = distinct (map SmartQuery.location data)).
  { rewrite <- locationStats_keys. unfold SmartQuery.locationRows.
    rewrite List.map_map. apply map_ext. intros [loc st]. reflexivity. }
  split; [exact E|]. rewrite E. apply distinct_NoDup.
Qed.

(** Three items of two studios: the buckets are those of Studio A and
    Studio B, in this order. *)
Lemma location_buckets_in_first_appearance_order_witness :
  Forall (fun item => SmartQueryMore.ordinary_key (SmartQuery.location item) = true)
    [bucket_a1; bucket_b; bucket_a2]
  /\ map SmartQuery.row_location (SmartQuery.locationRows [bucket_a1; bucket_b; bucket_a2])
     = ["Studio A"; "Studio B"].
Proof.
  assert (H : Forall (fun item =>
                 SmartQueryMore.ordinary_key (SmartQuery.location item) = true)
                [bucket_a1; bucket_b; bucket_a2]) by (repeat constructor).
  split; [exact H|].
  exact (proj1 (location_buckets_in_first_appearance_order
                  [bucket_a1; bucket_b; bucket_a2] H)).
Defined.

(** X12: nothing is counted twice and nothing is lost in the rollup: the
    new, retained and converted clients of all buckets together are those
    of all items together, when no location is named like a member that
    every object inherits. *)
Theorem location_rollup_conserves_counts (data : list SmartQuery.ProcessedTeacherData) :
  Forall (fun item => SmartQueryMore.inherited (SmartQuery.location item) = false)
    data ->
  SmartQueryMore.sum_Z (fun r => SmartQuery.st_newClients (SmartQuery.row_stats r))
    (SmartQuery.locationRows data)
  = SmartQueryMore.sum_Z SmartQuery.newClients data
  /\ SmartQueryMore.sum_Z (fun r => SmartQuery.st_retainedClients (SmartQuery.row_stats r))
       (SmartQuery.locationRows data)
     = SmartQueryMore.sum_Z SmartQuery.retainedClients data
  /\ SmartQueryMore.sum_Z (fun r => SmartQuery.st_convertedClients (SmartQuery.row_stats r))
       (SmartQuery.locationRows data)
     = SmartQueryMore.sum_Z SmartQuery.convertedClients data.
Proof.
  intros _.
  repeat split; apply sum_Z_rows; try reflexivity; intros item st; reflexivity.
Qed.

(** Three items of two studios, with 30 new, 21 retained and 6 converted
    clients in all. *)
Lemma location_rollup_conserves_counts_witness :
  Forall (fun item => SmartQueryMore.inherited (SmartQuery.location item) = false)
    [bucket_a1; bucket_b; bucket_a2]
  /\ SmartQueryMore.sum_Z (fun r => SmartQuery.st_newClients (SmartQuery.row_stats r))
       (SmartQuery.locationRows [bucket_a1; bucket_b; bucket_a2]) = 30%Z
  /\ SmartQueryMore.sum_Z (fun r => SmartQuery.st_retainedClients (SmartQuery.row_stats r))
       (SmartQuery.locationRows [bucket_a1; bucket_b; bucket_a2]) = 21%Z.
Proof.
  assert (H : Forall (fun item =>
                 SmartQueryMore.inherited (SmartQuery.location item) = false)
                [bucket_a1; bucket_b; bucket_a2]) by (repeat constructor).
  split; [exact H|].
  destruct (location_rollup_conserves_counts [bucket_a1; bucket_b; bucket_a2] H)
    as (H1 & H2 & _).
  split; [exact H1 | exact H2].
Defined.

Section Top_location.

Import SmartQuery SmartQueryMore.

Lemma rate_finite (part whole : Z) : exists q, rate part whole = Fin q.
Proof.
  unfold rate. destruct (Z.ltb_spec 0 whole) as [Hpos|_]; [|eauto].
  unfold num_div. simpl. destruct (Z.eqb_spec whole 0); [lia|]. simpl. eauto.
Qed.

Lemma row_rate_finite (data : list ProcessedTeacherData) (r : LocationRow) :
  In r (locationRows data) -> exists q, retentionRate r = Fin q.
Proof.
  unfold locationRows. rewrite in_map_iff. intros ([loc st] & <- & _).
  simpl. apply rate_finite.
Qed.

Lemma difference_positive (qb qa : Q) :
  positive_result (difference_sign (Fin qb) (Fin qa)) = true <-> (qa < qb)%Q.
Proof.
  simpl. rewrite Z.ltb_lt. unfold Qlt, Qminus, Qplus, Qopp. simpl. lia.
Qed.

End Top_location.

(** X13: the top location is a bucket of greatest retention rate; there is
    none exactly when the data is empty.  The location names are ordinary
    property keys: neither names of the members that every object inherits,
    nor integer-like. *)
Theorem top_location_is_best (data : list SmartQuery.ProcessedTeacherData) :
  Forall (fun item => SmartQueryMore.ordinary_key (SmartQuery.location item) = true)
    data ->
  (SmartQueryMore.topLocation data = None <-> data = [])
  /\ forall top,
       SmartQueryMore.topLocation data = Some top ->
       In top (SmartQuery.locationRows data)
       /\ forall r, In r (SmartQuery.locationRows data) ->
            exists qt qr,
              SmartQuery.retentionRate top = Fin qt
              /\ SmartQuery.retentionRate r = Fin qr
              /\ (qr <= qt)%Q.
Proof.
  intros _.
  unfold SmartQueryMore.topLocation.
  set (cmp := fun a b : SmartQuery.LocationRow =>
         SmartQueryMore.difference_sign (SmartQuery.retentionRate b)
           (SmartQuery.retentionRate a)).
  set (rows := SmartQuery.locationRows data).
  pose proof (sort_by_perm cmp rows) as Hperm.
  set (le := fun a b : SmartQuery.LocationRow =>
         exists qa qb, SmartQuery.retentionRate a = Fin qa
                       /\ SmartQuery.retentionRate b = Fin qb /\ (qb <= qa)%Q).
  assert (Hsorted : StronglySorted le (sort_by cmp rows)).
  { apply sort_by_sorted.
    - intros x y Hx Hy Hc.
      destruct (row_rate_finite data x Hx) as (qx & Ex).
      destruct (row_rate_finite data y Hy) as (qy & Ey).
      exists qx, qy. repeat split; try assumption.
      subst cmp. simpl in Hc. rewrite Ex, Ey in Hc.
      apply Qnot_lt_le. intros Hlt. apply difference_positive in Hlt. congruence.
    - intros x y Hx Hy Hc.
      destruct (row_rate_finite data x Hx) as (qx & Ex).
      destruct (row_rate_finite data y Hy) as (qy & Ey).
      exists qy, qx. repeat split; try assumption.
      subst cmp. simpl in Hc. rewrite Ex, Ey in Hc.
      apply difference_positive in Hc. apply Qlt_le_weak. exact Hc.
    - intros x y z _ _ _ (qx & qy & Ex & Ey & Hxy) (qy' & qz & Ey' & Ez & Hyz).
      rewrite Ey in Ey'. injection Ey' as <-.
      exists qx, qz. repeat split; try assumption.
      eapply Qle_trans; eassumption. }
  split.
  - split.
    + intros Hnone. destruct (sort_by cmp rows) as [|x s] eqn:Es; [|discriminate].
      symmetry in Hperm. apply Permutation_nil in Hperm.
      assert (Hkeys : map SmartQuery.row_location rows = []) by (rewrite Hperm; reflexivity).
      subst rows. unfold SmartQuery.locationRows in Hkeys.
      rewrite List.map_map in Hkeys.
      assert (Hk : map fst (SmartQuery.locationStats data) = []).
      { rewrite <- Hkeys. apply map_ext. intros [loc st]. reflexivity. }
      rewrite locationStats_keys in Hk.
      destruct data as [|i d]; [reflexivity | discriminate].
    + intros ->. reflexivity.
  - intros top Htop.
    destruct (sort_by cmp rows) as [|x s] eqn:Es; [discriminate|].
    injection Htop as ->.
    assert (Hin : In top rows).
    { eapply Permutation_in; [symmetry; exact Hperm | now left]. }
    split; [exact Hin|]. intros r Hr.
    apply (Permutation_in _ Hperm) in Hr.
    inversion Hsorted as [|? ? _ Hall]; subst.
    destruct Hr as [<- | Hr].
    + destruct (row_rate_finite data top Hin) as (q & E).
      exists q, q. repeat split; try assumption. apply Qle_refl.
    + rewrite List.Forall_forall in Hall. exact (Hall r Hr).
Qed.


(** Two locations tie at 70 percent; the one that appears first is the top
    location. *)
Lemma top_location_is_best_witness :
  Forall (fun item => SmartQueryMore.ordinary_key (SmartQuery.location item) = true)
    [bucket_a1; bucket_b; bucket_a2]
  /\ exists top,
    SmartQueryMore.topLocation [bucket_a1; bucket_b; bucket_a2] = Some top
    /\ SmartQuery.row_location top = "Studio A"
    /\ In top (SmartQuery.locationRows [bucket_a1; bucket_b; bucket_a2])
    /\ forall r, In r (SmartQuery.locationRows [bucket_a1; bucket_b; bucket_a2]) ->
         exists qt qr,
           SmartQuery.retentionRate top = Fin qt
           /\ SmartQuery.retentionRate r = Fin qr
           /\ (qr <= qt)%Q.
Proof.
  assert (H : Forall (fun item =>
                 SmartQueryMore.ordinary_key (SmartQuery.location item) = true)
                [bucket_a1; bucket_b; bucket_a2]) by (repeat constructor).
  split; [exact H|].
  eexists. split; [vm_compute; reflexivity|]. split; [reflexivity|].
  exact (proj2 (top_location_is_best [bucket_a1; bucket_b; bucket_a2] H) _ eq_refl).
Defined.

(** ** The exclusion reasons *)

Section Exclusions.

Import SmartQueryMore.

Lemma exclusionReasons_snoc (excluded : list row) (client : row) :
  exclusionReasons (excluded ++ [client])
  = <[reason_key client :=
        (default 0 (exclusionReasons excluded !! reason_key client) + 1)%nat]>
      (exclusionReasons excluded).
Proof. unfold exclusionReasons. rewrite fold_left_app. reflexivity. Qed.

Lemma count_reason_snoc (r : string) (excluded : list row) (client : row) :
  count_reason r (excluded ++ [client])
  = (count_reason r excluded
     + (if String.eqb (reason_key client) r then 1 else 0))%nat.
Proof.
  unfold count_reason. rewrite List.filter_app, length_app. simpl.
  destruct (String.eqb (reason_key client) r); reflexivity.
Qed.

Lemma exclusionReasons_lookup (excluded : list row) (r : string) :
  exclusionReasons excluded !! r
  = match count_reason r excluded with
    | O => None
    | S n => Some (S n)
    end.
Proof.
  induction excluded as [|client excluded IH] using rev_ind; [reflexivity|].
  rewrite exclusionReasons_snoc, count_reason_snoc, lookup_insert.
  destruct (String.eqb_spec (reason_key client) r) as [->|Hne].
  - rewrite decide_True by reflexivity. rewrite IH.
    destruct (count_reason r excluded) as [|n]; simpl; reflexivity.
  - rewrite decide_False by exact Hne. rewrite IH, Nat.add_0_r. reflexivity.
Qed.

Lemma sum_insert (m : gmap string nat) (k : string) (v : nat) :
  (map_fold (fun _ n s => n + s) 0 (<[k := v]> m) + default 0 (m !! k)
   = map_fold (fun _ n s => n + s) 0 m + v)%nat.
Proof.
  assert (Hcomm : forall (m' : gmap string nat) (j1 j2 : string) (z1 z2 y : nat),
            j1 <> j2 -> m' !! j1 = Some z1 -> m' !! j2 = Some z2 ->
            (z1 + (z2 + y) = z2 + (z1 + y))%nat) by (intros; lia).
  destruct (m !! k) as [x|] eqn:Hk; simpl.
  - rewrite (map_fold_delete_L _ 0%nat k x m (Hcomm m) Hk).
    rewrite <- insert_delete_eq.
    rewrite (map_fold_insert_L _ 0%nat k v (delete k m) (Hcomm _)).
    + lia.
    + apply lookup_delete_eq.
  - rewrite (map_fold_insert_L _ 0%nat k v m (Hcomm _) Hk). lia.
Qed.

End Exclusions.

(** X14: the breakdown of the exclusions counts every excluded client once,
    when no reason is spelled like the name of a member that every object
    inherits.  The count under a reason is the number of excluded clients
    with that reason, a client without a reason counting under
    [Unknown reason]; a reason nobody has is absent; and the counts add up
    to the number of excluded clients. *)
Theorem exclusion_reasons_count_clients (excludedClients : list row) :
  Forall (fun client => SmartQueryMore.inherited (SmartQueryMore.reason_key client) = false)
    excludedClients ->
  (forall r,
     SmartQueryMore.exclusionReasons excludedClients !! r
     = match SmartQueryMore.count_reason r excludedClients with
       | O => None
       | S n => Some (S n)
       end)
  /\ (forall client,
        In client excludedClients -> client !! "reason" = None ->
        is_Some (SmartQueryMore.exclusionReasons excludedClients !! "Unknown reason"))
  /\ map_fold (fun _ n s => n + s)%nat 0%nat
       (SmartQueryMore.exclusionReasons excludedClients)
     = length excludedClients.
Proof.
  intros _.
  split; [apply exclusionReasons_lookup|]. split.
  - intros client Hin Hnone. rewrite exclusionReasons_lookup.
    assert (Hc : In client
              (List.filter (fun c => String.eqb (SmartQueryMore.reason_key c) "Unknown reason")
                 excludedClients)).
    { apply filter_In. split; [exact Hin|].
      unfold SmartQueryMore.reason_key. rewrite Hnone. reflexivity. }
    unfold SmartQueryMore.count_reason.
    destruct (List.filter _ excludedClients); [contradiction | simpl; eauto].
  - induction excludedClients as [|client excluded IH] using rev_ind; [reflexivity|].
    rewrite exclusionReasons_snoc, length_app. simpl.
    pose proof (sum_insert (SmartQueryMore.exclusionReasons excluded)
                  (SmartQueryMore.reason_key client)
                  (default 0 (SmartQueryMore.exclusionReasons excluded
                                !! SmartQueryMore.reason_key client) + 1)) as H.
    lia.
Qed.

Lemma exclusion_reasons_count_clients_witness :
  Forall (fun client => SmartQueryMore.inherited (SmartQueryMore.reason_key client) = false)
    [excluded_staff; excluded_unknown; excluded_staff]
  /\ In excluded_unknown [excluded_staff; excluded_unknown; excluded_staff]
  /\ excluded_unknown !! "reason" = None
  /\ is_Some (SmartQueryMore.exclusionReasons
                [excluded_staff; excluded_unknown; excluded_staff] !! "Unknown reason")
  /\ SmartQueryMore.exclusionReasons
       [excluded_staff; excluded_unknown; excluded_staff] !! "Staff member" = Some 2%nat.
Proof.
  assert (H1 : In excluded_unknown [excluded_staff; excluded_unknown; excluded_staff])
    by (right; left; reflexivity).
  assert (H2 : excluded_unknown !! "reason" = None) by reflexivity.
  assert (H0 : Forall (fun client =>
                  SmartQueryMore.inherited (SmartQueryMore.reason_key client) = false)
                 [excluded_staff; excluded_unknown; excluded_staff])
    by (repeat constructor).
  split; [exact H0|]. split; [exact H1|]. split; [exact H2|].
  destruct (exclusion_reasons_count_clients
              [excluded_staff; excluded_unknown; excluded_staff] H0) as (Hc & Hu & _).
  split; [exact (Hu _ H1 H2)|]. rewrite Hc. reflexivity.
Defined.

(** ** The studio average *)

Lemma sum_of_finite (rates : list number) :
  Forall (fun r => exists q, r = Fin q) rates ->
  forall a, exists s, fold_left num_add rates (Fin a) = Fin s.
Proof.
  induction 1 as [|r rest (q & ->) _ IH]; intros a; simpl; [eauto|]. apply IH.
Qed.

(** X15: the studio average of the conversion rates, unlike the guarded
    rates, is [NaN] on empty data, and only there: on finite rates it is
    [NaN] exactly when there is no item, and a finite number otherwise. *)
Theorem studio_average_nan_iff_empty (rates : list number) :
  Forall (fun r => exists q, r = Fin q) rates ->
  (SmartQueryMore.avgConversion rates = NaN <-> rates = [])
  /\ (rates <> [] -> exists q, SmartQueryMore.avgConversion rates = Fin q).
Proof.
  intros Hfin. unfold SmartQueryMore.avgConversion.
  destruct rates as [|r rest]; [split; [split; reflexivity | congruence]|].
  destruct (sum_of_finite (r :: rest) Hfin 0) as (s & ->).
  assert (E : SmartQueryMore.num_over (Fin s) (length (r :: rest))
              = Fin (s / Q_of_nat (length (r :: rest)))) by reflexivity.
  rewrite E. split; [split; discriminate | eauto].
Qed.

Lemma studio_average_nan_iff_empty_witness :
  Forall (fun r => exists q, r = Fin q) [Fin 10; Fin 20]
  /\ exists q, SmartQueryMore.avgConversion [Fin 10; Fin 20] = Fin q.
Proof.
  assert (H : Forall (fun r => exists q, r = Fin q) [Fin 10; Fin 20])
    by (repeat constructor; eauto).
  split; [exact H|].
  exact (proj2 (studio_average_nan_iff_empty [Fin 10; Fin 20] H) ltac:(discriminate)).
Defined.

(** ** The order of strings *)

Lemma string_compare_trans (a : string) :
  forall b c, String.compare a b <> Gt -> String.compare b c <> Gt ->
              String.compare a c <> Gt.
Proof.
  induction a as [|x a IH]; intros [|y b] [|z c]; simpl; try congruence.
  unfold Ascii.compare.
  destruct (N.compare_spec (N_of_ascii x) (N_of_ascii y)) as [Exy|Hxy|Hxy];
    destruct (N.compare_spec (N_of_ascii y) (N_of_ascii z)) as [Eyz|Hyz|Hyz];
    destruct (N.compare_spec (N_of_ascii x) (N_of_ascii z)) as [Exz|Hxz|Hxz];
    try congruence; try lia.
  apply IH.
Qed.

Lemma string_leb_trans (a b c : string) :
  String.leb a b = true -> String.leb b c = true -> String.leb a c = true.
Proof.
  unfold String.leb. intros Hab Hbc.
  pose proof (string_compare_trans a b c) as H.
  destruct (String.compare a b), (String.compare b c), (String.compare a c);
    try reflexivity; try discriminate; exfalso; apply H; congruence.
Qed.

Lemma compareStrings_not_positive (a b : string) :
  positive_result (Filters.compareStrings a b) = false -> String.leb a b = true.
Proof.
  unfold Filters.compareStrings, String.ltb, String.leb.
  rewrite (String.compare_antisym a b).
  destruct (String.compare b a); simpl; try reflexivity; discriminate.
Qed.

Lemma compareStrings_positive (a b : string) :
  positive_result (Filters.compareStrings a b) = true -> String.leb b a = true.
Proof.
  unfold Filters.compareStrings, String.ltb, String.leb.
  rewrite (String.compare_antisym a b).
  destruct (String.compare b a); simpl; try reflexivity; discriminate.
Qed.

(** ** The filter bar *)

Section Filter_bar.

Import Filters.

Lemma uniqueValues_spec (field : Item -> string) (keep : string -> bool)
    (data : list (option Item)) :
  (forall v, In v (uniqueValues field keep data) <->
     (exists item, In (Some item) data /\ field item = v) /\ v <> "" /\ keep v = true)
  /\ List.NoDup (uniqueValues field keep data)
  /\ StronglySorted (fun a b => String.leb a b = true) (uniqueValues field keep data).
Proof.
  unfold uniqueValues.
  set (pick := fun item : option Item =>
         match item with
         | Some it => if String.eqb (field it) "" then None else Some (field it)
         | None => None
         end).
  set (values := distinct (List.filter keep (omap pick data))).
  pose proof (sort_by_perm compareStrings values) as Hperm.
  split; [|split].
  - intros v. split.
    + intros Hv. apply (Permutation_in _ (Permutation_sym Hperm)) in Hv.
      subst values. apply (proj1 (distinct_In _ _)) in Hv.
      apply filter_In in Hv as (Hv & Hk).
      apply list_elem_of_In, list_elem_of_omap in Hv as (item & Hitem & Hp).
      apply list_elem_of_In in Hitem.
      destruct item as [it|]; [|discriminate]. simpl in Hp.
      destruct (String.eqb_spec (field it) "") as [|Hne]; [discriminate|].
      injection Hp as <-. split; [eauto|]. split; assumption.
    + intros ((it & Hit & <-) & Hne & Hk). apply (Permutation_in _ Hperm).
      subst values. apply (proj2 (distinct_In _ _)). apply filter_In. split; [|exact Hk].
      apply list_elem_of_In, list_elem_of_omap. exists (Some it).
      split; [apply list_elem_of_In; exact Hit|]. simpl.
      destruct (String.eqb_spec (field it) ""); [contradiction | reflexivity].
  - eapply Permutation_NoDup; [exact Hperm|]. subst values. apply distinct_NoDup.
  - apply sort_by_sorted.
    + intros x y _ _. apply compareStrings_not_positive.
    + intros x y _ _. apply compareStrings_positive.
    + intros x y z _ _ _. apply string_leb_trans.
Qed.

Lemma list_includes_In (l : list string) (x : string) :
  list_includes l x = true <-> In x l.
Proof. unfold list_includes. apply existsb_eqb_In. Qed.

End Filter_bar.

(** X16: the teachers offered by the filter bar are the teacher names found
    in the data, each once and in ascending order, without the blank ones
    and without the [All Teachers] rollup label. *)
Theorem unique_teachers_sorted_distinct (data : list (option Filters.Item)) :
  (forall t, In t (Filters.uniqueTeachers data) <->
     (exists item, In (Some item) data /\ Filters.teacherName item = t)
     /\ Filters.trim t <> "" /\ t <> "All Teachers")
  /\ List.NoDup (Filters.uniqueTeachers data)
  /\ StronglySorted (fun a b => String.leb a b = true) (Filters.uniqueTeachers data).
Proof.
  unfold Filters.uniqueTeachers.
  destruct (uniqueValues_spec Filters.teacherName
              (fun teacher => Filters.notBlank teacher
                              && negb (String.eqb teacher "All Teachers")) data)
    as (Hin & Hnd & Hs).
  split; [|split; assumption].
  intros t. rewrite Hin. unfold Filters.notBlank.
  rewrite andb_true_iff, !negb_true_iff, !String.eqb_neq.
  split; [tauto|]. intros (Hex & Hb & Ha). repeat split; try assumption.
  intros ->. apply Hb. reflexivity.
Qed.

Section Filter_bar_theorems.

Import Filters.

Lemma restrict_In (field : Item -> string) (selected : list string)
    (items : list Item) (item : Item) :
  In item (restrict field selected items) <-> In item items /\ allows field selected item.
Proof.
  unfold restrict, allows. destruct selected as [|s rest].
  - tauto.
  - rewrite filter_In, andb_true_iff, negb_true_iff, String.eqb_neq, list_includes_In.
    split; [intros (? & ? & ?); auto | intros (? & [? | ?]); [discriminate | auto]].
Qed.

Lemma restrict_sublist (field : Item -> string) (selected : list string)
    (items : list Item) :
  sublist (restrict field selected items) items.
Proof.
  unfold restrict. destruct selected as [|s rest]; [reflexivity|].
  induction items as [|x r IH]; simpl; [constructor|].
  destruct (_ && _); [apply sublist_skip | apply sublist_cons]; exact IH.
Qed.

Lemma omap_id_In (data : list (option Item)) (item : Item) :
  In item (omap (fun x => x) data) <-> In (Some item) data.
Proof.
  rewrite <- !list_elem_of_In, list_elem_of_omap. split.
  - intros (x & Hx & ->). exact Hx.
  - intros H. exists (Some item). auto.
Qed.

Lemma applyFilters_In (data : list (option Item)) (selected : Selection) (item : Item) :
  In item (applyFilters data selected) <->
  In (Some item) data
  /\ allows period (sel_period selected) item
  /\ allows teacherName (sel_teacher selected) item
  /\ allows location (sel_location selected) item.
Proof. unfold applyFilters. rewrite !restrict_In, omap_id_In. tauto. Qed.

End Filter_bar_theorems.

(** X17: what the filter bar lets through.  An item is shown exactly when
    it is in the data and each of the three selections allows it: a
    selection allows everything when it is empty, and otherwise the items
    whose field is set and is among the selected values.  The items shown
    keep their order; with nothing selected all items are shown. *)
Theorem filters_keep_matching_items (data : list (option Filters.Item))
    (selected : Filters.Selection) :
  (forall item, In item (Filters.applyFilters data selected) <->
     In (Some item) data
     /\ Filters.allows Filters.period (Filters.sel_period selected) item
     /\ Filters.allows Filters.teacherName (Filters.sel_teacher selected) item
     /\ Filters.allows Filters.location (Filters.sel_location selected) item)
  /\ sublist (Filters.applyFilters data selected) (omap (fun item => item) data)
  /\ Filters.applyFilters data (Filters.mkSelection [] [] [])
     = omap (fun item => item) data.
Proof.
  split; [|split].
  - intros item. apply applyFilters_In.
  - unfold Filters.applyFilters.
    etransitivity; [apply restrict_sublist|].
    etransitivity; [apply restrict_sublist|]. apply restrict_sublist.
  - reflexivity.
Qed.

Lemma unique_teachers_named (data : list (option Filters.Item)) (t : string) :
  In t (Filters.uniqueTeachers data) -> t <> "All Teachers".
Proof.
  unfold Filters.uniqueTeachers. intros H.
  apply (proj1 (uniqueValues_spec _ _ data)) in H as (_ & _ & Hk).
  apply andb_true_iff in Hk as (_ & Hk).
  apply negb_true_iff, String.eqb_neq in Hk. exact Hk.
Qed.

(** X18: the default filters and the rollup rows.  When the data names at
    least one teacher, the default selection (all named teachers, the
    preferred or else the first location and period) shows no [All
    Teachers] row: every item shown has a named teacher, the selected
    location and the selected period. *)
Theorem default_filters_hide_rollup_rows (data : list (option Filters.Item))
    (item : Filters.Item) :
  Filters.uniqueTeachers data <> [] ->
  In item (Filters.applyFilters data (Filters.defaultFilters data)) ->
  Filters.teacherName item <> "All Teachers"
  /\ In (Filters.teacherName item) (Filters.uniqueTeachers data)
  /\ (forall l, Filters.sel_location (Filters.defaultFilters data) = [l] ->
                Filters.location item = l)
  /\ (forall p, Filters.sel_period (Filters.defaultFilters data) = [p] ->
                Filters.period item = p).
Proof.
  intros Hne Hin.
  apply applyFilters_In in Hin as (Hdata & Hp & Ht & Hl).
  assert (Hteacher : In (Filters.teacherName item) (Filters.uniqueTeachers data)).
  { destruct Ht as [Ht | (_ & Ht)]; [|exact Ht]. simpl in Ht. contradiction. }
  split; [|split; [exact Hteacher|split]].
  - pose proof (unique_teachers_named data (Filters.teacherName item) Hteacher). tauto.
  - intros l Hsel. destruct Hl as [Hl | (_ & Hl)]; [congruence|].
    rewrite Hsel in Hl. destruct Hl as [<- | []]. reflexivity.
  - intros p Hsel. destruct Hp as [Hp | (_ & Hp)]; [congruence|].
    rewrite Hsel in Hp. destruct Hp as [<- | []]. reflexivity.
Qed.

Lemma default_filters_hide_rollup_rows_witness :
  Filters.uniqueTeachers studio_data <> []
  /\ In (Filters.mkItem "Jun-25" "Zed" "Kwality House")
       (Filters.applyFilters studio_data (Filters.defaultFilters studio_data))
  /\ Filters.teacherName (Filters.mkItem "Jun-25" "Zed" "Kwality House")
     <> "All Teachers".
Proof.
  assert (H1 : Filters.uniqueTeachers studio_data <> []) by (vm_compute; discriminate).
  assert (H2 : In (Filters.mkItem "Jun-25" "Zed" "Kwality House")
                 (Filters.applyFilters studio_data (Filters.defaultFilters studio_data)))
    by (vm_compute; left; reflexivity).
  split; [exact H1|]. split; [exact H2|].
  exact (proj1 (default_filters_hide_rollup_rows studio_data _ H1 H2)).
Defined.

(** ** The index page *)

Section Page.

Import Filters.




Lemma removeFrom_spec {A : Type} (files : list A) :
  forall i index,
    removeFrom i index files
    = if (i <=? index)%nat
      then take (index - i) files ++ drop (S (index - i)) files
      else files.
Proof.
  induction files as [|file rest IH]; intros i index; cbn [removeFrom].
  - destruct (i <=? index)%nat; [|reflexivity].
    destruct (index - i)%nat; reflexivity.
  - rewrite !IH. destruct (Nat.eqb_spec i index) as [->|Hne].
    + rewrite Nat.leb_refl, Nat.sub_diag.
      destruct (Nat.leb_spec (S index) index); [lia | reflexivity].
    + destruct (Nat.leb_spec i index) as [Hle|Hgt];
        destruct (Nat.leb_spec (S i) index) as [Hle'|Hgt']; try lia.
      * replace (index - i)%nat with (S (index - S i)) by lia. reflexivity.
      * reflexivity.
Qed.

End Page.


(** X20: removing a file removes the file at that position and no other:
    the files before it and after it remain, in order; a position beyond
    the end of the list removes nothing. *)
Theorem remove_file_removes_one {A : Type} (files : list A) (index : nat) :
  Filters.handleRemoveFile files index = take index files ++ drop (S index) files
  /\ ((index < length files)%nat ->
      S (length (Filters.handleRemoveFile files index)) = length files)
  /\ ((length files <= index)%nat -> Filters.handleRemoveFile files index = files).
Proof.
  unfold Filters.handleRemoveFile.
  rewrite removeFrom_spec. simpl. rewrite Nat.sub_0_r.
  split; [reflexivity|]. split.
  - intros H. rewrite length_app, length_take, length_drop. lia.
  - intros H. rewrite take_ge by exact H. rewrite drop_ge by lia.
    apply app_nil_r.
Qed.

Lemma remove_file_removes_one_witness :
  (1 < length ["new.csv"; "bookings.csv"; "payments.csv"])%nat
  /\ Filters.handleRemoveFile ["new.csv"; "bookings.csv"; "payments.csv"] 1
     = ["new.csv"; "payments.csv"]
  /\ (length ["new.csv"; "bookings.csv"; "payments.csv"] <= 7)%nat
  /\ Filters.handleRemoveFile ["new.csv"; "bookings.csv"; "payments.csv"] 7
     = ["new.csv"; "bookings.csv"; "payments.csv"].
Proof.
  assert (H1 : (1 < length ["new.csv"; "bookings.csv"; "payments.csv"])%nat)
    by (simpl; lia).
  assert (H2 : (length ["new.csv"; "bookings.csv"; "payments.csv"] <= 7)%nat)
    by (simpl; lia).
  split; [exact H1|].
  split; [exact (proj1 (remove_file_removes_one
                          ["new.csv"; "bookings.csv"; "payments.csv"] 1%nat))|].
  split; [exact H2|].
  exact (proj2 (proj2 (remove_file_removes_one
                         ["new.csv"; "bookings.csv"; "payments.csv"] 7%nat)) H2).
Defined.

(** ** The storage *)

Section Storage_lemmas.

Import Storage.

Lemma clearStorage_lookup (keys : list string) :
  forall (store : gmap string string) (k : string),
    clearStorage keys store !! k
    = if existsb (String.eqb k) keys then None else store !! k.
Proof.
  unfold clearStorage. induction keys as [|key rest IH]; intros store k; simpl.
  - reflexivity.
  - rewrite IH. destruct (existsb (String.eqb k) rest) eqn:E.
    + now rewrite orb_true_r.
    + rewrite orb_false_r. rewrite lookup_delete.
      destruct (String.eqb_spec k key) as [->|Hne].
      * now rewrite decide_True.
      * rewrite decide_False by congruence. reflexivity.
Qed.

End Storage_lemmas.



(** X22: the size limit concerns the raw data only.  A text above 2 MB is
    not stored under a key that contains [raw], and the storage stays as it
    was; of the keys of the application only [studio-stats-raw-data] is
    such a key, and under every other key the size plays no part: the save
    succeeds exactly when [localStorage.setItem] accepts the entry. *)
Theorem size_limit_for_raw_data_only (Data : Type)
    (JSON_stringify : Data -> option string) (Blob_size : string -> N)
    (setItem_succeeds : gmap string string -> string -> string -> bool)
    (store : gmap string string) (key : string) (data : Data) (dataStr : string) :
  JSON_stringify data = Some dataStr ->
  ((2097152 < Blob_size dataStr)%N -> includes key "raw" = true ->
     Storage.saveToStorage Data JSON_stringify Blob_size setItem_succeeds store key data
     = (false, store))
  /\ (In key Storage.STORAGE_KEYS -> key <> "studio-stats-raw-data" ->
      fst (Storage.saveToStorage Data JSON_stringify Blob_size setItem_succeeds
             store key data)
      = setItem_succeeds store key dataStr).
Proof.
  intros Es. unfold Storage.saveToStorage. rewrite Es. split.
  - intros Hbig Hraw. rewrite Hraw.
    replace (2 * 1024 * 1024 <? Blob_size dataStr)%N with true; [reflexivity|].
    symmetry. apply N.ltb_lt. exact Hbig.
  - intros Hin Hne.
    assert (Hraw : includes key "raw" = false).
    { unfold Storage.STORAGE_KEYS in Hin. simpl in Hin.
      repeat (destruct Hin as [<- | Hin]; [try reflexivity; congruence|]).
      contradiction. }
    rewrite Hraw, andb_false_r.
    destruct (setItem_succeeds store key dataStr); reflexivity.
Qed.

Lemma size_limit_for_raw_data_only_witness :
  Storage.tag_text "x" = Some "tx"
  /\ In "studio-stats-teachers" Storage.STORAGE_KEYS
  /\ "studio-stats-teachers" <> "studio-stats-raw-data"
  /\ fst (Storage.saveToStorage string Storage.tag_text Storage.text_size
            Storage.small_quota ∅ "studio-stats-teachers" "x")
     = Storage.small_quota ∅ "studio-stats-teachers" "tx".
Proof.
  assert (H1 : Storage.tag_text "x" = Some "tx") by reflexivity.
  assert (H2 : In "studio-stats-teachers" Storage.STORAGE_KEYS)
    by (right; right; right; left; reflexivity).
  assert (H3 : "studio-stats-teachers" <> "studio-stats-raw-data") by discriminate.
  split; [exact H1|]. split; [exact H2|]. split; [exact H3|].
  exact (proj2 (size_limit_for_raw_data_only string Storage.tag_text Storage.text_size
                  Storage.small_quota ∅ "studio-stats-teachers" "x" "tx" H1) H2 H3).
Defined.

(** X23: clearing forgets the keys cleared and nothing else.  After
    [clearStorage] a cleared key loads as [null] and every other key holds
    what it held; after clearing the keys of the application, as a reset
    does, each of the seven loads as [null]. *)
Theorem cleared_keys_load_null (Data : Type) (JSON_parse : string -> option Data)
    (keys : list string) (store : gmap string string) :
  (forall k, In k keys ->
     Storage.loadFromStorage Data JSON_parse (Storage.clearStorage keys store) k = None)
  /\ (forall k, ~ In k keys -> Storage.clearStorage keys store !! k = store !! k)
  /\ Forall (fun k =>
               Storage.loadFromStorage Data JSON_parse
                 (Storage.clearStorage Storage.STORAGE_KEYS store) k = None)
       Storage.STORAGE_KEYS.
Proof.
  assert (Hcleared : forall ks k, In k ks ->
            Storage.loadFromStorage Data JSON_parse (Storage.clearStorage ks store) k = None).
  { intros ks k Hk. unfold Storage.loadFromStorage. rewrite clearStorage_lookup.
    apply existsb_eqb_In in Hk. rewrite Hk. reflexivity. }
  split; [apply Hcleared|]. split.
  - intros k Hk. rewrite clearStorage_lookup.
    destruct (existsb (String.eqb k) keys) eqn:E; [|reflexivity].
    apply existsb_eqb_In in E. contradiction.
  - apply List.Forall_forall. intros k Hk. apply Hcleared. exact Hk.
Qed.

Lemma cleared_keys_load_null_witness :
  In "studio-stats-locations" ["studio-stats-locations"]
  /\ Storage.loadFromStorage string Storage.untag_text
       (Storage.clearStorage ["studio-stats-locations"]
          {[ "studio-stats-locations" := "tKwality House" ]})
       "studio-stats-locations" = None.
Proof.
  assert (H : In "studio-stats-locations" ["studio-stats-locations"]) by (left; reflexivity).
  split; [exact H|].
  exact (proj1 (cleared_keys_load_null string Storage.untag_text
                  ["studio-stats-locations"]
                  {[ "studio-stats-locations" := "tKwality House" ]}) _ H).
Defined.
